(** * Staff evaluation score visuals: a shallow embedding of [eval.py]

    The program reads a table of staff observations, cleans it
    ([load_clean]), collapses the evaluation-type labels into display
    groups ([make_eval_group]), aggregates the scores four ways and writes
    one figure and one summary table per aggregation ([main]).

    Conventions of the embedding.
    - A pandas DataFrame is a list of column labels and a list of rows; a
      row carries its index label and its cells by position.
    - float64 arithmetic is idealised as exact arithmetic on [Q]; NaN, NaT
      and None are the one cell [NA], and a float that may be NaN is an
      [option Q].  A square root is kept by its radicand.  Where rounding
      decides, [Series.std] is computed once more in binary64 ([std64]).
    - The parsers of pandas ([pd.to_datetime], [pd.to_numeric]) and its
      number and timestamp printers are the fields of the class [Pandas]:
      the theorems hold whatever they compute.
    - A raised exception is a value of [exn] in the [result] sum; the
      functions that write are computations over the list of written
      files.
    - A figure is the data it is drawn from.  Of the drawing calls of
      matplotlib only the check [boxplot] makes of its labels against its
      data is modelled; the others are taken not to raise. *)

From Stdlib Require Import List String Ascii Bool Arith ZArith QArith Qround Qminmax Lia.
From Stdlib Require Import Permutation Sorted.
From Stdlib Require Floats Uint63.
Import ListNotations.
Local Close Scope Q_scope.
Local Open Scope string_scope.
Local Open Scope list_scope.
Local Open Scope nat_scope.

(** ** Strings *)

Definition newline : ascii := "010"%char.

(** [s.startswith(l)], returning what follows the prefix. *)
Fixpoint strip_prefix (l s : string) : option string :=
  match l, s with
  | EmptyString, _ => Some s
  | String a l', String b s' => if Ascii.eqb a b then strip_prefix l' s' else None
  | String _ _, EmptyString => None
  end.

(** ** The regular expressions of the rule table

    Every pattern of [make_eval_group] has the shape [^lit(.*lit)*.*$]: the
    two anchors around literal texts separated by [.*].  A pattern is kept
    as the list of atoms between the anchors. *)

Module Re.

Inductive atom : Type :=
| Lit (l : string)   (* literal text, no metacharacter *)
| DotStar.           (* [.*]: any run of characters other than newline *)

Definition pattern := list atom.

(** [$] without [re.MULTILINE]: at the end of the string, or just before a
    newline that is the last character. *)
Definition at_end (s : string) : bool :=
  match s with
  | EmptyString => true
  | String c EmptyString => Ascii.eqb c newline
  | _ => false
  end.

(** Greedy [.*] followed by the continuation [k]: the longest run is tried
    first and shortened on failure, as the backtracking matcher does. *)
Fixpoint star (k : string -> option string) (s : string) : option string :=
  match s with
  | EmptyString => k s
  | String c s' =>
      if Ascii.eqb c newline then k s
      else match star k s' with
           | Some rest => Some rest
           | None => k s
           end
  end.

(** Match the atoms, then [$], from the current position; the result is
    the text left after the match. *)
Fixpoint match_here (p : pattern) (s : string) : option string :=
  match p with
  | [] => if at_end s then Some s else None
  | Lit l :: p' =>
      match strip_prefix l s with
      | Some s' => match_here p' s'
      | None => None
      end
  | DotStar :: p' => star (match_here p') s
  end.

(** [re.search(^p$, s)]: [^] only holds at position 0, so the search is
    the match at the start of [s]. *)
Definition search (p : pattern) (s : string) : bool :=
  match match_here p s with Some _ => true | None => false end.

(** [re.sub(^p$, repl, s)]: the match, if any, starts at 0 and no second
    match can start after it, so the one match is rewritten and the text
    after it kept.  [repl] has no backslash: it is inserted as it is. *)
Definition sub (p : pattern) (repl s : string) : string :=
  match match_here p s with
  | Some rest => repl ++ rest
  | None => s
  end.

End Re.

(** ** The rule table of [make_eval_group]

    A Python dict keeps insertion order, and pandas walks the pairs in
    that order. *)

Import Re.

Definition prefix_with (role qual : string) : pattern :=
  [Lit role; DotStar; Lit qual; DotStar].
Definition prefix_only (role : string) : pattern :=
  [Lit role; DotStar].

Definition eval_group_rules : list (pattern * string) :=
  [ (prefix_with "Teacher" "Announced", "Teacher (Announced)");
    (prefix_with "Teacher" "Unannounced", "Teacher (Unannounced)");
    (prefix_with "Teacher" "Domain 4", "Teacher (Domain 4)");
    (prefix_with "Counselor" "Announced", "Counselor (Announced)");
    (prefix_with "Counselor" "Unannounced", "Counselor (Unannounced)");
    (prefix_with "Counselor" "Domain 4", "Counselor (Domain 4)");
    (prefix_with "Nurse" "Announced", "Nurse (Announced)");
    (prefix_with "Nurse" "Unannounced", "Nurse (Unannounced)");
    (prefix_with "Nurse" "Domain 4", "Nurse (Domain 4)");
    (prefix_only "Child Study Team", "Child Study Team");
    (prefix_only "Related Services", "Related Services");
    (prefix_only "Instructional Assistant", "Instructional Assistant");
    (prefix_only "Administrators", "Administrator");
    (prefix_only "Media", "Media Specialist") ].

(** [Series.replace(dict, regex=True)] on one value.  pandas computes, for
    each pair, the mask of the values the pattern matches on the series as
    it was given, and then runs the pairs in order: the values under the
    mask of a pair are rewritten with [re.sub] on their current text. *)
Fixpoint replace_list (rules : list (pattern * string)) (orig cur : string) : string :=
  match rules with
  | [] => cur
  | (p, v) :: rest =>
      replace_list rest orig (if search p orig then sub p v cur else cur)
  end.

Definition series_replace (rules : list (pattern * string)) (s : string) : string :=
  replace_list rules s s.

(** The group of one stringified label. *)
Definition eval_group (label : string) : string :=
  series_replace eval_group_rules label.

(** The rules run one after the other on the current text, without the
    masks: the reading of a plain sequence of replacements. *)
Fixpoint replace_seq (rules : list (pattern * string)) (cur : string) : string :=
  match rules with
  | [] => cur
  | (p, v) :: rest => replace_seq rest (sub p v cur)
  end.

(** The reference of the specification: the first rule whose pattern
    matches rewrites the label, once, and no other rule is looked at. *)
Fixpoint first_match_wins (rules : list (pattern * string)) (s : string) : string :=
  match rules with
  | [] => s
  | (p, v) :: rest => if search p s then sub p v s else first_match_wins rest s
  end.

(** No rule of [rules] matches [cur]. *)
Definition quiet (rules : list (pattern * string)) (cur : string) : bool :=
  forallb (fun pv => negb (search (fst pv) cur)) rules.

(** No rule matches what an earlier rule writes. *)
Fixpoint separated (rules : list (pattern * string)) : bool :=
  match rules with
  | [] => true
  | (_, v) :: rest =>
      quiet rest v && quiet rest (String.append v (String newline EmptyString))
      && separated rest
  end.

(** ** Cells, rows and frames *)

(** A pandas Timestamp, by its calendar fields; [tod] is the time of day
    in nanoseconds.  Timestamps are ordered field by field. *)
Record timestamp : Type := { year : Z; month : Z; day : Z; tod : Z }.

Definition ts_leb (a b : timestamp) : bool :=
  if (year a <? year b)%Z then true else if (year b <? year a)%Z then false else
  if (month a <? month b)%Z then true else if (month b <? month a)%Z then false else
  if (day a <? day b)%Z then true else if (day b <? day a)%Z then false else
  (tod a <=? tod b)%Z.

Definition ts_eqb (a b : timestamp) : bool :=
  (year a =? year b)%Z && (month a =? month b)%Z
  && (day a =? day b)%Z && (tod a =? tod b)%Z.

Inductive cell : Type :=
| NA                   (* NaN, NaT, None *)
| Str (s : string)     (* text (object) *)
| Num (q : Q)          (* int64 or float64 *)
| Ts (t : timestamp).  (* datetime64 *)

Definition isna (c : cell) : bool :=
  match c with NA => true | _ => false end.

Definition fillna (c d : cell) : cell :=
  match c with NA => d | _ => c end.

(** What the embedding takes from pandas without modelling it. *)
Class Pandas : Type := {
  (* [pd.to_datetime(col, errors="coerce")] at one element of [col]; the
     whole column is an argument because the format may be inferred from
     it.  [None] is NaT. *)
  to_datetime : list cell -> cell -> option timestamp;
  (* [pd.to_numeric(col, errors="coerce")] at one element; [None] is NaN *)
  to_numeric : cell -> option Q;
  (* [str] of a number and of a timestamp, as [astype(str)] prints them *)
  num_repr : Q -> string;
  ts_repr : timestamp -> string
}.

Definition of_ts (o : option timestamp) : cell :=
  match o with Some t => Ts t | None => NA end.

Definition of_num (o : option Q) : cell :=
  match o with Some q => Num q | None => NA end.

(** [Series.astype(str)] at one element: a missing value prints as [nan]. *)
Definition astype_str `{Pandas} (c : cell) : string :=
  match c with
  | NA => "nan"
  | Str s => s
  | Num q => num_repr q
  | Ts t => ts_repr t
  end.

(** A row: its index label, kept by every filter, and its cells. *)
Record row : Type := { label : nat; cells : list cell }.

Record frame : Type := { columns : list string; rows : list row }.

(** Position of a column label; labels are taken to be distinct (the
    reader of pandas makes them so), the first occurrence counts. *)
Fixpoint col_index (c : string) (cols : list string) : option nat :=
  match cols with
  | [] => None
  | c' :: cols' =>
      if String.eqb c c' then Some O
      else match col_index c cols' with Some i => Some (S i) | None => None end
  end.

Definition has_col (c : string) (df : frame) : bool :=
  match col_index c (columns df) with Some _ => true | None => false end.

Definition cell_at (i : nat) (r : row) : cell := nth i (cells r) NA.

(** [df[c]] at row [r]. *)
Definition lookup (df : frame) (c : string) (r : row) : cell :=
  match col_index c (columns df) with
  | Some i => cell_at i r
  | None => NA
  end.

Definition column (c : string) (df : frame) : list cell :=
  map (lookup df c) (rows df).

Fixpoint list_put (i : nat) (v : cell) (l : list cell) : list cell :=
  match i, l with
  | O, [] => [v]
  | O, _ :: l' => v :: l'
  | S i', [] => NA :: list_put i' v []
  | S i', x :: l' => x :: list_put i' v l'
  end.

Definition put (i : nat) (v : cell) (r : row) : row :=
  {| label := label r; cells := list_put i v (cells r) |}.

(** [df[c] = values], the value of each row computed from that row: the
    column is overwritten where it exists and appended where it does not. *)
Definition assign (c : string) (f : row -> cell) (df : frame) : frame :=
  match col_index c (columns df) with
  | Some i =>
      {| columns := columns df; rows := map (fun r => put i (f r) r) (rows df) |}
  | None =>
      {| columns := columns df ++ [c];
         rows := map (fun r => put (List.length (columns df)) (f r) r) (rows df) |}
  end.

(** The row [assign] makes of a row. *)
Definition assigned (c : string) (f : row -> cell) (df : frame) (r : row) : row :=
  match col_index c (columns df) with
  | Some i => put i (f r) r
  | None => put (List.length (columns df)) (f r) r
  end.

Definition filter_rows (keep : row -> bool) (df : frame) : frame :=
  {| columns := columns df; rows := filter keep (rows df) |}.

(** [df.dropna(subset=cols)] *)
Definition dropna (cols : list string) (df : frame) : frame :=
  filter_rows (fun r => forallb (fun c => negb (isna (lookup df c r))) cols) df.

(** [str.strip()]: the characters below 256 for which [str.isspace] holds. *)
Definition is_space (c : ascii) : bool :=
  let n := nat_of_ascii c in
  ((9 <=? n) && (n <=? 13)) || ((28 <=? n) && (n <=? 32))
  || (n =? 133) || (n =? 160).

Fixpoint lstrip (s : string) : string :=
  match s with
  | EmptyString => EmptyString
  | String c s' => if is_space c then lstrip s' else s
  end.

Fixpoint rstrip (s : string) : string :=
  match s with
  | EmptyString => EmptyString
  | String c s' =>
      match rstrip s' with
      | EmptyString => if is_space c then EmptyString else String c EmptyString
      | t => String c t
      end
  end.

Definition strip (s : string) : string := rstrip (lstrip s).

(** ** Exceptions *)

Inductive exn : Type := ValueError | KeyError | AttributeError | TypeError.

Inductive result (A : Type) : Type :=
| Ok (a : A)
| Raise (e : exn).
Arguments Ok {A} a.
Arguments Raise {A} e.

(** ** Months *)

Definition digit (n : Z) : ascii := ascii_of_nat (48 + Z.to_nat (n mod 10)%Z).

Definition pad2 (n : Z) : string :=
  String (digit (n / 10)%Z) (String (digit n) EmptyString).

Definition pad4 (n : Z) : string :=
  String (digit (n / 1000)%Z) (String (digit (n / 100)%Z) (pad2 n)).

(** [Series.dt.to_period("M").astype(str)] at one element: [YYYY-MM]. *)
Definition month_str (c : cell) : string :=
  match c with
  | Ts t => String.append (pad4 (year t)) (String.append "-" (pad2 (month t)))
  | _ => "NaT"
  end.

Definition digit_val (c : ascii) : option Z :=
  let n := nat_of_ascii c in
  if (48 <=? n) && (n <=? 57) then Some (Z.of_nat (n - 48)) else None.

(** [pd.to_datetime(m + "-01")] for a month string [m] of the shape
    [YYYY-MM]: midnight on the first day of that month. *)
Definition month_start (m : string) : cell :=
  match m with
  | String a (String b (String c (String d (String sep (String e (String f EmptyString)))))) =>
      match digit_val a, digit_val b, digit_val c, digit_val d, digit_val e, digit_val f with
      | Some a, Some b, Some c, Some d, Some e, Some f =>
          if Ascii.eqb sep "-"
          then Ts {| year := (1000 * a + 100 * b + 10 * c + d)%Z;
                     month := (10 * e + f)%Z; day := 1%Z; tod := 0%Z |}
          else NA
      | _, _, _, _, _, _ => NA
      end
  | _ => NA
  end.

(** ** [load_clean]

    The content of the file is the argument.  Line 56 reads the
    date column through [.dt], which needs a datetime column: it is one
    unless line 52 has overwritten it with numbers, that is, unless both
    aliases name the same column. *)
Definition truthy (o : option string) : bool :=
  match o with
  | Some s => negb (String.eqb s "")
  | None => false
  end.

Definition str_of_filter (o : option string) : string :=
  match o with Some s => s | None => "None" end.

(** [pd.read_csv]: the header and the records of the file, the rows
    labelled 0, 1, ... by the default index. *)
Record table : Type := { header : list string; body : list (list cell) }.

Fixpoint number_from (i : nat) (b : list (list cell)) : list row :=
  match b with
  | [] => []
  | cs :: b' => {| label := i; cells := cs |} :: number_from (S i) b'
  end.

Definition read_csv (t : table) : frame :=
  {| columns := header t; rows := number_from 0 (body t) |}.

(** Line 48: the labels are trimmed. *)
Definition strip_columns (df : frame) : frame :=
  {| columns := map strip (columns df); rows := rows df |}.

(** Lines 51 and 52: both columns are parsed, what does not parse becomes
    a missing value. *)
Definition parse_columns `{Pandas} (df : frame) (date_col score_col : string) : frame :=
  let dates := column date_col df in
  let df1 := assign date_col (fun r => of_ts (to_datetime dates (lookup df date_col r))) df in
  assign score_col (fun r => of_num (to_numeric (lookup df1 score_col r))) df1.

(** Lines 54 and 55. *)
Definition matches_year `{Pandas} (df : frame) (schoolyear_col v : string) (r : row) : bool :=
  String.eqb (astype_str (lookup df schoolyear_col r)) v.

Definition filter_year `{Pandas} (df : frame) (schoolyear_col : string)
    (school_year_filter : option string) : frame :=
  if truthy school_year_filter && has_col schoolyear_col df
  then filter_rows (matches_year df schoolyear_col (str_of_filter school_year_filter)) df
  else df.

(** Lines 56 and 57. *)
(** What [df[c] = ...] appends to the labels: [c], unless it is one of
    them. *)
Definition appended (c : string) (cols : list string) : list string :=
  match col_index c cols with
  | Some _ => []
  | None => [c]
  end.

Definition add_months (df : frame) (date_col : string) : frame :=
  let df1 := assign "Month" (fun r => Str (month_str (lookup df date_col r))) df in
  assign "MonthStart"
    (fun r => match lookup df1 "Month" r with
              | Str m => month_start m
              | _ => NA
              end) df1.

Definition load_clean `{Pandas} (csv : table)
    (date_col score_col schoolyear_col : string)
    (school_year_filter : option string) : result frame :=
  let df := strip_columns (read_csv csv) in
  if negb (has_col date_col df) || negb (has_col score_col df) then Raise ValueError
  else
    let df := parse_columns df date_col score_col in
    let df := dropna [date_col; score_col] df in
    let df := filter_year df schoolyear_col school_year_filter in
    if String.eqb date_col score_col then Raise AttributeError
    else Ok (add_months df date_col).

(** What lines 51 and 52, and lines 56 and 57, make of a row. *)
Definition parsed `{Pandas} (df : frame) (date_col score_col : string) (r : row) : row :=
  let dates := column date_col df in
  let f := fun r => of_ts (to_datetime dates (lookup df date_col r)) in
  let df1 := assign date_col f df in
  assigned score_col (fun r => of_num (to_numeric (lookup df1 score_col r))) df1
    (assigned date_col f df r).

Definition dated (df : frame) (date_col : string) (r : row) : row :=
  let f := fun r => Str (month_str (lookup df date_col r)) in
  let df1 := assign "Month" f df in
  assigned "MonthStart"
    (fun r => match lookup df1 "Month" r with
              | Str m => month_start m
              | _ => NA
              end) df1 (assigned "Month" f df r).

(** ** [make_eval_group] *)

Definition make_eval_group `{Pandas} (df : frame) (etype_col : string) : result frame :=
  if has_col etype_col df then
    let g := assign "EvalGroup"
               (fun r => Str (eval_group (astype_str (lookup df etype_col r)))) df in
    Ok (assign "EvalGroup"
          (fun r => fillna (lookup g "EvalGroup" r) (Str (astype_str (lookup g etype_col r)))) g)
  else Raise KeyError.

(** What [make_eval_group] does to a row. *)
Definition grouped `{Pandas} (df : frame) (etype_col : string) (r : row) : row :=
  let f := fun r => Str (eval_group (astype_str (lookup df etype_col r))) in
  let g := assign "EvalGroup" f df in
  assigned "EvalGroup"
    (fun r => fillna (lookup g "EvalGroup" r) (Str (astype_str (lookup g etype_col r))))
    g (assigned "EvalGroup" f df r).

(** ** Sorting and grouping *)

Fixpoint insert_by {A : Type} (leb : A -> A -> bool) (x : A) (l : list A) : list A :=
  match l with
  | [] => [x]
  | y :: l' => if leb x y then x :: l else y :: insert_by leb x l'
  end.

(** [sort_values] and the key order of [groupby]: an insertion sort.  The
    default sort of pandas does not promise an order among equal keys, and
    nothing below depends on the one this sort gives. *)
Definition sort_by {A : Type} (leb : A -> A -> bool) (l : list A) : list A :=
  fold_right (insert_by leb) [] l.

Fixpoint dedup {A : Type} (eqb : A -> A -> bool) (l : list A) : list A :=
  match l with
  | [] => []
  | x :: l' => if existsb (eqb x) l' then dedup eqb l' else x :: dedup eqb l'
  end.

(** The values a partial function gives on a list, in order. *)
Fixpoint omap {X Y : Type} (pick : X -> option Y) (xs : list X) : list Y :=
  match xs with
  | [] => []
  | x :: rest =>
      match pick x with
      | Some y => y :: omap pick rest
      | None => omap pick rest
      end
  end.

Definition key_is {K : Type} (eqb : K -> K -> bool) (key : row -> option K) (k : K) (r : row) : bool :=
  match key r with Some k' => eqb k' k | None => false end.

(** [df.groupby(keys)] with the defaults [sort=True], [dropna=True]: the
    distinct keys in ascending order, each with its rows in table order; a
    row with a missing key belongs to no group. *)
Definition groupby {K : Type} (eqb leb : K -> K -> bool) (key : row -> option K)
    (rs : list row) : list (K * list row) :=
  map (fun k => (k, filter (key_is eqb key k) rs))
      (sort_by leb (dedup eqb (omap key rs))).

Definition cell_eqb (a b : cell) : bool :=
  match a, b with
  | NA, NA => true
  | Str s, Str t => String.eqb s t
  | Num p, Num q => Qeq_bool p q
  | Ts s, Ts t => ts_eqb s t
  | _, _ => false
  end.

Definition cell_rank (c : cell) : nat :=
  match c with NA => 0 | Num _ => 1 | Str _ => 2 | Ts _ => 3 end.

(** The order of group keys within one type; a column mixing types has no
    order in Python, the rank of the constructor stands in for it. *)
Definition cell_leb (a b : cell) : bool :=
  match a, b with
  | Str s, Str t => String.leb s t
  | Num p, Num q => Qle_bool p q
  | Ts s, Ts t => ts_leb s t
  | _, _ => cell_rank a <=? cell_rank b
  end.

(** The key of a row in a one-column [groupby]. *)
Definition cell_key (df : frame) (c : string) (r : row) : option cell :=
  match lookup df c r with NA => None | v => Some v end.

(** The key of a row in [groupby("EvalGroup")]: that column holds text. *)
Definition group_key (df : frame) (r : row) : option string :=
  match lookup df "EvalGroup" r with Str s => Some s | _ => None end.

(** The key of a row in [groupby(["Month", "MonthStart"])]. *)
Definition month_key (df : frame) (r : row) : option (string * timestamp) :=
  match lookup df "Month" r, lookup df "MonthStart" r with
  | Str m, Ts t => Some (m, t)
  | _, _ => None
  end.

Definition month_key_eqb (a b : string * timestamp) : bool :=
  String.eqb (fst a) (fst b) && ts_eqb (snd a) (snd b).

Definition month_key_leb (a b : string * timestamp) : bool :=
  if String.eqb (fst a) (fst b) then ts_leb (snd a) (snd b)
  else String.leb (fst a) (fst b).

(** ** Statistics of a series *)

(** A float: [None] is NaN. *)
Definition fl : Type := option Q.

(** The values of the score column that are not missing:
    [rows[score_col].dropna()]. *)
Definition scores (df : frame) (score_col : string) (rs : list row) : list Q :=
  omap (fun r => match lookup df score_col r with Num q => Some q | _ => None end) rs.

Definition Qsum (l : list Q) : Q := fold_right Qplus 0%Q l.

Definition Qlen (l : list Q) : Q := inject_Z (Z.of_nat (List.length l)).

(** [Series.mean()] *)
Definition mean (l : list Q) : fl :=
  match l with
  | [] => None
  | _ => Some (Qsum l / Qlen l)%Q
  end.

(** [Series.median()] *)
Definition median (l : list Q) : fl :=
  let s := sort_by Qle_bool l in
  let n := List.length s in
  if n =? 0 then None
  else if Nat.odd n then Some (nth (n / 2) s 0%Q)
  else Some ((nth (n / 2 - 1) s 0%Q + nth (n / 2) s 0%Q) / 2)%Q.

(** The sample variance, [ddof = 1]: NaN below two values. *)
Definition var (l : list Q) : fl :=
  match mean l with
  | None => None
  | Some m =>
      if List.length l <=? 1 then None
      else Some (Qsum (map (fun x => (x - m) * (x - m))%Q l) / (Qlen l - 1))%Q
  end.

(** A square root, kept by its radicand. *)
Inductive root : Type := Sqrt (radicand : Q).


(** [Series.std()]: the square root of the sample variance. *)
Definition std (l : list Q) : option root :=
  match var l with Some v => Some (Sqrt v) | None => None end.

(** ** [Series.std] in binary64

    The same deviation with the rounding of the source: [nanops.nanvar]
    divides the sum of the values by their number, sums the squares of the
    distances to that mean and divides by [n - 1] ([ddof = 1]; NaN when
    [n <= 1]); [nanstd] takes the root.  Each operation rounds to binary64
    as [PrimFloat] does.  numpy adds fewer than eight values one after the
    other in order; it adds longer arrays in blocks, which is not
    modelled: [std64] is undefined from eight values on. *)
Definition float64 : Type := PrimFloat.float.

(** An integer below [2^53] as a float, exactly. *)
Definition float_of_Z (z : Z) : float64 :=
  match z with
  | Z0 => PrimFloat.zero
  | Zpos _ => PrimFloat.of_uint63 (Uint63.of_Z z)
  | Zneg p => PrimFloat.opp (PrimFloat.of_uint63 (Uint63.of_Z (Zpos p)))
  end.

(** The float nearest to a fraction of two integers below [2^53]: what
    [pd.to_numeric] reads from a decimal text such as [3.3]. *)
Definition float_of_Q (q : Q) : float64 :=
  PrimFloat.div (float_of_Z (Qnum q)) (float_of_Z (Zpos (Qden q))).

Definition sum64 (l : list float64) : float64 := fold_left PrimFloat.add l PrimFloat.zero.

Definition count64 (l : list float64) : float64 := float_of_Z (Z.of_nat (List.length l)).

Definition std64 (l : list float64) : option float64 :=
  if List.length l <? 8 then
    if List.length l <=? 1 then Some PrimFloat.nan
    else
      let avg := PrimFloat.div (sum64 l) (count64 l) in
      let sqr := map (fun x => PrimFloat.mul (PrimFloat.sub avg x) (PrimFloat.sub avg x)) l in
      Some (PrimFloat.sqrt
              (PrimFloat.div (sum64 sqr) (PrimFloat.sub (count64 l) PrimFloat.one)))
  else None.

(** Python's [min(a, b)] and [max(a, b)] on floats: [b] is chosen when it
    compares strictly below (above) [a]; a comparison with NaN is false. *)
Definition fl_ltb (a b : fl) : bool :=
  match a, b with
  | Some x, Some y => negb (Qle_bool y x)
  | _, _ => false
  end.

Definition py_min (a b : fl) : fl := if fl_ltb b a then b else a.
Definition py_max (a b : fl) : fl := if fl_ltb a b then b else a.

Definition fl_add (a : fl) (d : Q) : fl :=
  match a with Some x => Some (x + d)%Q | None => None end.

(** [Series.min()] and [Series.max()]: NaN is skipped, and is the result
    when nothing is left. *)
Fixpoint series_min (l : list fl) : fl :=
  match l with
  | [] => None
  | None :: l' => series_min l'
  | Some x :: l' =>
      match series_min l' with
      | Some m => Some (if Qle_bool x m then x else m)
      | None => Some x
      end
  end.

Fixpoint series_max (l : list fl) : fl :=
  match l with
  | [] => None
  | None :: l' => series_max l'
  | Some x :: l' =>
      match series_max l' with
      | Some m => Some (if Qle_bool m x then x else m)
      | None => Some x
      end
  end.

(** [sort_values] on a float column: ascending, NaN last. *)
Definition fl_leb (a b : fl) : bool :=
  match a, b with
  | Some x, Some y => Qle_bool x y
  | _, None => true
  | None, Some _ => false
  end.

(** ** The 20 bins of the histogram

    [numpy.histogram(s, bins)]: the range is the span of the data, widened
    by one half on each side when the span is empty, and [(0, 1)] without
    data; the bins are of equal width and the last one is closed. *)
Definition hist_range (s : list Q) : Q * Q :=
  match series_min (map Some s), series_max (map Some s) with
  | Some lo, Some hi =>
      if Qeq_bool lo hi then (lo - (1 # 2), hi + (1 # 2))%Q else (lo, hi)
  | _, _ => (0, 1)%Q
  end.

Definition bin_of (bins : nat) (range : Q * Q) (x : Q) : nat :=
  let (lo, hi) := range in
  let i := Z.to_nat (Qfloor ((x - lo) / (hi - lo) * inject_Z (Z.of_nat bins))%Q) in
  Nat.min i (bins - 1).

Definition hist (bins : nat) (s : list Q) : list nat :=
  let range := hist_range s in
  map (fun b => List.length (filter (fun x => bin_of bins range x =? b) s))
      (seq 0 bins).

(** [c / max(counts)] for each bin: NaN when no bin holds anything. *)
Definition bin_colors (counts : list nat) : list fl :=
  let top := fold_right Nat.max 0 counts in
  map (fun c => if top =? 0 then None
                else Some (inject_Z (Z.of_nat c) / inject_Z (Z.of_nat top))%Q) counts.

(** ** Output: directories, figures and tables *)

Record type_stat : Type :=
  { group : string; t_count : nat; t_mean : fl; t_median : fl; t_std : option root }.

Record observer_stat : Type :=
  { observer : cell; o_mean : fl; o_count : nat; o_std : option root }.

Record histogram : Type :=
  { h_n : nat; h_mean : fl; h_median : fl; h_std : option root;
    h_counts : list nat; h_colors : list fl }.

Record bar_chart : Type :=
  { bars : list observer_stat;     (* one bar per retained observer *)
    below : list bool;             (* the colour split: mean below the overall mean *)
    overall_mean : fl;             (* the reference line *)
    ylim : fl * fl }.

Inductive artefact : Type :=
| Histogram (h : histogram)
| Boxplot (order : list string) (data : list (list Q)) (ns : list nat)
| TrendLine (points : list (timestamp * fl))
| BarChart (b : bar_chart)
| TypeTable (t : list type_stat)         (* type_means_grouped *)
| ObserverTable (t : list observer_stat) (* evaluator_stats *)
| RawTypeTable (t : list (cell * fl))    (* type_means *)
| MonthTable (t : list (string * fl)).   (* monthly_means *)

(** The part of the file system the program writes to. *)
Record world : Type :=
  { dirs : list string; files : list (string * artefact) }.

Definition empty_world : world := {| dirs := []; files := [] |}.

(** A computation that writes and may raise. *)
Definition M (A : Type) : Type := world -> world * result A.

Definition ret {A : Type} (a : A) : M A := fun w => (w, Ok a).

Definition raise {A : Type} (e : exn) : M A := fun w => (w, Raise e).

Definition bind {A B : Type} (c : M A) (k : A -> M B) : M B :=
  fun w => match c w with
           | (w', Ok a) => k a w'
           | (w', Raise e) => (w', Raise e)
           end.

Definition lift {A : Type} (r : result A) : M A := fun w => (w, r).

Notation "x <- c ;; k" := (bind c (fun x => k))
  (at level 61, c at next level, right associativity).
Notation "c ;; k" := (bind c (fun _ => k))
  (at level 61, right associativity).

Definition mkdir (d : string) : M unit :=
  fun w => ({| dirs := dirs w ++ [d]; files := files w |}, Ok tt).

Definition write (path : string) (a : artefact) : M unit :=
  fun w => ({| dirs := dirs w; files := files w ++ [(path, a)] |}, Ok tt).

(** A computation that only adds files to those there are. *)
Definition grows {A : Type} (c : M A) : Prop :=
  forall w w' r, c w = (w', r) -> exists l, files w' = files w ++ l.

Definition OUT_FIGS : string := "figures_evals".
Definition OUT_DATA : string := "outputs".

Definition path_in (dir name tag ext : string) : string :=
  String.append dir (String.append "/" (String.append name (String.append tag ext))).

Definition ensure_dirs : M unit := mkdir OUT_FIGS ;; mkdir OUT_DATA.

(** [df[...][score_col]] followed by a numeric reduction: the column must
    exist and hold numbers. *)
Definition numeric_col (df : frame) (c : string) : bool :=
  forallb (fun r => match lookup df c r with NA | Num _ => true | _ => false end) (rows df).

Definition select_scores (df : frame) (score_col : string) : M unit :=
  if has_col score_col df
  then if numeric_col df score_col then ret tt else raise TypeError
  else raise KeyError.

(** ** [plot_hist] *)

Definition plot_hist (df : frame) (score_col tag : string) : M unit :=
  select_scores df score_col ;;
  let s := scores df score_col (rows df) in
  let counts := hist 20 s in
  write (path_in OUT_FIGS "01_hist_scores" tag ".png")
        (Histogram {| h_n := List.length s; h_mean := mean s; h_median := median s;
                      h_std := std s; h_counts := counts;
                      h_colors := bin_colors counts |}).

(** ** [plot_box_by_type] *)

(** [gdf.loc[gdf["EvalGroup"] == label]]: the rows of one group. *)
Definition group_rows (gdf : frame) (l : string) : list row :=
  filter (fun r => cell_eqb (lookup gdf "EvalGroup" r) (Str l)) (rows gdf).

(** The statistics of the scores of one group. *)
Definition summary_of (gdf : frame) (score_col l : string) : type_stat :=
  let s := scores gdf score_col (group_rows gdf l) in
  {| group := l; t_count := List.length s; t_mean := mean s;
     t_median := median s; t_std := std s |}.

(** [gdf.groupby("EvalGroup")[score_col].agg(...)]: one line per group. *)
Definition group_stats (gdf : frame) (score_col : string) : list type_stat :=
  map (fun kv : string * list row =>
         let s := scores gdf score_col (snd kv) in
         {| group := fst kv; t_count := List.length s; t_mean := mean s;
            t_median := median s; t_std := std s |})
      (groupby String.eqb String.leb (group_key gdf) (rows gdf)).

(** [table.loc[order]]: the lines of the table under the labels of
    [order], in that order; a label without a line raises. *)
Fixpoint loc (order : list string) (table : list type_stat) : result (list type_stat) :=
  match order with
  | [] => Ok []
  | l :: order' =>
      match find (fun st => String.eqb (group st) l) table, loc order' table with
      | Some st, Ok rest => Ok (st :: rest)
      | _, _ => Raise KeyError
      end
  end.

(** Line 110: the groups with at least [min_n] observations, by median. *)
Definition kept_stats (gdf : frame) (score_col : string) (min_n : Z) : list type_stat :=
  sort_by (fun a b => fl_leb (t_median a) (t_median b))
    (filter (fun st => (min_n <=? Z.of_nat (t_count st))%Z) (group_stats gdf score_col)).

(** [cbook._reshape_2D], on a list of arrays: the empty list becomes one
    empty column. *)
Definition reshape_2D (data : list (list Q)) : list (list Q) :=
  match data with
  | [] => [[]]
  | _ => data
  end.

(** Line 116, [plt.boxplot(data, vert=False, labels=order, ...)]:
    [cbook.boxplot_stats] compares the number of labels with the number of
    columns of the reshaped data and raises when they differ. *)
Definition boxplot (data : list (list Q)) (labels : list string) : M unit :=
  if Nat.eqb (List.length labels) (List.length (reshape_2D data))
  then ret tt else raise ValueError.

Definition plot_box_by_type `{Pandas} (df : frame) (score_col etype_col tag : string)
    (min_n : Z) : M unit :=
  gdf <- lift (make_eval_group df etype_col) ;;
  select_scores gdf score_col ;;
  let stats := kept_stats gdf score_col min_n in
  let order := map group stats in
  let data := map (fun l => scores gdf score_col (group_rows gdf l)) order in
  boxplot data order ;;
  let ns :=
    omap (fun l => option_map t_count (find (fun st => String.eqb (group st) l) stats))
         order in
  write (path_in OUT_FIGS "02_box_by_type" tag ".png") (Boxplot order data ns) ;;
  table <- lift (loc order (group_stats gdf score_col)) ;;
  write (path_in OUT_DATA "type_means_grouped" tag ".csv") (TypeTable table).

(** ** [plot_monthly_trend] *)

(** [df.groupby(["Month", "MonthStart"])[score_col].mean()] sorted by
    [MonthStart]: the expression of [plot_monthly_trend] and of [main]. *)
Definition monthly (df : frame) (score_col : string) : list (string * timestamp * fl) :=
  sort_by (fun a b => ts_leb (snd (fst a)) (snd (fst b)))
    (map (fun kv : (string * timestamp) * list row =>
            (fst kv, mean (scores df score_col (snd kv))))
         (groupby month_key_eqb month_key_leb (month_key df) (rows df))).

Definition select_months (df : frame) : M unit :=
  if has_col "Month" df && has_col "MonthStart" df then ret tt else raise KeyError.

Definition plot_monthly_trend (df : frame) (date_col score_col tag : string) : M unit :=
  select_months df ;;
  select_scores df score_col ;;
  write (path_in OUT_FIGS "03_monthly_trend" tag ".png")
        (TrendLine (map (fun m => (snd (fst m), snd m)) (monthly df score_col))).

(** ** [plot_observer_bar] *)

Definition observer_stats (df : frame) (observer_col score_col : string) : list observer_stat :=
  map (fun kv : cell * list row =>
         let s := scores df score_col (snd kv) in
         {| observer := fst kv; o_mean := mean s; o_count := List.length s; o_std := std s |})
      (groupby cell_eqb cell_leb (cell_key df observer_col) (rows df)).

Definition observer_ylim (means : list fl) : fl * fl :=
  (py_min (Some 3%Q) (fl_add (series_min means) (- (1 # 10))%Q),
   py_min (Some (405 # 100)%Q) (py_max (Some 4%Q) (fl_add (series_max means) (1 # 10)%Q))).

(** Line 154: the observers with at least [min_n] observations, by mean. *)
Definition kept_observers (df : frame) (observer_col score_col : string) (min_n : Z)
    : list observer_stat :=
  sort_by (fun a b => fl_leb (o_mean a) (o_mean b))
    (filter (fun st => (min_n <=? Z.of_nat (o_count st))%Z)
            (observer_stats df observer_col score_col)).

(** The least and the greatest mean of the retained observers. *)
Definition is_min_mean (lo : Q) (sts : list observer_stat) : Prop :=
  In (Some lo) (map o_mean sts)
  /\ forall m, In (Some m) (map o_mean sts) -> (lo <= m)%Q.

Definition is_max_mean (hi : Q) (sts : list observer_stat) : Prop :=
  In (Some hi) (map o_mean sts)
  /\ forall m, In (Some m) (map o_mean sts) -> (m <= hi)%Q.

Definition plot_observer_bar (df : frame) (observer_col score_col tag : string)
    (min_n : Z) : M unit :=
  (if has_col observer_col df then ret tt else raise KeyError) ;;
  select_scores df score_col ;;
  let stats := kept_observers df observer_col score_col min_n in
  let overall := mean (scores df score_col (rows df)) in
  write (path_in OUT_FIGS "05_observer_mean_bar" tag ".png")
        (BarChart {| bars := stats;
                     below := map (fun st => fl_ltb (o_mean st) overall) stats;
                     overall_mean := overall;
                     ylim := observer_ylim (map o_mean stats) |}) ;;
  write (path_in OUT_DATA "evaluator_stats" tag ".csv") (ObserverTable stats).

(** ** [main] *)

Record args : Type :=
  { csv : table;                      (* the file at [--csv] *)
    school_year : option string;
    date_col : string;
    score_col : string;
    schoolyear_col : string;
    observer_col : string;
    observee_col : string;
    etype_col : string }.

Fixpoint replace_char (a b : ascii) (s : string) : string :=
  match s with
  | EmptyString => EmptyString
  | String c s' => String (if Ascii.eqb c a then b else c) (replace_char a b s')
  end.

Definition tag_of (school_year : option string) : string :=
  match school_year with
  | Some y =>
      if String.eqb y "" then ""
      else String.append "_" (replace_char " " "_" (replace_char "/" "-" y))
  | None => ""
  end.

Definition type_means (d : frame) (etype_col score_col : string) : list (cell * fl) :=
  map (fun kv : cell * list row => (fst kv, mean (scores d score_col (snd kv))))
      (groupby cell_eqb cell_leb (cell_key d etype_col) (rows d)).

Definition main `{Pandas} (a : args) : M unit :=
  ensure_dirs ;;
  d <- lift (load_clean (csv a) (date_col a) (score_col a) (schoolyear_col a)
                        (school_year a)) ;;
  let tag := tag_of (school_year a) in
  plot_hist d (score_col a) tag ;;
  plot_box_by_type d (score_col a) (etype_col a) tag 10 ;;
  plot_monthly_trend d (date_col a) (score_col a) tag ;;
  plot_observer_bar d (observer_col a) (score_col a) tag 5 ;;
  (if has_col (etype_col a) d then ret tt else raise KeyError) ;;
  select_scores d (score_col a) ;;
  write (path_in OUT_DATA "type_means" tag ".csv")
        (RawTypeTable (type_means d (etype_col a) (score_col a))) ;;
  select_months d ;;
  select_scores d (score_col a) ;;
  write (path_in OUT_DATA "monthly_means" tag ".csv")
        (MonthTable (map (fun m => (fst (fst m), snd m)) (monthly d (score_col a)))).

(** ** A small instance of [Pandas] and sample files

    Enough of the parsers to run the definitions: dates of the shape
    [YYYY-MM-DD], numbers already read as numbers or written as unsigned
    integers. *)

Definition two_digits (a b : ascii) : option Z :=
  match digit_val a, digit_val b with
  | Some x, Some y => Some (10 * x + y)%Z
  | _, _ => None
  end.

Definition iso_date (s : string) : option timestamp :=
  match s with
  | String a (String b (String c (String d (String _ (String e (String f
      (String _ (String g (String h EmptyString))))))))) =>
      match two_digits a b, two_digits c d, two_digits e f, two_digits g h with
      | Some yh, Some yl, Some m, Some dd =>
          Some {| year := (100 * yh + yl)%Z; month := m; day := dd; tod := 0%Z |}
      | _, _, _, _ => None
      end
  | _ => None
  end.

Fixpoint unsigned (acc : Z) (s : string) : option Z :=
  match s with
  | EmptyString => Some acc
  | String c s' =>
      match digit_val c with
      | Some d => unsigned (10 * acc + d)%Z s'
      | None => None
      end
  end.

Definition iso_repr (t : timestamp) : string :=
  String.append (pad4 (year t))
    (String.append "-" (String.append (pad2 (month t))
       (String.append "-" (pad2 (day t))))).

#[export] Instance sample_pandas : Pandas :=
  {| to_datetime := fun _ c => match c with
                               | Str s => iso_date s
                               | Ts t => Some t
                               | _ => None
                               end;
     to_numeric := fun c => match c with
                            | Num q => Some q
                            | Str EmptyString => None
                            | Str s => option_map inject_Z (unsigned 0 s)
                            | _ => None
                            end;
     num_repr := fun q => pad4 (Qfloor q);
     ts_repr := iso_repr |}.

Definition default_clean (t : table) (filter : option string) : result frame :=
  load_clean t "ObservationDateTime" "ObservationScore" "SchoolYear" filter.

Definition sample_header : list string :=
  [" ObservationDateTime"; "ObservationScore "; "SchoolYear";
   "ObserverLastFirstName"; "EvaluationType"].

Definition obs (date : string) (score : Q) (sy who what : string) : list cell :=
  [Str date; Num score; Str sy; Str who; Str what].

(** Three groups of 3, 10 and 15 observations, in three months across a
    year boundary, by two observers. *)
Definition sample_csv : table :=
  {| header := sample_header;
     body :=
       repeat (obs "2024-01-15" 3%Q "2023-2024" "Diaz, Ana" "Volunteer Review") 3
       ++ repeat (obs "2023-12-04" (7 # 2)%Q "2023-2024" "Diaz, Ana"
                      "Teacher Unannounced Observation Domain 2") 10
       ++ repeat (obs "2023-11-20" 4%Q "2023-2024" "Okoro, Ben"
                      "Media Center Observation") 15 |}.

Definition sample_args : args :=
  {| csv := sample_csv; school_year := Some "2023-2024";
     date_col := "ObservationDateTime"; score_col := "ObservationScore";
     schoolyear_col := "SchoolYear"; observer_col := "ObserverLastFirstName";
     observee_col := "ObserveeLastFirstName"; etype_col := "EvaluationType" |}.

(** A file with unparseable values and two school years. *)
Definition messy_csv : table :=
  {| header := sample_header;
     body := [ obs "2023-11-20" 3%Q "2023-2024" "Okoro, Ben" "Media Center";
               [Str "next week"; Num 4%Q; Str "2023-2024"; Str "Diaz, Ana"; Str "Nurse Announced"];
               [Str "2024-09-02"; Str "n/a"; Str "2024-2025"; Str "Diaz, Ana"; Str "Nurse Announced"];
               obs "2024-09-03" 4%Q "2024-2025" "Diaz, Ana" "Volunteer Review" ] |}.

Definition messy_args : args :=
  {| csv := messy_csv; school_year := None;
     date_col := "ObservationDateTime"; score_col := "ObservationScore";
     schoolyear_col := "SchoolYear"; observer_col := "ObserverLastFirstName";
     observee_col := "ObserveeLastFirstName"; etype_col := "EvaluationType" |}.

(** A file without a score column. *)
Definition scoreless_csv : table :=
  {| header := ["ObservationDateTime"; "EvaluationType"];
     body := [[Str "2023-11-20"; Str "Media Center"]] |}.



(** One observer with five observations of 4. *)
Definition top_scores_frame : frame :=
  {| columns := ["ObserverLastFirstName"; "ObservationScore"];
     rows := number_from 0 (repeat [Str "Diaz, Ana"; Num 4%Q] 5) |}.

(** Two labels: one that the second rule matches, one that no rule does. *)
Definition label0_row : row :=
  {| label := 0; cells := [Str "Teacher Unannounced Observation Domain 2"] |}.

Definition labels_frame : frame :=
  {| columns := ["EvaluationType"];
     rows := [label0_row;
              {| label := 1; cells := [Str "Volunteer Review"] |}] |}.

Definition labels_grouped : frame :=
  {| columns := ["EvaluationType"; "EvalGroup"];
     rows := [{| label := 0;
                 cells := [Str "Teacher Unannounced Observation Domain 2";
                           Str "Teacher (Unannounced)"] |};
              {| label := 1; cells := [Str "Volunteer Review"; Str "Volunteer Review"] |}] |}.

(** What [load_clean] makes of [messy_csv], without a filter and with the
    filter [2024-2025]. *)
Definition messy_row (i : nat) (y m d : Z) (mm : string) (score : Q)
    (sy who what : string) : row :=
  {| label := i;
     cells := [Ts {| year := y; month := m; day := d; tod := 0%Z |};
               Num score; Str sy; Str who; Str what; Str mm;
               Ts {| year := y; month := m; day := 1%Z; tod := 0%Z |}] |}.

Definition clean_columns : list string :=
  ["ObservationDateTime"; "ObservationScore"; "SchoolYear";
   "ObserverLastFirstName"; "EvaluationType"; "Month"; "MonthStart"].

Definition messy_clean : frame :=
  {| columns := clean_columns;
     rows := [messy_row 0 2023 11 20 "2023-11" 3%Q "2023-2024" "Okoro, Ben" "Media Center";
              messy_row 3 2024 9 3 "2024-09" 4%Q "2024-2025" "Diaz, Ana" "Volunteer Review"] |}.

(** [messy_clean] with its groups. *)
Definition messy_grouped : frame :=
  Eval vm_compute in
    match make_eval_group messy_clean "EvaluationType" with
    | Ok g => g
    | Raise _ => {| columns := []; rows := [] |}
    end.

Definition messy_2024 : frame :=
  {| columns := clean_columns;
     rows := [messy_row 3 2024 9 3 "2024-09" 4%Q "2024-2025" "Diaz, Ana" "Volunteer Review"] |}.

Definition scoreless_args : args :=
  {| csv := scoreless_csv; school_year := None;
     date_col := "ObservationDateTime"; score_col := "ObservationScore";
     schoolyear_col := "SchoolYear"; observer_col := "ObserverLastFirstName";
     observee_col := "ObserveeLastFirstName"; etype_col := "EvaluationType" |}.

(** The cleaned [sample_csv] and what the category chart writes for it. *)
Definition sample_clean : frame :=
  Eval vm_compute in
    match default_clean sample_csv (Some "2023-2024") with
    | Ok d => d
    | Raise _ => {| columns := []; rows := [] |}
    end.

Definition sample_box_world : world :=
  Eval vm_compute in
    fst (plot_box_by_type sample_clean "ObservationScore" "EvaluationType" "" 10
           empty_world).

(** The sample run of [main]. *)
Definition sample_world : world :=
  Eval vm_compute in fst (main sample_args empty_world).

(** What the observer chart writes for [top_scores_frame]. *)
Definition top_scores_world : world :=
  Eval vm_compute in
    fst (plot_observer_bar top_scores_frame "ObserverLastFirstName" "ObservationScore"
           "" 5 empty_world).

Definition top_scores_chart : bar_chart :=
  Eval vm_compute in
    match files top_scores_world with
    | (_, BarChart b) :: _ => b
    | _ => {| bars := []; below := []; overall_mean := None; ylim := (None, None) |}
    end.

Definition sample_bar_world : world :=
  Eval vm_compute in
    fst (plot_observer_bar sample_clean "ObserverLastFirstName" "ObservationScore"
           "" 5 empty_world).

(** A file with two observations of the same score. *)
Definition equal_csv : table :=
  {| header := sample_header;
     body := [obs "2023-11-20" (7 # 2)%Q "2023-2024" "Okoro, Ben" "Media Center";
              obs "2023-12-04" (7 # 2)%Q "2023-2024" "Diaz, Ana" "Nurse Announced"] |}.

Definition equal_clean : frame :=
  Eval vm_compute in
    match default_clean equal_csv None with
    | Ok d => d
    | Raise _ => {| columns := []; rows := [] |}
    end.



(** A file whose school-year column is named [Month]. *)
Definition month_named_csv : table :=
  {| header := ["ObservationDateTime"; "ObservationScore"; "Month"];
     body := [[Str "2023-11-20"; Num 3%Q; Str "2023-2024"]] |}.

Definition month_named_clean : frame :=
  Eval vm_compute in
    match load_clean month_named_csv "ObservationDateTime" "ObservationScore" "Month"
            (Some "2023-2024") with
    | Ok d => d
    | Raise _ => {| columns := []; rows := [] |}
    end.

(** A file that already has a column named [EvalGroup]. *)
Definition regrouped_csv : table :=
  {| header := ["ObservationDateTime"; "ObservationScore"; "EvalGroup"; "EvaluationType"];
     body := [[Str "2023-11-20"; Num 3%Q; Str "Building A"; Str "Media Center"]] |}.

Definition regrouped_clean : frame :=
  Eval vm_compute in
    match default_clean regrouped_csv None with
    | Ok d => d
    | Raise _ => {| columns := []; rows := [] |}
    end.

Definition regrouped_grouped : frame :=
  Eval vm_compute in
    match make_eval_group regrouped_clean "EvaluationType" with
    | Ok g => g
    | Raise _ => {| columns := []; rows := [] |}
    end.

(** ** What the patterns mean

    The text of a label without a line break, and the reading of a
    pattern as a set of labels: literal texts in order, any run of
    characters other than newline for each [.*], and the end of the label
    (or one final newline) after the last atom. *)
Fixpoint no_newline (s : string) : bool :=
  match s with
  | EmptyString => true
  | String c s' => negb (Ascii.eqb c newline) && no_newline s'
  end.

Inductive Matches : pattern -> string -> Prop :=
| Matches_end (e : string) :
    at_end e = true -> Matches [] e
| Matches_lit (l : string) (p : pattern) (s : string) :
    Matches p s -> Matches (Lit l :: p) (String.append l s)
| Matches_star (run : string) (p : pattern) (s : string) :
    no_newline run = true -> Matches p s ->
    Matches (DotStar :: p) (String.append run s).

(** The group names of the rule table. *)
Definition group_names : list string := map snd eval_group_rules.

Definition with_newline (v : string) : string :=
  String.append v (String newline EmptyString).

(** Every group name, with or without a final newline, is its own group. *)
Definition names_fixed (rules : list (pattern * string)) : bool :=
  forallb (fun pv => String.eqb (eval_group (snd pv)) (snd pv)
                     && String.eqb (eval_group (with_newline (snd pv)))
                                   (with_newline (snd pv))) rules.

(** [q in s], for a label on one line. *)
Fixpoint contains (q s : string) : bool :=
  match strip_prefix q s with
  | Some _ => true
  | None =>
      match s with
      | EmptyString => false
      | String _ s' => contains q s'
      end
  end.

(** The group of a label that starts with one of the three roles with
    qualifiers, by the order of the rules: announced, unannounced, domain
    4, and the label itself when it has none of the three. *)
Definition role_group (role rest : string) : string :=
  if contains "Announced" rest then String.append role " (Announced)"
  else if contains "Unannounced" rest then String.append role " (Unannounced)"
  else if contains "Domain 4" rest then String.append role " (Domain 4)"
  else String.append role rest.

(** The keywords the patterns start with. *)
Definition keywords : list string :=
  ["Teacher"; "Counselor"; "Nurse"; "Child Study Team"; "Related Services";
   "Instructional Assistant"; "Administrators"; "Media"].

(** ** Where the files go *)

Fixpoint has_char (c : ascii) (s : string) : bool :=
  match s with
  | EmptyString => false
  | String c' s' => Ascii.eqb c' c || has_char c s'
  end.

Definition is_figure (a : artefact) : bool :=
  match a with
  | Histogram _ | Boxplot _ _ _ | TrendLine _ | BarChart _ => true
  | _ => false
  end.

(** [path] names a file of the directory [dir] itself: [dir/name] with no
    further slash. *)
Definition directly_in (dir path : string) : Prop :=
  exists name,
    path = String.append dir (String.append "/" name) /\ has_char "/" name = false.

(** A figure lies in [figures_evals], a table in [outputs]. *)
Definition well_placed (f : string * artefact) : Prop :=
  directly_in (if is_figure (snd f) then OUT_FIGS else OUT_DATA) (fst f).

(** A computation that makes no directory and writes well-placed files
    only: the directories are those there were, and a file that is there
    afterwards was there before or is well placed. *)
Definition tidy {A : Type} (c : M A) : Prop :=
  forall w w' r, c w = (w', r) ->
    (forall d, In d (dirs w') <-> In d (dirs w))
    /\ (forall f, In f (files w') -> In f (files w) \/ well_placed f).

(** The eight files of a complete run, in the order they are written. *)
Definition output_paths (tag : string) : list string :=
  [path_in OUT_FIGS "01_hist_scores" tag ".png";
   path_in OUT_FIGS "02_box_by_type" tag ".png";
   path_in OUT_DATA "type_means_grouped" tag ".csv";
   path_in OUT_FIGS "03_monthly_trend" tag ".png";
   path_in OUT_FIGS "05_observer_mean_bar" tag ".png";
   path_in OUT_DATA "evaluator_stats" tag ".csv";
   path_in OUT_DATA "type_means" tag ".csv";
   path_in OUT_DATA "monthly_means" tag ".csv"].

(** A file without an evaluation-type column. *)
Definition untyped_csv : table :=
  {| header := ["ObservationDateTime"; "ObservationScore"];
     body := [[Str "2023-11-20"; Num 3%Q]; [Str "2023-12-04"; Num 4%Q]] |}.

Definition untyped_args : args :=
  {| csv := untyped_csv; school_year := Some "2023/2024 Fall";
     date_col := "ObservationDateTime"; score_col := "ObservationScore";
     schoolyear_col := "SchoolYear"; observer_col := "ObserverLastFirstName";
     observee_col := "ObserveeLastFirstName"; etype_col := "EvaluationType" |}.

Definition untyped_clean : frame :=
  Eval vm_compute in
    match default_clean untyped_csv (Some "2023/2024 Fall") with
    | Ok d => d
    | Raise _ => {| columns := []; rows := [] |}
    end.

(** ** The observers of a table *)

(** The rows of one observer and the statistics of their scores. *)
Definition observer_rows (df : frame) (observer_col : string) (k : cell) : list row :=
  filter (key_is cell_eqb (cell_key df observer_col) k) (rows df).

Definition observer_summary (df : frame) (observer_col score_col : string) (k : cell)
    : observer_stat :=
  let s := scores df score_col (observer_rows df observer_col k) in
  {| observer := k; o_mean := mean s; o_count := List.length s; o_std := std s |}.

Definition total (counts : list nat) : nat := fold_right Nat.add 0 counts.

(** Two observers with six observations each. *)
Definition two_observers_frame : frame :=
  {| columns := ["ObserverLastFirstName"; "ObservationScore"];
     rows := number_from 0 (repeat [Str "Diaz, Ana"; Num 4%Q] 6
                            ++ repeat [Str "Okoro, Ben"; Num 3%Q] 6) |}.

Definition two_observers_world (min_n : Z) : world :=
  fst (plot_observer_bar two_observers_frame "ObserverLastFirstName" "ObservationScore"
         "" min_n empty_world).

(** * Properties *)

(** ** The matcher *)

Lemma at_end_cases (s : string) :
  at_end s = true -> s = EmptyString \/ s = String newline EmptyString.
Proof.
  destruct s as [|c [|d s]]; simpl; intro E; try discriminate; auto.
  apply Ascii.eqb_eq in E. subst c. now right.
Qed.

Lemma star_some (k : string -> option string) (s rest : string) :
  star k s = Some rest -> exists s', k s' = Some rest.
Proof.
  induction s as [|c s IH]; simpl.
  - intro E. now exists EmptyString.
  - destruct (Ascii.eqb c newline).
    + intro E. now exists (String c s).
    + destruct (star k s) as [r|] eqn:Es.
      * intro E. inversion E. subst r. now apply IH.
      * intro E. now exists (String c s).
Qed.

(** Whatever a match leaves behind is nothing or one final newline. *)
Lemma match_here_rest (p : pattern) :
  forall s rest, match_here p s = Some rest -> at_end rest = true.
Proof.
  induction p as [|a p IH]; intros s rest; simpl.
  - destruct (at_end s) eqn:E; intro H; inversion H. now subst.
  - destruct a as [l|].
    + destruct (strip_prefix l s) as [s'|]; [apply IH | discriminate].
    + intro H. apply star_some in H. destruct H as [s' H]. now apply IH in H.
Qed.

Lemma sub_unmatched (p : pattern) (v s : string) :
  search p s = false -> sub p v s = s.
Proof.
  unfold search, sub. now destruct (match_here p s).
Qed.

Lemma sub_matched (p : pattern) (v s : string) :
  search p s = true ->
  sub p v s = v \/ sub p v s = String.append v (String newline EmptyString).
Proof.
  unfold search, sub. destruct (match_here p s) as [rest|] eqn:E; [|discriminate].
  intros _. apply match_here_rest in E. apply at_end_cases in E.
  destruct E; subst rest; [left | right]; trivial.
  clear. induction v; simpl; congruence.
Qed.

(** ** The rule table *)

Lemma replace_list_quiet (rules : list (pattern * string)) (cur : string) :
  quiet rules cur = true -> forall orig, replace_list rules orig cur = cur.
Proof.
  induction rules as [|[p v] rules IH]; simpl; intros Hq orig; trivial.
  apply andb_prop in Hq. destruct Hq as [Hp Hq].
  apply negb_true_iff in Hp.
  rewrite (sub_unmatched _ _ _ Hp). destruct (search p orig); now apply IH.
Qed.

Lemma replace_seq_quiet (rules : list (pattern * string)) (cur : string) :
  quiet rules cur = true -> replace_seq rules cur = cur.
Proof.
  induction rules as [|[p v] rules IH]; simpl; intros Hq; trivial.
  apply andb_prop in Hq. destruct Hq as [Hp Hq].
  apply negb_true_iff in Hp.
  rewrite (sub_unmatched _ _ _ Hp). now apply IH.
Qed.

Lemma quiet_after_sub (rules : list (pattern * string)) (p : pattern) (v s : string) :
  quiet rules v = true ->
  quiet rules (String.append v (String newline EmptyString)) = true ->
  search p s = true ->
  quiet rules (sub p v s) = true.
Proof.
  intros H1 H2 Hs. destruct (sub_matched p v s Hs) as [E|E]; now rewrite E.
Qed.

Lemma replace_list_first_match (rules : list (pattern * string)) :
  separated rules = true ->
  forall s, series_replace rules s = first_match_wins rules s.
Proof.
  unfold series_replace.
  induction rules as [|[p v] rules IH]; simpl; intros Hs s; trivial.
  apply andb_prop in Hs. destruct Hs as [Hs Hsep].
  apply andb_prop in Hs. destruct Hs as [H1 H2].
  destruct (search p s) eqn:Ep.
  - apply replace_list_quiet. now apply quiet_after_sub.
  - now apply IH.
Qed.

Lemma replace_seq_first_match (rules : list (pattern * string)) :
  separated rules = true ->
  forall s, replace_seq rules s = first_match_wins rules s.
Proof.
  induction rules as [|[p v] rules IH]; simpl; intros Hs s; trivial.
  apply andb_prop in Hs. destruct Hs as [Hs Hsep].
  apply andb_prop in Hs. destruct Hs as [H1 H2].
  destruct (search p s) eqn:Ep.
  - apply replace_seq_quiet. now apply quiet_after_sub.
  - rewrite (sub_unmatched _ _ _ Ep). now apply IH.
Qed.

Lemma eval_group_rules_separated : separated eval_group_rules = true.
Proof. vm_compute. reflexivity. Qed.

Lemma replace_list_unmatched (rules : list (pattern * string)) (orig : string) :
  (forall p v, In (p, v) rules -> search p orig = false) ->
  forall cur, replace_list rules orig cur = cur.
Proof.
  induction rules as [|[p v] rules IH]; simpl; intros H cur; trivial.
  rewrite (H p v) by now left.
  apply IH. intros q w Hin. apply (H q w). now right.
Qed.

Example eval_group_two_rules :
  eval_group "Teacher Announced Observation Domain 4" = "Teacher (Announced)".
Proof. reflexivity. Qed.

Example eval_group_trailing_newline :
  eval_group (String.append "Media Center" (String newline EmptyString))
  = String.append "Media Specialist" (String newline EmptyString).
Proof. reflexivity. Qed.

(** The ninth section of the specification reads [Announced] as a part of
    [Unannounced]; the match is case sensitive and the first rule leaves
    such a label to the second. *)
Example announced_rule_skips_unannounced :
  search (prefix_with "Teacher" "Announced") "Teacher Unannounced Observation" = false.
Proof. reflexivity. Qed.

Example eval_group_samples :
  map eval_group
    ["Administrators Observation"; "Nurse Unannounced Domain 4";
     "Counselor Domain 4 Review"; "teacher announced"; "Child Study Team - LDTC"]
  = ["Administrator"; "Nurse (Unannounced)"; "Counselor (Domain 4)";
     "teacher announced"; "Child Study Team"].
Proof. reflexivity. Qed.

(** A label broken over two lines is matched by no rule: [.] stops at the
    newline and [$] is not at the end. *)
Example eval_group_two_lines :
  let label := String.append "Teacher" (String newline "Announced") in
  eval_group label = label.
Proof. reflexivity. Qed.

(** C8.  For every raw label, the group computed by the ordered
    replacements of [make_eval_group] is the one computed by the
    single-pass reference in which the first matching rule rewrites the
    label and no later rule is applied: what an earlier rule has written
    is never rewritten by a later one.  This holds for the way pandas
    runs the rules (masks taken on the original values) and for the plain
    sequence of substitutions alike. *)
Theorem C8_first_match_refinement (raw : string) :
  eval_group raw = first_match_wins eval_group_rules raw
  /\ replace_seq eval_group_rules raw = first_match_wins eval_group_rules raw.
Proof.
  split.
  - apply replace_list_first_match, eval_group_rules_separated.
  - apply replace_seq_first_match, eval_group_rules_separated.
Qed.

(** ** Columns and cells *)

Lemma col_index_lt (c : string) (cols : list string) (i : nat) :
  col_index c cols = Some i -> i < List.length cols.
Proof.
  revert i. induction cols as [|c' cols IH]; simpl; intros i; [discriminate|].
  destruct (String.eqb c c').
  - intro E. inversion E. lia.
  - destruct (col_index c cols) as [j|]; [|discriminate].
    intro E. inversion E. specialize (IH j eq_refl). lia.
Qed.

Lemma col_index_inj (c c' : string) (cols : list string) (i : nat) :
  col_index c cols = Some i -> col_index c' cols = Some i -> c = c'.
Proof.
  revert i. induction cols as [|d cols IH]; simpl; intros i; [discriminate|].
  destruct (String.eqb c d) eqn:E1, (String.eqb c' d) eqn:E2.
  - apply String.eqb_eq in E1, E2. congruence.
  - intros H1. inversion H1. subst i.
    destruct (col_index c' cols); discriminate.
  - destruct (col_index c cols); [|discriminate].
    intros H1 H2. inversion H1. subst i. discriminate.
  - destruct (col_index c cols) as [j|]; [|discriminate].
    destruct (col_index c' cols) as [j'|]; [|discriminate].
    intros H1 H2. inversion H1. inversion H2. subst i.
    apply (IH j); congruence.
Qed.

Lemma col_index_none (c : string) (cols : list string) :
  col_index c cols = None <-> ~ In c cols.
Proof.
  induction cols as [|d cols IH]; simpl.
  - tauto.
  - destruct (String.eqb c d) eqn:E.
    + apply String.eqb_eq in E. subst d. split; [discriminate | tauto].
    + apply String.eqb_neq in E.
      destruct (col_index c cols).
      * split; [discriminate|]. intro H. exfalso. apply H. right.
        destruct IH as [_ IH].
        destruct (in_dec string_dec c cols) as [Hin|Hn]; trivial.
        specialize (IH Hn). discriminate.
      * split; trivial. intros _ [H|H]; [congruence|]. now apply IH.
Qed.

Lemma has_col_In (c : string) (df : frame) :
  has_col c df = true <-> In c (columns df).
Proof.
  unfold has_col. destruct (col_index c (columns df)) eqn:E.
  - split; trivial. intros _.
    destruct (in_dec string_dec c (columns df)) as [H|H]; trivial.
    apply col_index_none in H. congruence.
  - split; [discriminate|]. intro H. apply col_index_none in E. contradiction.
Qed.

Lemma col_index_app_other (c c' : string) (cols : list string) :
  c' <> c -> col_index c' (cols ++ [c]) = col_index c' cols.
Proof.
  intro Hne. induction cols as [|d cols IH]; simpl.
  - destruct (String.eqb c' c) eqn:E; trivial.
    apply String.eqb_eq in E. contradiction.
  - destruct (String.eqb c' d); trivial. now rewrite IH.
Qed.

Lemma col_index_app_new (c : string) (cols : list string) :
  col_index c cols = None -> col_index c (cols ++ [c]) = Some (List.length cols).
Proof.
  induction cols as [|d cols IH]; simpl.
  - now rewrite String.eqb_refl.
  - destruct (String.eqb c d); [discriminate|].
    destruct (col_index c cols); [discriminate|].
    intros _. now rewrite IH.
Qed.

Lemma nth_list_put_same (i : nat) (v : cell) (l : list cell) :
  nth i (list_put i v l) NA = v.
Proof.
  revert l. induction i as [|i IH]; intros [|x l]; simpl; trivial.
Qed.

Lemma nth_list_put_other (i j : nat) (v : cell) (l : list cell) :
  i <> j -> nth j (list_put i v l) NA = nth j l NA.
Proof.
  revert j l. induction i as [|i IH]; intros [|j] [|x l] Hne; simpl; trivial;
    try contradiction.
  - now destruct j.
  - rewrite IH by lia. now destruct j.
  - apply IH. lia.
Qed.

Lemma rows_assign (c : string) (f : row -> cell) (df : frame) :
  rows (assign c f df) = map (assigned c f df) (rows df).
Proof.
  unfold assign, assigned. now destruct (col_index c (columns df)).
Qed.

Lemma columns_assign (c : string) (f : row -> cell) (df : frame) :
  columns (assign c f df)
  = if has_col c df then columns df else columns df ++ [c].
Proof.
  unfold assign, has_col. now destruct (col_index c (columns df)).
Qed.

Lemma label_assigned (c : string) (f : row -> cell) (df : frame) (r : row) :
  label (assigned c f df r) = label r.
Proof.
  unfold assigned. now destruct (col_index c (columns df)).
Qed.

Lemma lookup_assign_same (c : string) (f : row -> cell) (df : frame) (r : row) :
  lookup (assign c f df) c (assigned c f df r) = f r.
Proof.
  unfold lookup, assign, assigned.
  destruct (col_index c (columns df)) as [i|] eqn:E; simpl.
  - rewrite E. apply nth_list_put_same.
  - rewrite (col_index_app_new _ _ E). apply nth_list_put_same.
Qed.

Lemma lookup_assign_other (c c' : string) (f : row -> cell) (df : frame) (r : row) :
  c' <> c ->
  lookup (assign c f df) c' (assigned c f df r) = lookup df c' r.
Proof.
  intro Hne. unfold lookup, assign, assigned.
  destruct (col_index c (columns df)) as [i|] eqn:E; simpl.
  - destruct (col_index c' (columns df)) as [j|] eqn:E'; trivial.
    apply nth_list_put_other. intro; subst j.
    apply Hne. eapply col_index_inj; eauto.
  - rewrite (col_index_app_other _ _ _ Hne).
    destruct (col_index c' (columns df)) as [j|] eqn:E'; trivial.
    apply nth_list_put_other. apply col_index_lt in E'. lia.
Qed.

Lemma has_col_assign_same (c : string) (f : row -> cell) (df : frame) :
  has_col c (assign c f df) = true.
Proof.
  apply has_col_In. rewrite columns_assign.
  destruct (has_col c df) eqn:E.
  - now apply has_col_In.
  - apply in_or_app. right. now left.
Qed.

Lemma has_col_assign_other (c c' : string) (f : row -> cell) (df : frame) :
  c' <> c -> has_col c' (assign c f df) = has_col c' df.
Proof.
  intro Hne. unfold has_col at 1. rewrite columns_assign.
  destruct (has_col c df); trivial.
  now rewrite col_index_app_other.
Qed.

Lemma has_col_assign_keeps (c c' : string) (f : row -> cell) (df : frame) :
  has_col c' df = true -> has_col c' (assign c f df) = true.
Proof.
  intro H. destruct (string_dec c' c) as [->|Hne].
  - apply has_col_assign_same.
  - now rewrite has_col_assign_other.
Qed.

(** ** [make_eval_group] *)

Section MakeEvalGroup.
Context `{Pandas}.
Variables (df g : frame) (etype_col : string).
Hypothesis Hg : make_eval_group df etype_col = Ok g.

Lemma make_eval_group_rows : rows g = map (grouped df etype_col) (rows df).
Proof.
  unfold make_eval_group in Hg.
  destruct (has_col etype_col df); [|discriminate].
  inversion Hg. rewrite !rows_assign, map_map. reflexivity.
Qed.

Lemma make_eval_group_columns :
  columns g = if has_col "EvalGroup" df then columns df
              else columns df ++ ["EvalGroup"].
Proof.
  unfold make_eval_group in Hg.
  destruct (has_col etype_col df); [|discriminate].
  inversion Hg. rewrite columns_assign, has_col_assign_same.
  apply columns_assign.
Qed.

Lemma make_eval_group_has_etype : has_col etype_col df = true.
Proof.
  unfold make_eval_group in Hg. now destruct (has_col etype_col df).
Qed.

Lemma grouped_label (r : row) : label (grouped df etype_col r) = label r.
Proof. unfold grouped. now rewrite !label_assigned. Qed.

Lemma grouped_group (r : row) :
  lookup g "EvalGroup" (grouped df etype_col r)
  = Str (eval_group (astype_str (lookup df etype_col r))).
Proof.
  unfold make_eval_group in Hg.
  destruct (has_col etype_col df); [|discriminate].
  inversion Hg. unfold grouped.
  rewrite lookup_assign_same, lookup_assign_same. reflexivity.
Qed.

Lemma grouped_other (c : string) (r : row) :
  c <> "EvalGroup" -> lookup g c (grouped df etype_col r) = lookup df c r.
Proof.
  intro Hne. unfold make_eval_group in Hg.
  destruct (has_col etype_col df); [|discriminate].
  inversion Hg. unfold grouped.
  now rewrite !lookup_assign_other.
Qed.

Lemma make_eval_group_nth (i : nat) (r : row) :
  nth_error (rows df) i = Some r ->
  nth_error (rows g) i = Some (grouped df etype_col r).
Proof.
  intro E. rewrite make_eval_group_rows. now apply map_nth_error.
Qed.
End MakeEvalGroup.

(** C1.  In the table [make_eval_group] returns, the group of every row
    is the normalised text of its evaluation-type label: the label
    [Teacher Unannounced Observation Domain 2] gives the group
    [Teacher (Unannounced)], and a label that no rule of the table matches
    is its own group, unchanged. *)
Theorem C1_category_normalization `{Pandas} (df g : frame) (etype_col : string)
    (i : nat) (r : row) :
  make_eval_group df etype_col = Ok g ->
  nth_error (rows df) i = Some r ->
  exists r', nth_error (rows g) i = Some r'
    /\ (astype_str (lookup df etype_col r) = "Teacher Unannounced Observation Domain 2" ->
        lookup g "EvalGroup" r' = Str "Teacher (Unannounced)")
    /\ ((forall p v, In (p, v) eval_group_rules ->
           search p (astype_str (lookup df etype_col r)) = false) ->
        lookup g "EvalGroup" r' = Str (astype_str (lookup df etype_col r))).
Proof.
  intros Hg Hr. exists (grouped df etype_col r). split.
  - now apply (make_eval_group_nth _ _ _ Hg).
  - rewrite (grouped_group _ _ _ Hg). split.
    + intros ->. reflexivity.
    + intro Hq. f_equal. now apply replace_list_unmatched.
Qed.

Lemma C1_category_normalization_witness :
  make_eval_group labels_frame "EvaluationType" = Ok labels_grouped
  /\ nth_error (rows labels_frame) 0
     = Some label0_row
  /\ exists r', nth_error (rows labels_grouped) 0 = Some r'
       /\ ((astype_str (lookup labels_frame "EvaluationType" label0_row)) = "Teacher Unannounced Observation Domain 2" ->
           lookup labels_grouped "EvalGroup" r' = Str "Teacher (Unannounced)")
       /\ ((forall p v, In (p, v) eval_group_rules -> search p (astype_str (lookup labels_frame "EvaluationType" label0_row)) = false) ->
           lookup labels_grouped "EvalGroup" r' = Str (astype_str (lookup labels_frame "EvaluationType" label0_row))).
Proof.
  split; [reflexivity|]. split; [reflexivity|].
  apply (C1_category_normalization labels_frame labels_grouped "EvaluationType" 0
           label0_row);
    reflexivity.
Defined.

Example volunteer_review_unchanged :
  map (lookup labels_grouped "EvalGroup") (rows labels_grouped)
  = [Str "Teacher (Unannounced)"; Str "Volunteer Review"].
Proof. reflexivity. Qed.

(** C10, as stated, fails on a table that already has a column named
    [EvalGroup]: the column is overwritten, so an original column does not
    keep its values. *)
Lemma C10_counterexample :
  ~ (forall d g,
       default_clean regrouped_csv None = Ok d ->
       make_eval_group d "EvaluationType" = Ok g ->
       forall i r r' c,
         nth_error (rows d) i = Some r ->
         nth_error (rows g) i = Some r' ->
         In c (columns d) ->
         lookup g c r' = lookup d c r).
Proof.
  intro Hc.
  assert (Ed : default_clean regrouped_csv None = Ok regrouped_clean) by reflexivity.
  assert (Eg : make_eval_group regrouped_clean "EvaluationType" = Ok regrouped_grouped)
    by reflexivity.
  assert (Hin : In "EvalGroup" (columns regrouped_clean)) by (simpl; tauto).
  specialize (Hc _ _ Ed Eg 0 _ _ "EvalGroup" eq_refl eq_refl Hin).
  discriminate Hc.
Qed.

Example regrouped_before_after :
  map (lookup regrouped_clean "EvalGroup") (rows regrouped_clean) = [Str "Building A"]
  /\ map (lookup regrouped_grouped "EvalGroup") (rows regrouped_grouped)
     = [Str "Media Specialist"].
Proof. split; reflexivity. Qed.

(** C10, amended.  The table [make_eval_group] returns has the rows of
    its input, in the same order and under the same index labels, and
    every column other than [EvalGroup] with its values unchanged; the
    column [EvalGroup] is appended when the input has none and overwritten
    when it has one. *)
Theorem C10_normalization_frame `{Pandas} (df g : frame) (etype_col : string) :
  make_eval_group df etype_col = Ok g ->
  columns g = (if has_col "EvalGroup" df then columns df
               else columns df ++ ["EvalGroup"])
  /\ map label (rows g) = map label (rows df)
  /\ forall i r, nth_error (rows df) i = Some r ->
       exists r', nth_error (rows g) i = Some r'
         /\ forall c, c <> "EvalGroup" -> lookup g c r' = lookup df c r.
Proof.
  intro Hg. split; [apply (make_eval_group_columns _ _ _ Hg)|]. split.
  - rewrite (make_eval_group_rows _ _ _ Hg), map_map.
    apply map_ext. intro r. apply grouped_label.
  - intros i r Hr. exists (grouped df etype_col r). split.
    + now apply (make_eval_group_nth _ _ _ Hg).
    + intros c Hc. now apply (grouped_other _ _ _ Hg).
Qed.

Lemma C10_normalization_frame_witness :
  make_eval_group labels_frame "EvaluationType" = Ok labels_grouped
  /\ columns labels_grouped = ["EvaluationType"; "EvalGroup"]
  /\ map label (rows labels_grouped) = [0; 1]
  /\ forall i r, nth_error (rows labels_frame) i = Some r ->
       exists r', nth_error (rows labels_grouped) i = Some r'
         /\ forall c, c <> "EvalGroup" ->
              lookup labels_grouped c r' = lookup labels_frame c r.
Proof.
  split; [reflexivity|].
  apply (C10_normalization_frame labels_frame labels_grouped "EvaluationType").
  reflexivity.
Defined.

(** ** [load_clean] *)

Lemma lookup_same_columns (df df' : frame) (c : string) (r : row) :
  columns df = columns df' -> lookup df c r = lookup df' c r.
Proof. unfold lookup. now intros ->. Qed.

Lemma has_col_same_columns (df df' : frame) (c : string) :
  columns df = columns df' -> has_col c df = has_col c df'.
Proof. unfold has_col. now intros ->. Qed.

Lemma labels_number_from (b : list (list cell)) :
  forall i, map label (number_from i b) = seq i (List.length b).
Proof.
  induction b as [|cs b IH]; intro i; simpl; trivial. now rewrite IH.
Qed.

Lemma read_csv_labels (t : table) :
  NoDup (map label (rows (strip_columns (read_csv t)))).
Proof.
  simpl. rewrite labels_number_from. apply seq_NoDup.
Qed.

Lemma same_label_same_row (l : list row) (a b : row) :
  NoDup (map label l) -> In a l -> In b l -> label a = label b -> a = b.
Proof.
  induction l as [|x l IH]; simpl; intros Hnd Ha Hb E; [contradiction|].
  inversion Hnd as [|? ? Hx Hl]. subst.
  destruct Ha as [->|Ha], Hb as [->|Hb]; trivial.
  - exfalso. apply Hx. rewrite E. now apply in_map.
  - exfalso. apply Hx. rewrite <- E. now apply in_map.
  - now apply IH.
Qed.

Section Loader.
Context `{Pandas}.
Variables (df : frame) (date_col score_col : string).

Lemma rows_parse_columns :
  rows (parse_columns df date_col score_col)
  = map (parsed df date_col score_col) (rows df).
Proof.
  unfold parse_columns. rewrite !rows_assign, map_map. reflexivity.
Qed.

Lemma columns_parse_columns :
  has_col date_col df = true -> has_col score_col df = true ->
  columns (parse_columns df date_col score_col) = columns df.
Proof.
  intros Hd Hs. unfold parse_columns.
  rewrite columns_assign, has_col_assign_keeps by trivial.
  rewrite columns_assign. now rewrite Hd.
Qed.

Lemma label_parsed (r : row) : label (parsed df date_col score_col r) = label r.
Proof. unfold parsed. now rewrite !label_assigned. Qed.

Lemma parsed_date (r : row) :
  date_col <> score_col ->
  lookup (parse_columns df date_col score_col) date_col (parsed df date_col score_col r)
  = of_ts (to_datetime (column date_col df) (lookup df date_col r)).
Proof.
  intro Hne. unfold parse_columns, parsed.
  rewrite lookup_assign_other by trivial.
  now rewrite lookup_assign_same.
Qed.

Lemma parsed_score (r : row) :
  date_col <> score_col ->
  lookup (parse_columns df date_col score_col) score_col (parsed df date_col score_col r)
  = of_num (to_numeric (lookup df score_col r)).
Proof.
  intro Hne. unfold parse_columns, parsed.
  rewrite lookup_assign_same.
  rewrite lookup_assign_other by congruence. reflexivity.
Qed.

Lemma parsed_other (c : string) (r : row) :
  c <> date_col -> c <> score_col ->
  lookup (parse_columns df date_col score_col) c (parsed df date_col score_col r)
  = lookup df c r.
Proof.
  intros Hd Hs. unfold parse_columns, parsed.
  now rewrite !lookup_assign_other.
Qed.

Lemma rows_add_months :
  rows (add_months df date_col) = map (dated df date_col) (rows df).
Proof.
  unfold add_months. rewrite !rows_assign, map_map. reflexivity.
Qed.

Lemma label_dated (r : row) : label (dated df date_col r) = label r.
Proof. unfold dated. now rewrite !label_assigned. Qed.

Lemma dated_other (c : string) (r : row) :
  c <> "Month" -> c <> "MonthStart" ->
  lookup (add_months df date_col) c (dated df date_col r) = lookup df c r.
Proof.
  intros Hm Hs. unfold add_months, dated.
  now rewrite !lookup_assign_other.
Qed.

Lemma dated_month (r : row) :
  lookup (add_months df date_col) "Month" (dated df date_col r)
  = Str (month_str (lookup df date_col r)).
Proof.
  unfold add_months, dated.
  rewrite lookup_assign_other by discriminate.
  now rewrite lookup_assign_same.
Qed.

Lemma dated_month_start (r : row) :
  lookup (add_months df date_col) "MonthStart" (dated df date_col r)
  = month_start (month_str (lookup df date_col r)).
Proof.
  unfold add_months, dated.
  now rewrite lookup_assign_same, lookup_assign_same.
Qed.

Lemma has_col_add_months (c : string) :
  has_col c df = true -> has_col c (add_months df date_col) = true.
Proof.
  intro Hc. unfold add_months. now apply has_col_assign_keeps, has_col_assign_keeps.
Qed.
End Loader.

Lemma assigned_same_columns (c : string) (f f' : row -> cell) (df df' : frame)
    (r r' : row) :
  columns df = columns df' -> r = r' -> f r = f' r' ->
  assigned c f df r = assigned c f' df' r'.
Proof.
  intros E -> Ef. unfold assigned. rewrite E, Ef. reflexivity.
Qed.

Lemma columns_assign_same_columns (c : string) (f f' : row -> cell) (df df' : frame) :
  columns df = columns df' -> columns (assign c f df) = columns (assign c f' df').
Proof.
  intro E. rewrite !columns_assign, (has_col_same_columns _ _ c E), E. reflexivity.
Qed.

Lemma dated_same_columns (df df' : frame) (d : string) (r : row) :
  columns df = columns df' -> dated df d r = dated df' d r.
Proof.
  intro E. unfold dated.
  apply assigned_same_columns.
  - now apply columns_assign_same_columns.
  - apply assigned_same_columns; trivial.
    now rewrite (lookup_same_columns _ _ d r E).
  - rewrite !lookup_assign_same.
    now rewrite (lookup_same_columns _ _ d r E).
Qed.

Lemma columns_add_months_same (df df' : frame) (d : string) :
  columns df = columns df' -> columns (add_months df d) = columns (add_months df' d).
Proof.
  intro E. unfold add_months.
  now apply columns_assign_same_columns, columns_assign_same_columns.
Qed.

Lemma columns_filter_year `{Pandas} (df : frame) (sy : string) (flt : option string) :
  columns (filter_year df sy flt) = columns df.
Proof.
  unfold filter_year. now destruct (truthy flt && has_col sy df).
Qed.

Lemma rows_filter_year_incl `{Pandas} (df : frame) (sy : string) (flt : option string) (r : row) :
  In r (rows (filter_year df sy flt)) -> In r (rows df).
Proof.
  unfold filter_year. destruct (truthy flt && has_col sy df); trivial.
  simpl. intro Hin. now apply filter_In in Hin.
Qed.

(** The stages of a successful [load_clean]. *)
Lemma load_clean_ok `{Pandas} (csv : table) (d s sy : string) (flt : option string)
    (out : frame) :
  load_clean csv d s sy flt = Ok out ->
  let df := strip_columns (read_csv csv) in
  has_col d df = true /\ has_col s df = true /\ d <> s
  /\ out = add_months
             (filter_year (dropna [d; s] (parse_columns df d s)) sy flt) d.
Proof.
  intros Hl df. unfold load_clean in Hl. fold df in Hl.
  destruct (has_col d df) eqn:Hd; [|discriminate].
  destruct (has_col s df) eqn:Hs; [|discriminate].
  simpl in Hl. destruct (String.eqb d s) eqn:E; [discriminate|].
  apply String.eqb_neq in E. inversion Hl. auto.
Qed.

Lemma load_clean_run `{Pandas} (csv : table) (d s sy : string) (flt : option string) :
  let df := strip_columns (read_csv csv) in
  has_col d df = true -> has_col s df = true -> d <> s ->
  load_clean csv d s sy flt
  = Ok (add_months (filter_year (dropna [d; s] (parse_columns df d s)) sy flt) d).
Proof.
  intros df Hd Hs Hne. unfold load_clean. fold df. rewrite Hd, Hs. simpl.
  apply String.eqb_neq in Hne. now rewrite Hne.
Qed.

(** A row that survives line 53 is the parse of a row of the file whose
    date and score both parsed. *)
Lemma dropna_parsed `{Pandas} (df : frame) (d s : string) (r2 : row) :
  d <> s ->
  In r2 (rows (dropna [d; s] (parse_columns df d s))) ->
  exists r t q,
    In r (rows df) /\ r2 = parsed df d s r
    /\ to_datetime (column d df) (lookup df d r) = Some t
    /\ to_numeric (lookup df s r) = Some q
    /\ lookup (parse_columns df d s) d r2 = Ts t
    /\ lookup (parse_columns df d s) s r2 = Num q.
Proof.
  intros Hne Hin. unfold dropna, filter_rows in Hin. simpl in Hin.
  apply filter_In in Hin. destruct Hin as [Hin Hk].
  rewrite rows_parse_columns in Hin. apply in_map_iff in Hin.
  destruct Hin as [r [<- Hr]].
  rewrite parsed_date, parsed_score in Hk by trivial.
  destruct (to_datetime (column d df) (lookup df d r)) as [t|] eqn:Et;
    [|discriminate].
  destruct (to_numeric (lookup df s r)) as [q|] eqn:Eq; [|discriminate].
  exists r, t, q. rewrite parsed_date, parsed_score, Et, Eq by trivial.
  repeat split; trivial.
Qed.

(** C5.  Every row of the table [load_clean] returns is a row of the
    file (same index label) whose date and whose score both parsed, and it
    holds those parsed values; a row of the file whose date or score did
    not parse has no row in the result. *)
Theorem C5_clean_rows_parsed `{Pandas} (csv : table) (d s sy : string)
    (flt : option string) (out : frame) :
  load_clean csv d s sy flt = Ok out ->
  let df := strip_columns (read_csv csv) in
  (forall r', In r' (rows out) ->
     exists r t q,
       In r (rows df) /\ label r = label r'
       /\ to_datetime (column d df) (lookup df d r) = Some t
       /\ to_numeric (lookup df s r) = Some q
       /\ (d <> "Month" -> d <> "MonthStart" -> lookup out d r' = Ts t)
       /\ (s <> "Month" -> s <> "MonthStart" -> lookup out s r' = Num q))
  /\ (forall r, In r (rows df) ->
        to_datetime (column d df) (lookup df d r) = None
        \/ to_numeric (lookup df s r) = None ->
        ~ In (label r) (map label (rows out))).
Proof.
  intros Hl df.
  destruct (load_clean_ok _ _ _ _ _ _ Hl) as (Hd & Hs & Hne & Hout). fold df in Hout.
  assert (Hrows : forall r', In r' (rows out) ->
            exists r t q,
              In r (rows df) /\ label r = label r'
              /\ to_datetime (column d df) (lookup df d r) = Some t
              /\ to_numeric (lookup df s r) = Some q
              /\ (d <> "Month" -> d <> "MonthStart" -> lookup out d r' = Ts t)
              /\ (s <> "Month" -> s <> "MonthStart" -> lookup out s r' = Num q)).
  { intros r' Hin. subst out. rewrite rows_add_months in Hin.
    apply in_map_iff in Hin. destruct Hin as [r4 [<- Hin]].
    apply rows_filter_year_incl in Hin.
    destruct (dropna_parsed _ _ _ _ Hne Hin) as (r & t & q & Hr & E & Et & Eq & Ld & Ls).
    exists r, t, q. repeat split; trivial.
    - rewrite label_dated, E. symmetry. apply label_parsed.
    - intros M1 M2. rewrite dated_other by trivial.
      rewrite <- Ld. apply lookup_same_columns.
      now rewrite columns_filter_year.
    - intros M1 M2. rewrite dated_other by trivial.
      rewrite <- Ls. apply lookup_same_columns.
      now rewrite columns_filter_year. }
  split; trivial.
  intros r Hr Hfail Hin. apply in_map_iff in Hin. destruct Hin as [r' [El Hin]].
  destruct (Hrows r' Hin) as (r0 & t & q & Hr0 & El0 & Et & Eq & _).
  assert (r0 = r).
  { apply (same_label_same_row (rows df)); trivial.
    - apply read_csv_labels.
    - congruence. }
  subst r0. destruct Hfail; congruence.
Qed.

Lemma C5_clean_rows_parsed_witness :
  default_clean messy_csv None = Ok messy_clean
  /\ let df := strip_columns (read_csv messy_csv) in
     (forall r', In r' (rows messy_clean) ->
        exists r t q,
          In r (rows df) /\ label r = label r'
          /\ to_datetime (column "ObservationDateTime" df)
                         (lookup df "ObservationDateTime" r) = Some t
          /\ to_numeric (lookup df "ObservationScore" r) = Some q
          /\ ("ObservationDateTime" <> "Month" -> "ObservationDateTime" <> "MonthStart" ->
              lookup messy_clean "ObservationDateTime" r' = Ts t)
          /\ ("ObservationScore" <> "Month" -> "ObservationScore" <> "MonthStart" ->
              lookup messy_clean "ObservationScore" r' = Num q))
     /\ (forall r, In r (rows df) ->
           to_datetime (column "ObservationDateTime" df)
                       (lookup df "ObservationDateTime" r) = None
           \/ to_numeric (lookup df "ObservationScore" r) = None ->
           ~ In (label r) (map label (rows messy_clean))).
Proof.
  split; [reflexivity|].
  apply (C5_clean_rows_parsed messy_csv "ObservationDateTime" "ObservationScore"
           "SchoolYear" None messy_clean).
  reflexivity.
Defined.

(** The rows 1 and 2 of [messy_csv], with a date and a score that do not
    parse, are dropped; the rows 0 and 3 are kept as they are. *)
Example messy_rows_dropped : map label (rows messy_clean) = [0; 3].
Proof. reflexivity. Qed.

Lemma filter_map_comm {A B : Type} (f : B -> bool) (g : A -> B) (l : list A) :
  filter f (map g l) = map g (filter (fun x => f (g x)) l).
Proof.
  induction l as [|x l IH]; simpl; trivial.
  destruct (f (g x)); simpl; now rewrite IH.
Qed.

Lemma filter_none {X : Type} (keep : X -> bool) (l : list X)
    (Hf : forall x, In x l -> keep x = false) :
  filter keep l = [].
Proof.
  induction l as [|x l IH]; simpl; trivial.
  rewrite (Hf x) by now left. apply IH. intros y Hy. apply Hf. now right.
Qed.

(** C4, as stated, fails in two ways.  For the empty filter value, line
    54 treats it as no filter at all and every row is kept, whatever its
    school year.  And when the school-year column is named [Month], line
    56 overwrites it after the filter: the values of the result are month
    labels, not the filter. *)
Lemma C4_counterexample :
  ~ (forall out, default_clean messy_csv (Some "") = Ok out ->
     forall r, In r (rows out) -> astype_str (lookup out "SchoolYear" r) = "")
  /\ ~ (forall out,
          load_clean month_named_csv "ObservationDateTime" "ObservationScore" "Month"
            (Some "2023-2024") = Ok out ->
          forall r, In r (rows out) -> astype_str (lookup out "Month" r) = "2023-2024").
Proof.
  split; intro Hc.
  - assert (E : default_clean messy_csv (Some "") = Ok messy_clean) by reflexivity.
    specialize (Hc _ E _ (or_introl eq_refl)). discriminate Hc.
  - assert (E : load_clean month_named_csv "ObservationDateTime" "ObservationScore"
                  "Month" (Some "2023-2024") = Ok month_named_clean) by reflexivity.
    specialize (Hc _ E _ (or_introl eq_refl)). discriminate Hc.
Qed.

(** C4, amended.  For every file whose column labels are distinct once
    trimmed and that [load_clean] accepts, and every filter value other
    than the empty text, when the school-year column exists (and is not
    one of the derived columns [Month] and [MonthStart]) the filtered load
    succeeds and returns exactly the rows of the unfiltered result whose
    school-year value, as text, equals the filter: every school-year value
    of the result equals the filter, and a filter that no row carries
    gives the empty table.  The empty text as filter is no filter: the
    load returns the unfiltered result.  (With a label that occurs twice
    after trimming, [df[label]] is a table in pandas and not a column: the
    statement leaves such files out.) *)
Theorem C4_school_year_filter `{Pandas} (csv : table) (d s sy v : string)
    (all : frame) :
  NoDup (map strip (header csv)) ->
  load_clean csv d s sy None = Ok all ->
  v <> "" ->
  In sy (map strip (header csv)) ->
  sy <> "Month" -> sy <> "MonthStart" ->
  (exists out,
     load_clean csv d s sy (Some v) = Ok out
     /\ columns out = columns all
     /\ rows out = filter (fun r => String.eqb (astype_str (lookup all sy r)) v) (rows all)
     /\ (forall r, In r (rows out) -> astype_str (lookup out sy r) = v)
     /\ ((forall r, In r (rows all) -> astype_str (lookup all sy r) <> v) ->
         rows out = []))
  /\ load_clean csv d s sy (Some "") = Ok all.
Proof.
  intros _ Hall Hv Hsy M1 M2.
  split; [|rewrite <- Hall; unfold load_clean, filter_year; reflexivity].
  destruct (load_clean_ok _ _ _ _ _ _ Hall) as (Hd & Hs & Hne & Eall).
  set (df := strip_columns (read_csv csv)) in *.
  set (df3 := dropna [d; s] (parse_columns df d s)) in *.
  assert (Hcols : columns df3 = columns df)
    by (unfold df3; simpl; now apply columns_parse_columns).
  assert (Hsy3 : has_col sy df3 = true).
  { rewrite (has_col_same_columns _ _ _ Hcols). now apply has_col_In. }
  assert (Ef : filter_year df3 sy (Some v) = filter_rows (matches_year df3 sy v) df3).
  { unfold filter_year. simpl. rewrite Hsy3.
    apply String.eqb_neq in Hv. now rewrite Hv. }
  assert (Erows : rows (add_months (filter_rows (matches_year df3 sy v) df3) d)
                  = filter (fun r => String.eqb (astype_str (lookup all sy r)) v) (rows all)).
  { subst all. unfold filter_year. simpl truthy. simpl andb. cbv iota.
    rewrite !rows_add_months. rewrite filter_map_comm. simpl rows.
    rewrite (map_ext _ (dated df3 d))
      by (intro r; now apply dated_same_columns).
    f_equal. apply filter_ext. intro r. unfold matches_year.
    now rewrite dated_other. }
  exists (add_months (filter_rows (matches_year df3 sy v) df3) d).
  split; [|split; [|split; [|split]]].
  - rewrite <- Ef. now apply load_clean_run.
  - subst all. now apply columns_add_months_same.
  - exact Erows.
  - intros r Hr. rewrite rows_add_months in Hr. apply in_map_iff in Hr.
    destruct Hr as [r3 [<- Hr]]. simpl in Hr. apply filter_In in Hr.
    destruct Hr as [_ Hm]. rewrite dated_other by trivial.
    unfold matches_year in Hm. apply String.eqb_eq in Hm. exact Hm.
  - intro Hnone. rewrite Erows. apply filter_none. intros r Hr.
    apply String.eqb_neq. now apply Hnone.
Qed.

Lemma C4_school_year_filter_witness :
  NoDup (map strip (header messy_csv))
  /\ default_clean messy_csv None = Ok messy_clean
  /\ "2024-2025" <> ""
  /\ In "SchoolYear" (map strip (header messy_csv))
  /\ (exists out,
        default_clean messy_csv (Some "2024-2025") = Ok out
        /\ columns out = columns messy_clean
        /\ rows out = filter (fun r => String.eqb (astype_str (lookup messy_clean "SchoolYear" r))
                                                  "2024-2025") (rows messy_clean)
        /\ (forall r, In r (rows out) -> astype_str (lookup out "SchoolYear" r) = "2024-2025")
        /\ ((forall r, In r (rows messy_clean) ->
               astype_str (lookup messy_clean "SchoolYear" r) <> "2024-2025") ->
            rows out = []))
  /\ default_clean messy_csv (Some "") = Ok messy_clean.
Proof.
  assert (Hnd : NoDup (map strip (header messy_csv))).
  { vm_compute. repeat constructor; simpl; intuition discriminate. }
  split; [exact Hnd|]. split; [reflexivity|]. split; [discriminate|].
  split; [simpl; tauto|].
  apply (C4_school_year_filter messy_csv "ObservationDateTime" "ObservationScore"
           "SchoolYear" "2024-2025" messy_clean);
    solve [exact Hnd | reflexivity | discriminate | simpl; tauto].
Defined.

Example filter_present_year : default_clean messy_csv (Some "2024-2025") = Ok messy_2024.
Proof. reflexivity. Qed.

Example filter_absent_year :
  default_clean messy_csv (Some "1999-2000")
  = Ok {| columns := clean_columns; rows := [] |}.
Proof. reflexivity. Qed.

(** ** [main] *)

(** C6.  When the date column or the score column is not among the
    trimmed labels of the file, [main] raises the error of [load_clean]
    (a [ValueError]) after it has made the two output directories and
    before anything is computed: no figure and no table is written. *)
Theorem C6_missing_column_aborts `{Pandas} (a : args) (w : world) :
  ~ In (date_col a) (map strip (header (csv a)))
  \/ ~ In (score_col a) (map strip (header (csv a))) ->
  main a w = ({| dirs := dirs w ++ [OUT_FIGS; OUT_DATA]; files := files w |},
              Raise ValueError).
Proof.
  intro Habs.
  assert (E : load_clean (csv a) (date_col a) (score_col a) (schoolyear_col a)
                (school_year a) = Raise ValueError).
  { unfold load_clean.
    destruct Habs as [Hn|Hn]; apply col_index_none in Hn;
      unfold has_col; simpl columns; rewrite Hn; simpl; trivial.
    now rewrite orb_true_r. }
  unfold main, ensure_dirs, bind, mkdir, lift. simpl. rewrite E.
  now rewrite <- app_assoc.
Qed.

Lemma C6_missing_column_aborts_witness :
  (~ In "ObservationDateTime" (map strip (header scoreless_csv))
   \/ ~ In "ObservationScore" (map strip (header scoreless_csv)))
  /\ main scoreless_args empty_world
     = ({| dirs := [OUT_FIGS; OUT_DATA]; files := [] |}, Raise ValueError).
Proof.
  assert (Habs : ~ In "ObservationDateTime" (map strip (header scoreless_csv))
                 \/ ~ In "ObservationScore" (map strip (header scoreless_csv))).
  { right. simpl. intros [E|[E|[]]]; discriminate E. }
  split; [exact Habs|].
  exact (C6_missing_column_aborts scoreless_args empty_world Habs).
Defined.

(** ** Sorting and grouping *)

Section SortBy.
Context {A : Type}.
Variable leb : A -> A -> bool.

Lemma insert_by_perm (x : A) (l : list A) :
  Permutation (insert_by leb x l) (x :: l).
Proof.
  induction l as [|y l IH]; simpl; trivial.
  destruct (leb x y); trivial.
  rewrite IH. apply perm_swap.
Qed.

Lemma sort_by_perm (l : list A) : Permutation (sort_by leb l) l.
Proof.
  induction l as [|x l IH]; simpl; trivial.
  rewrite insert_by_perm. now apply perm_skip.
Qed.

Lemma sort_by_In (x : A) (l : list A) : In x (sort_by leb l) <-> In x l.
Proof.
  split; apply Permutation_in; [|symmetry]; apply sort_by_perm.
Qed.

Hypothesis leb_total : forall a b, leb a b = false -> leb b a = true.

Lemma insert_by_sorted (x : A) (l : list A) :
  Sorted (fun a b => leb a b = true) l ->
  Sorted (fun a b => leb a b = true) (insert_by leb x l).
Proof.
  induction 1 as [|y l Hs IH Hhd]; simpl.
  - repeat constructor.
  - destruct (leb x y) eqn:E.
    + constructor; [now constructor | now constructor].
    + constructor; trivial.
      destruct l as [|z l]; simpl in *.
      * constructor. now apply leb_total.
      * destruct (leb x z); constructor; [now apply leb_total|].
        now inversion Hhd.
Qed.

Lemma sort_by_sorted (l : list A) :
  Sorted (fun a b => leb a b = true) (sort_by leb l).
Proof.
  induction l as [|x l IH]; simpl; [constructor|].
  now apply insert_by_sorted.
Qed.
End SortBy.

Lemma sort_by_map_perm {A B : Type} (leb : A -> A -> bool) (f : A -> B) (l : list A) :
  Permutation (map f (sort_by leb l)) (map f l).
Proof. apply Permutation_map, sort_by_perm. Qed.

Lemma NoDup_map_filter {X K : Type} (key : X -> K) (keep : X -> bool) (xs : list X)
    (Hnd : NoDup (map key xs)) :
  NoDup (map key (filter keep xs)).
Proof.
  induction xs as [|x xs IH]; simpl; trivial.
  inversion Hnd as [|? ? Hx Hl]. subst.
  destruct (keep x); simpl; auto.
  constructor; auto. intro Hin. apply Hx.
  apply in_map_iff in Hin. destruct Hin as [y [E Hy]].
  apply filter_In in Hy. apply in_map_iff. exists y. tauto.
Qed.

Lemma omap_In {X Y : Type} (pick : X -> option Y) (y : Y) (xs : list X) :
  In y (omap pick xs) <-> exists x, pick x = Some y /\ In x xs.
Proof.
  cut (In y (omap pick xs) <-> exists x, In x xs /\ pick x = Some y).
  { intros ->. split; intros [x [? ?]]; exists x; tauto. }
  induction xs as [|x l IH]; simpl.
  - split; [contradiction | now intros [x [[] _]]].
  - destruct (pick x) as [z|] eqn:E; simpl; rewrite IH; split.
    + intros [->|[x' [Hin Ex]]]; [exists x | exists x']; auto.
    + intros [x' [[->|Hin] Ex]]; [left; congruence | right; eauto].
    + intros [x' [Hin Ex]]. exists x'. auto.
    + intros [x' [[->|Hin] Ex]]; [congruence | eauto].
Qed.

Section Dedup.
Context {K : Type}.
Variable eqb : K -> K -> bool.
Hypothesis eqb_eq : forall a b, eqb a b = true <-> a = b.

Lemma existsb_eqb (x : K) (l : list K) : existsb (eqb x) l = true <-> In x l.
Proof.
  rewrite existsb_exists. split.
  - intros [y [Hy E]]. apply eqb_eq in E. now subst.
  - intro Hin. exists x. split; trivial. now apply eqb_eq.
Qed.

Lemma dedup_In (x : K) (l : list K) : In x (dedup eqb l) <-> In x l.
Proof.
  induction l as [|y l IH]; simpl; [tauto|].
  destruct (existsb (eqb y) l) eqn:E; simpl; rewrite IH; [|tauto].
  apply existsb_eqb in E. split; [tauto|]. intros [->|]; trivial.
Qed.

Lemma dedup_NoDup (l : list K) : NoDup (dedup eqb l).
Proof.
  induction l as [|y l IH]; simpl; [constructor|].
  destruct (existsb (eqb y) l) eqn:E; trivial.
  constructor; trivial. rewrite dedup_In. intro Hin.
  apply existsb_eqb in Hin. congruence.
Qed.

Variable leb : K -> K -> bool.
Variable key : row -> option K.

Lemma groupby_keys (rs : list row) :
  map fst (groupby eqb leb key rs) = sort_by leb (dedup eqb (omap key rs)).
Proof.
  unfold groupby. rewrite map_map. simpl. apply map_id.
Qed.

Lemma groupby_keys_NoDup (rs : list row) : NoDup (map fst (groupby eqb leb key rs)).
Proof.
  rewrite groupby_keys.
  apply (Permutation_NoDup (l := dedup eqb (omap key rs))).
  - symmetry. apply sort_by_perm.
  - apply dedup_NoDup.
Qed.

Lemma groupby_key_In (rs : list row) (k : K) :
  In k (map fst (groupby eqb leb key rs)) <-> exists r, In r rs /\ key r = Some k.
Proof.
  rewrite groupby_keys, sort_by_In, dedup_In, omap_In.
  split; intros [r [? ?]]; exists r; tauto.
Qed.

Lemma groupby_In (rs : list row) (k : K) (g : list row) :
  In (k, g) (groupby eqb leb key rs) -> g = filter (key_is eqb key k) rs.
Proof.
  unfold groupby. intro Hin. apply in_map_iff in Hin.
  destruct Hin as [k' [E _]]. now inversion E.
Qed.
End Dedup.

Lemma fl_leb_total (a b : fl) : fl_leb a b = false -> fl_leb b a = true.
Proof.
  destruct a as [x|], b as [y|]; simpl; trivial; try discriminate.
  intro E. apply Qle_bool_iff. apply Qlt_le_weak. apply Qnot_le_lt.
  intro Hle. apply Qle_bool_iff in Hle. congruence.
Qed.

Lemma ts_leb_total (a b : timestamp) : ts_leb a b = false -> ts_leb b a = true.
Proof.
  unfold ts_leb.
  repeat match goal with
         | |- context [(?x <? ?y)%Z] => destruct (Z.ltb_spec x y)
         | |- context [(?x <=? ?y)%Z] => destruct (Z.leb_spec x y)
         end; trivial; try discriminate; lia.
Qed.

Lemma ts_eqb_eq (a b : timestamp) : ts_eqb a b = true <-> a = b.
Proof.
  unfold ts_eqb. rewrite !andb_true_iff, !Z.eqb_eq.
  destruct a, b; simpl. split.
  - intros [[[-> ->] ->] ->]. reflexivity.
  - intro E. inversion E. auto.
Qed.

Lemma month_key_eqb_eq (a b : string * timestamp) : month_key_eqb a b = true <-> a = b.
Proof.
  unfold month_key_eqb. rewrite andb_true_iff, String.eqb_eq, ts_eqb_eq.
  destruct a, b; simpl. split.
  - intros [-> ->]. reflexivity.
  - intro E. inversion E. auto.
Qed.

(** ** Running a computation *)

Lemma bind_ok {A B : Type} (c : M A) (k : A -> M B) (w w' : world) (b : B) :
  bind c k w = (w', Ok b) ->
  exists w1 a, c w = (w1, Ok a) /\ k a w1 = (w', Ok b).
Proof.
  unfold bind. destruct (c w) as [w1 [a|e]]; [|discriminate].
  intro E. now exists w1, a.
Qed.

Lemma lift_ok {A : Type} (r : result A) (w w' : world) (a : A) :
  lift r w = (w', Ok a) -> w' = w /\ r = Ok a.
Proof. unfold lift. intro E. inversion E. auto. Qed.

Lemma select_scores_ok (df : frame) (c : string) (w w' : world) (u : unit) :
  select_scores df c w = (w', Ok u) ->
  w' = w /\ has_col c df = true /\ numeric_col df c = true.
Proof.
  unfold select_scores, ret, raise.
  destruct (has_col c df); [|discriminate].
  destruct (numeric_col df c); [|discriminate].
  intro E. inversion E. auto.
Qed.

Lemma select_scores_run (df : frame) (c : string) (w : world) :
  has_col c df = true -> numeric_col df c = true ->
  select_scores df c w = (w, Ok tt).
Proof. unfold select_scores. now intros -> ->. Qed.

Lemma guard_ok (b : bool) (e : exn) (w w' : world) (u : unit) :
  (if b then ret tt else raise e) w = (w', Ok u) -> w' = w /\ b = true.
Proof.
  destruct b; unfold ret, raise; intro E; inversion E; auto.
Qed.

Lemma write_files (p : string) (a : artefact) (w w' : world) (u : unit) :
  write p a w = (w', Ok u) -> files w' = files w ++ [(p, a)].
Proof. unfold write. intro E. inversion E. reflexivity. Qed.

(** ** [plot_box_by_type] *)

Lemma boxplot_run (data : list (list Q)) (labels : list string) (w w' : world) (u : unit) :
  boxplot data labels w = (w', Ok u) ->
  w' = w /\ List.length labels = List.length (reshape_2D data).
Proof.
  unfold boxplot.
  destruct (Nat.eqb (List.length labels) (List.length (reshape_2D data))) eqn:E.
  - unfold ret. intro R. inversion R. split; trivial. now apply Nat.eqb_eq.
  - unfold raise. discriminate.
Qed.

(** With one label for each array of data, and at least one, [boxplot]
    draws. *)
Lemma boxplot_draws (data : list (list Q)) (labels : list string) (w : world) :
  List.length labels = List.length data -> labels <> [] ->
  boxplot data labels w = (w, Ok tt).
Proof.
  intros E Hne. unfold boxplot.
  destruct data as [|d data].
  - destruct labels; [contradiction | discriminate].
  - simpl reshape_2D. rewrite E, Nat.eqb_refl. reflexivity.
Qed.

Lemma key_is_group (gdf : frame) (l : string) (r : row) :
  key_is String.eqb (group_key gdf) l r = cell_eqb (lookup gdf "EvalGroup" r) (Str l).
Proof.
  unfold key_is, group_key. now destruct (lookup gdf "EvalGroup" r).
Qed.

Lemma group_key_Str (gdf : frame) (l : string) (r : row) :
  group_key gdf r = Some l <-> lookup gdf "EvalGroup" r = Str l.
Proof.
  unfold group_key. destruct (lookup gdf "EvalGroup" r); split; congruence.
Qed.

Lemma groups_of_group_stats (gdf : frame) (sc : string) :
  map group (group_stats gdf sc)
  = map fst (groupby String.eqb String.leb (group_key gdf) (rows gdf)).
Proof. unfold group_stats. now rewrite map_map. Qed.

Lemma group_stats_In (gdf : frame) (sc : string) (st : type_stat) :
  In st (group_stats gdf sc) -> st = summary_of gdf sc (group st).
Proof.
  unfold group_stats. intro Hin. apply in_map_iff in Hin.
  destruct Hin as [[k g] [<- Hin]]. simpl.
  apply groupby_In in Hin. subst g. unfold summary_of, group_rows.
  now rewrite (filter_ext _ _ (key_is_group gdf k)).
Qed.

Lemma group_stats_groups (gdf : frame) (sc l : string) :
  In l (map group (group_stats gdf sc))
  <-> exists r, In r (rows gdf) /\ lookup gdf "EvalGroup" r = Str l.
Proof.
  rewrite groups_of_group_stats, (groupby_key_In _ String.eqb_eq).
  split; intros [r [Hr E]]; exists r; split; trivial; now apply group_key_Str.
Qed.

Lemma group_stats_NoDup (gdf : frame) (sc : string) :
  NoDup (map group (group_stats gdf sc)).
Proof.
  rewrite groups_of_group_stats. apply groupby_keys_NoDup, String.eqb_eq.
Qed.

Lemma find_by_group (table : list type_stat) (st : type_stat) :
  NoDup (map group table) -> In st table ->
  find (fun x => String.eqb (group x) (group st)) table = Some st.
Proof.
  induction table as [|x table IH]; simpl; intros Hnd Hin; [contradiction|].
  inversion Hnd as [|? ? Hx Hl]. subst.
  destruct Hin as [->|Hin].
  - now rewrite String.eqb_refl.
  - destruct (String.eqb (group x) (group st)) eqn:E.
    + apply String.eqb_eq in E. exfalso. apply Hx. rewrite E. now apply in_map.
    + now apply IH.
Qed.

(** [loc] finds the lines of a selection of the table as they are. *)
Lemma loc_selection (table stats : list type_stat) :
  NoDup (map group table) ->
  (forall st, In st stats -> In st table) ->
  loc (map group stats) table = Ok stats.
Proof.
  intros Hnd. induction stats as [|st stats IH]; simpl; intro Hin; trivial.
  rewrite find_by_group by auto. now rewrite IH by auto.
Qed.

Lemma kept_stats_In (gdf : frame) (sc : string) (min_n : Z) (st : type_stat) :
  In st (kept_stats gdf sc min_n)
  <-> In st (group_stats gdf sc) /\ (min_n <= Z.of_nat (t_count st))%Z.
Proof.
  unfold kept_stats. rewrite sort_by_In, filter_In, Z.leb_le. tauto.
Qed.

Lemma plot_box_by_type_ok `{Pandas} (df : frame) (sc ec tag : string) (min_n : Z)
    (w w' : world) :
  plot_box_by_type df sc ec tag min_n w = (w', Ok tt) ->
  exists gdf fig,
    make_eval_group df ec = Ok gdf
    /\ files w' = files w
                  ++ [(path_in OUT_FIGS "02_box_by_type" tag ".png", fig);
                      (path_in OUT_DATA "type_means_grouped" tag ".csv",
                       TypeTable (kept_stats gdf sc min_n))].
Proof.
  unfold plot_box_by_type. intro Hrun.
  apply bind_ok in Hrun. destruct Hrun as (w1 & gdf & Hg & Hrun).
  apply lift_ok in Hg. destruct Hg as [-> Hg].
  apply bind_ok in Hrun. destruct Hrun as (w2 & u & Hs & Hrun).
  apply select_scores_ok in Hs. destruct Hs as (-> & _ & _).
  apply bind_ok in Hrun. destruct Hrun as (w2 & u2 & Hb & Hrun).
  apply boxplot_run in Hb. destruct Hb as [-> _].
  apply bind_ok in Hrun. destruct Hrun as (w3 & u3 & Hw & Hrun).
  apply write_files in Hw.
  apply bind_ok in Hrun. destruct Hrun as (w4 & table & Hl & Hrun).
  apply lift_ok in Hl. destruct Hl as [-> Hl].
  apply write_files in Hrun.
  rewrite loc_selection in Hl.
  - inversion Hl. subst table. eexists gdf, _. split; trivial.
    rewrite Hrun, Hw, <- app_assoc. reflexivity.
  - apply group_stats_NoDup.
  - intros st Hst. now apply kept_stats_In in Hst.
Qed.

(** A run that completes has drawn at least one box. *)
Lemma plot_box_by_type_kept `{Pandas} (df gdf : frame) (sc ec tag : string) (min_n : Z)
    (w w' : world) :
  make_eval_group df ec = Ok gdf ->
  plot_box_by_type df sc ec tag min_n w = (w', Ok tt) ->
  kept_stats gdf sc min_n <> [].
Proof.
  unfold plot_box_by_type. intros Hg Hrun.
  apply bind_ok in Hrun. destruct Hrun as (w1 & gdf' & Hg' & Hrun).
  apply lift_ok in Hg'. destruct Hg' as [-> Hg']. rewrite Hg in Hg'.
  inversion Hg'. subst gdf'.
  apply bind_ok in Hrun. destruct Hrun as (w2 & u & _ & Hrun).
  apply bind_ok in Hrun. destruct Hrun as (w3 & u3 & Hb & _).
  apply boxplot_run in Hb. destruct Hb as [_ Hb].
  intro E. rewrite E in Hb. discriminate Hb.
Qed.

(** Without a retained group [boxplot] is given no data and no label and
    raises; nothing has been written by then. *)
Lemma plot_box_by_type_none `{Pandas} (df gdf : frame) (sc ec tag : string) (min_n : Z)
    (w : world) :
  make_eval_group df ec = Ok gdf ->
  has_col sc gdf = true ->
  numeric_col gdf sc = true ->
  kept_stats gdf sc min_n = [] ->
  plot_box_by_type df sc ec tag min_n w = (w, Raise ValueError).
Proof.
  intros Hg Hc Hn Hk. unfold plot_box_by_type.
  unfold bind at 1, lift at 1. rewrite Hg.
  unfold bind at 1, select_scores. rewrite Hc, Hn. unfold ret at 1.
  rewrite Hk. reflexivity.
Qed.

(** C3.  When every evaluation group has fewer than [min_n] observations,
    [plot_box_by_type] raises [ValueError] and writes neither the chart
    nor the summary table: line 116 calls [boxplot] without data and
    without labels.  The summary that should hold exactly the groups of at
    least [min_n] observations, here none, is not produced.  ([main]
    passes 10 for [min_n].) *)
Theorem C3_no_group_raises `{Pandas} (df gdf : frame) (sc ec tag : string) (min_n : Z)
    (w : world) :
  make_eval_group df ec = Ok gdf ->
  has_col sc gdf = true ->
  numeric_col gdf sc = true ->
  Forall (fun st => (Z.of_nat (t_count st) < min_n)%Z) (group_stats gdf sc) ->
  plot_box_by_type df sc ec tag min_n w = (w, Raise ValueError).
Proof.
  intros Hg Hc Hn Hlow. apply plot_box_by_type_none with (gdf := gdf); trivial.
  unfold kept_stats. rewrite filter_none; trivial.
  intros st Hst. apply Z.leb_gt. revert st Hst. now apply Forall_forall.
Qed.

Lemma C3_no_group_raises_witness :
  map (fun st => (group st, t_count st))
      (group_stats messy_grouped "ObservationScore")
  = [("Media Specialist", 1); ("Volunteer Review", 1)]
  /\ plot_box_by_type messy_clean "ObservationScore" "EvaluationType" "" 10 empty_world
     = (empty_world, Raise ValueError).
Proof.
  split; [vm_compute; reflexivity|].
  apply (C3_no_group_raises messy_clean
           messy_grouped
           "ObservationScore" "EvaluationType" "" 10 empty_world);
    try (vm_compute; reflexivity).
  apply Forall_forall. intros st Hst. vm_compute in Hst.
  destruct Hst as [<-|[<-|[]]]; vm_compute; reflexivity.
Defined.

(** A file whose groups are all below the threshold: [main] stops at the
    category chart with the histogram alone written. *)
Example small_groups_abort :
  exists h,
    main messy_args empty_world
    = ({| dirs := [OUT_FIGS; OUT_DATA];
          files := [(path_in OUT_FIGS "01_hist_scores" "" ".png", Histogram h)] |},
       Raise ValueError).
Proof. eexists. vm_compute. reflexivity. Qed.

(** The table a completed run of [plot_box_by_type] has written has one
    line for each evaluation group whose number of observations is at
    least [min_n], and for no other group; there is at least one; the
    lines hold the statistics of their group and come in ascending order
    of the group median. *)
Theorem category_summary_exact `{Pandas} (df : frame) (sc ec tag : string) (min_n : Z)
    (w w' : world) :
  plot_box_by_type df sc ec tag min_n w = (w', Ok tt) ->
  exists gdf fig summary,
    make_eval_group df ec = Ok gdf
    /\ files w' = files w
                  ++ [(path_in OUT_FIGS "02_box_by_type" tag ".png", fig);
                      (path_in OUT_DATA "type_means_grouped" tag ".csv",
                       TypeTable summary)]
    /\ summary <> []
    /\ NoDup (map group summary)
    /\ (forall l, In l (map group summary)
                  <-> (exists r, In r (rows gdf) /\ lookup gdf "EvalGroup" r = Str l)
                      /\ (min_n <= Z.of_nat (List.length (scores gdf sc (group_rows gdf l))))%Z)
    /\ (forall st, In st summary -> st = summary_of gdf sc (group st))
    /\ Sorted (fun a b => fl_leb (t_median a) (t_median b) = true) summary.
Proof.
  intro Hrun. destruct (plot_box_by_type_ok _ _ _ _ _ _ _ Hrun) as (gdf & fig & Hg & Hf).
  exists gdf, fig, (kept_stats gdf sc min_n).
  split; trivial. split; trivial. split; [|split; [|split; [|split]]].
  - exact (plot_box_by_type_kept _ _ _ _ _ _ _ _ Hg Hrun).
  - unfold kept_stats.
    eapply Permutation_NoDup; [symmetry; apply sort_by_map_perm|].
    apply NoDup_map_filter, group_stats_NoDup.
  - intro l. rewrite <- group_stats_groups with (sc := sc). split.
    + intro Hin. apply in_map_iff in Hin. destruct Hin as [st [<- Hst]].
      apply kept_stats_In in Hst. destruct Hst as [Hst Hn]. split.
      * now apply in_map.
      * rewrite (group_stats_In _ _ _ Hst) in Hn. exact Hn.
    + intros [Hin Hn]. apply in_map_iff in Hin. destruct Hin as [st [<- Hst]].
      apply in_map, kept_stats_In. split; trivial.
      now rewrite (group_stats_In _ _ _ Hst).
  - intros st Hst. apply kept_stats_In in Hst. now apply group_stats_In.
  - apply sort_by_sorted. intros a b. apply fl_leb_total.
Qed.

Lemma category_summary_exact_witness :
  plot_box_by_type sample_clean "ObservationScore" "EvaluationType" "" 10 empty_world
  = (sample_box_world, Ok tt)
  /\ exists gdf fig summary,
       make_eval_group sample_clean "EvaluationType" = Ok gdf
       /\ files sample_box_world
          = files empty_world
            ++ [(path_in OUT_FIGS "02_box_by_type" "" ".png", fig);
                (path_in OUT_DATA "type_means_grouped" "" ".csv", TypeTable summary)]
       /\ summary <> []
       /\ NoDup (map group summary)
       /\ (forall l, In l (map group summary)
                     <-> (exists r, In r (rows gdf) /\ lookup gdf "EvalGroup" r = Str l)
                         /\ (10 <= Z.of_nat (List.length
                                    (scores gdf "ObservationScore" (group_rows gdf l))))%Z)
       /\ (forall st, In st summary -> st = summary_of gdf "ObservationScore" (group st))
       /\ Sorted (fun a b => fl_leb (t_median a) (t_median b) = true) summary.
Proof.
  split; [vm_compute; reflexivity|].
  apply (category_summary_exact sample_clean "ObservationScore" "EvaluationType" ""
           10 empty_world sample_box_world).
  vm_compute. reflexivity.
Defined.

(** Groups of 3, 10 and 15 observations with the threshold 10: the
    groups of 10 and of 15 are written, the lower median first. *)
Example threshold_exclusion :
  match files sample_box_world with
  | [_; (_, TypeTable summary)] =>
      map (fun st => (group st, t_count st)) summary
      = [("Teacher (Unannounced)", 10); ("Media Specialist", 15)]
  | _ => False
  end.
Proof. reflexivity. Qed.

(** ** Files are only added *)

Create HintDb grows.

Lemma grows_ret {A : Type} (a : A) : grows (ret a).
Proof. intros w w' r E. inversion E. exists []. now rewrite app_nil_r. Qed.

Lemma grows_raise {A : Type} (e : exn) : grows (@raise A e).
Proof. intros w w' r E. inversion E. exists []. now rewrite app_nil_r. Qed.

Lemma grows_lift {A : Type} (x : result A) : grows (lift x).
Proof. intros w w' r E. inversion E. exists []. now rewrite app_nil_r. Qed.

Lemma grows_write (p : string) (a : artefact) : grows (write p a).
Proof. intros w w' r E. inversion E. now exists [(p, a)]. Qed.

Lemma grows_mkdir (d : string) : grows (mkdir d).
Proof. intros w w' r E. inversion E. exists []. simpl. now rewrite app_nil_r. Qed.

Lemma grows_bind {A B : Type} (c : M A) (k : A -> M B) :
  grows c -> (forall a, grows (k a)) -> grows (bind c k).
Proof.
  intros Hc Hk w w' r. unfold bind.
  destruct (c w) as [w1 [a|e]] eqn:E.
  - intro Ek. destruct (Hc _ _ _ E) as [l1 E1].
    destruct (Hk a _ _ _ Ek) as [l2 E2].
    exists (l1 ++ l2). now rewrite E2, E1, app_assoc.
  - intro Ek. inversion Ek. subst. now apply (Hc _ _ _ E).
Qed.

Lemma grows_if {A : Type} (b : bool) (c1 c2 : M A) :
  grows c1 -> grows c2 -> grows (if b then c1 else c2).
Proof. now destruct b. Qed.

#[local] Hint Resolve grows_ret grows_raise grows_lift grows_write grows_mkdir
  grows_if : grows.

Ltac grows_steps :=
  repeat (apply grows_bind; [|intro]); auto with grows.

Lemma grows_select_scores (df : frame) (c : string) : grows (select_scores df c).
Proof. unfold select_scores. auto with grows. Qed.

Lemma grows_select_months (df : frame) : grows (select_months df).
Proof. unfold select_months. auto with grows. Qed.

#[local] Hint Resolve grows_select_scores grows_select_months : grows.

Lemma grows_plot_observer_bar (df : frame) (oc sc tag : string) (min_n : Z) :
  grows (plot_observer_bar df oc sc tag min_n).
Proof. unfold plot_observer_bar. grows_steps. Qed.

#[local] Hint Resolve grows_plot_observer_bar : grows.

(** ** The months *)

Lemma plot_monthly_trend_ok (df : frame) (dc sc tag : string) (w w' : world) :
  plot_monthly_trend df dc sc tag w = (w', Ok tt) ->
  files w' = files w
             ++ [(path_in OUT_FIGS "03_monthly_trend" tag ".png",
                  TrendLine (map (fun m => (snd (fst m), snd m)) (monthly df sc)))].
Proof.
  unfold plot_monthly_trend. intro Hrun.
  apply bind_ok in Hrun. destruct Hrun as (w1 & u & Hm & Hrun).
  unfold select_months in Hm. apply guard_ok in Hm. destruct Hm as [-> _].
  apply bind_ok in Hrun. destruct Hrun as (w2 & u2 & Hs & Hrun).
  apply select_scores_ok in Hs. destruct Hs as (-> & _).
  now apply write_files in Hrun.
Qed.

Lemma monthly_sorted (df : frame) (sc : string) :
  Sorted (fun x y => ts_leb (snd (fst x)) (snd (fst y)) = true) (monthly df sc).
Proof.
  unfold monthly. apply sort_by_sorted. intros x y. apply ts_leb_total.
Qed.

Lemma monthly_keys (df : frame) (sc : string) :
  Permutation (map fst (monthly df sc))
    (map fst (groupby month_key_eqb month_key_leb (month_key df) (rows df))).
Proof.
  unfold monthly. rewrite sort_by_map_perm, map_map. reflexivity.
Qed.

Lemma month_key_cells (df : frame) (r : row) (m : string) (t : timestamp) :
  month_key df r = Some (m, t)
  <-> lookup df "Month" r = Str m /\ lookup df "MonthStart" r = Ts t.
Proof.
  unfold month_key.
  destruct (lookup df "Month" r), (lookup df "MonthStart" r);
    split; try discriminate; try (intros [? ?]; discriminate).
  - intro E. inversion E. auto.
  - intros [E1 E2]. inversion E1. inversion E2. reflexivity.
Qed.

Lemma digit_val_digit (n : Z) : digit_val (digit n) = Some (n mod 10)%Z.
Proof.
  unfold digit_val, digit.
  assert (Hr : (0 <= n mod 10 < 10)%Z) by (apply Z.mod_pos_bound; lia).
  rewrite nat_ascii_embedding by lia.
  replace (48 <=? 48 + Z.to_nat (n mod 10)) with true by (symmetry; apply Nat.leb_le; lia).
  replace (48 + Z.to_nat (n mod 10) <=? 57) with true by (symmetry; apply Nat.leb_le; lia).
  simpl. f_equal. lia.
Qed.

(** The month-start date read back from a month label is midnight on the
    first day of that month. *)
Lemma month_start_month_str (t : timestamp) :
  (0 <= year t <= 9999)%Z -> (0 <= month t <= 99)%Z ->
  month_start (month_str (Ts t))
  = Ts {| year := year t; month := month t; day := 1%Z; tod := 0%Z |}.
Proof.
  intros Hy Hm. unfold month_str, pad4, pad2. simpl String.append.
  unfold month_start. rewrite !digit_val_digit.
  change (Ascii.eqb "-" "-") with true. cbv iota. do 2 f_equal.
  - generalize (year t) Hy. clear. intros y Hy.
    Z.div_mod_to_equations. lia.
  - generalize (month t) Hm. clear. intros y Hy.
    Z.div_mod_to_equations. lia.
Qed.

(** In a cleaned table both month columns are derived from the date of
    the row. *)
Lemma load_clean_months `{Pandas} (csv : table) (d s sy : string) (flt : option string)
    (out : frame) (r : row) :
  load_clean csv d s sy flt = Ok out ->
  d <> "Month" -> d <> "MonthStart" ->
  In r (rows out) ->
  exists t, lookup out d r = Ts t
    /\ lookup out "Month" r = Str (month_str (Ts t))
    /\ lookup out "MonthStart" r = month_start (month_str (Ts t)).
Proof.
  intros Hl M1 M2 Hin.
  destruct (load_clean_ok _ _ _ _ _ _ Hl) as (Hd & Hs & Hne & ->).
  rewrite rows_add_months in Hin. apply in_map_iff in Hin.
  destruct Hin as [r4 [<- Hin]].
  apply rows_filter_year_incl in Hin.
  destruct (dropna_parsed _ _ _ _ Hne Hin) as (r0 & t & q & _ & _ & _ & _ & Ld & _).
  exists t. rewrite dated_other, dated_month, dated_month_start by trivial.
  rewrite <- Ld.
  rewrite (lookup_same_columns _ (parse_columns (strip_columns (read_csv csv)) d s) d r4)
    by now rewrite columns_filter_year.
  auto.
Qed.

(** C7.  A successful run of [main] writes the monthly means, in the
    trend figure and in the table [monthly_means], with one entry for each
    month of the cleaned table and in ascending order of the month-start
    date; both month columns of a row are derived from its date, the
    month-start date being read back from the month label. *)
Theorem C7_months_chronological `{Pandas} (a : args) (w w' : world) :
  main a w = (w', Ok tt) ->
  exists d,
    load_clean (csv a) (date_col a) (score_col a) (schoolyear_col a) (school_year a)
    = Ok d
    /\ let months := monthly d (score_col a) in
       let tag := tag_of (school_year a) in
       In (path_in OUT_FIGS "03_monthly_trend" tag ".png",
           TrendLine (map (fun m => (snd (fst m), snd m)) months)) (files w')
       /\ In (path_in OUT_DATA "monthly_means" tag ".csv",
              MonthTable (map (fun m => (fst (fst m), snd m)) months)) (files w')
       /\ Sorted (fun x y => ts_leb (snd (fst x)) (snd (fst y)) = true) months
       /\ NoDup (map fst months)
       /\ (forall m t, In (m, t) (map fst months)
             <-> exists r, In r (rows d) /\ lookup d "Month" r = Str m
                           /\ lookup d "MonthStart" r = Ts t)
       /\ (date_col a <> "Month" -> date_col a <> "MonthStart" ->
           forall r, In r (rows d) ->
           exists t, lookup d (date_col a) r = Ts t
             /\ lookup d "Month" r = Str (month_str (Ts t))
             /\ lookup d "MonthStart" r = month_start (month_str (Ts t))).
Proof.
  unfold main. intro Hrun.
  apply bind_ok in Hrun. destruct Hrun as (w1 & u1 & _ & Hrun).
  apply bind_ok in Hrun. destruct Hrun as (w2 & d & Hl & Hrun).
  apply lift_ok in Hl. destruct Hl as [-> Hl].
  exists d. split; trivial. cbv zeta.
  apply bind_ok in Hrun. destruct Hrun as (w3 & u3 & _ & Hrun).
  apply bind_ok in Hrun. destruct Hrun as (w4 & u4 & _ & Hrun).
  apply bind_ok in Hrun. destruct Hrun as (w5 & u5 & Ht & Hrun).
  destruct u5. apply plot_monthly_trend_ok in Ht.
  split; [|split; [|split; [|split; [|split]]]].
  - assert (Hg : exists l, files w' = files w5 ++ l).
    { revert Hrun. match goal with |- ?c w5 = _ -> _ => assert (G : grows c) end.
      { grows_steps. }
      apply G. }
    destruct Hg as [l ->]. rewrite Ht. apply in_or_app. left.
    apply in_or_app. right. now left.
  - repeat (apply bind_ok in Hrun;
            let wi := fresh "w" in let ui := fresh "u" in let Hi := fresh "H" in
            destruct Hrun as (wi & ui & Hi & Hrun)).
    apply write_files in Hrun. rewrite Hrun. apply in_or_app. right. now left.
  - apply monthly_sorted.
  - eapply Permutation_NoDup; [symmetry; apply monthly_keys|].
    apply groupby_keys_NoDup, month_key_eqb_eq.
  - intros m t. split.
    + intro Hin. eapply Permutation_in in Hin; [|apply monthly_keys].
      apply (groupby_key_In _ month_key_eqb_eq) in Hin.
      destruct Hin as [r [Hr E]]. exists r. split; trivial.
      now apply month_key_cells.
    + intros [r [Hr E]]. eapply Permutation_in; [symmetry; apply monthly_keys|].
      apply (groupby_key_In _ month_key_eqb_eq). exists r. split; trivial.
      now apply month_key_cells.
  - intros M1 M2 r Hr. now apply (load_clean_months _ _ _ _ _ _ _ Hl).
Qed.

Lemma C7_months_chronological_witness :
  main sample_args empty_world = (sample_world, Ok tt)
  /\ exists d,
       load_clean (csv sample_args) (date_col sample_args) (score_col sample_args)
         (schoolyear_col sample_args) (school_year sample_args) = Ok d
       /\ let months := monthly d (score_col sample_args) in
          let tag := tag_of (school_year sample_args) in
          In (path_in OUT_FIGS "03_monthly_trend" tag ".png",
              TrendLine (map (fun m => (snd (fst m), snd m)) months)) (files sample_world)
          /\ In (path_in OUT_DATA "monthly_means" tag ".csv",
                 MonthTable (map (fun m => (fst (fst m), snd m)) months)) (files sample_world)
          /\ Sorted (fun x y => ts_leb (snd (fst x)) (snd (fst y)) = true) months
          /\ NoDup (map fst months)
          /\ (forall m t, In (m, t) (map fst months)
                <-> exists r, In r (rows d) /\ lookup d "Month" r = Str m
                              /\ lookup d "MonthStart" r = Ts t)
          /\ (date_col sample_args <> "Month" -> date_col sample_args <> "MonthStart" ->
              forall r, In r (rows d) ->
              exists t, lookup d (date_col sample_args) r = Ts t
                /\ lookup d "Month" r = Str (month_str (Ts t))
                /\ lookup d "MonthStart" r = month_start (month_str (Ts t))).
Proof.
  split; [vm_compute; reflexivity|].
  apply (C7_months_chronological sample_args empty_world sample_world).
  vm_compute. reflexivity.
Defined.

(** The file lists January 2024 first; the months come out in calendar
    order across the year boundary. *)
Example year_boundary_order :
  map (fun m => fst (fst m)) (monthly sample_clean "ObservationScore")
  = ["2023-11"; "2023-12"; "2024-01"].
Proof. vm_compute. reflexivity. Qed.

(** ** The observer chart *)

Lemma Qle_bool_false (x y : Q) : Qle_bool x y = false -> (y < x)%Q.
Proof.
  intro E. apply Qnot_le_lt. intro Hle. apply Qle_bool_iff in Hle. congruence.
Qed.

Lemma series_min_spec (l : list fl) (lo : Q) :
  series_min l = Some lo ->
  In (Some lo) l /\ forall m, In (Some m) l -> (lo <= m)%Q.
Proof.
  revert lo. induction l as [|[x|] l IH]; simpl; intros lo E; [discriminate| |].
  - destruct (series_min l) as [m'|] eqn:El.
    + destruct (IH m' eq_refl) as [Hin Hle]. inversion E. clear E.
      destruct (Qle_bool x m') eqn:Ex.
      * apply Qle_bool_iff in Ex. split; [now left|].
        intros m [Em|Hm]; [inversion Em; apply Qle_refl|].
        eapply Qle_trans; [exact Ex | now apply Hle].
      * apply Qle_bool_false in Ex. split; [now right|].
        intros m [Em|Hm]; [inversion Em; subst; now apply Qlt_le_weak | now apply Hle].
    + inversion E. subst. split; [now left|].
      intros m [Em|Hm]; [inversion Em; apply Qle_refl|].
      exfalso. clear - El Hm. induction l as [|[y|] l IH]; simpl in *;
        [contradiction| |].
      * destruct (series_min l); discriminate.
      * destruct Hm as [Hm|Hm]; [discriminate | auto].
  - destruct (IH lo E) as [Hin Hle]. split; [now right|].
    intros m [Em|Hm]; [discriminate | now apply Hle].
Qed.

Lemma series_max_spec (l : list fl) (hi : Q) :
  series_max l = Some hi ->
  In (Some hi) l /\ forall m, In (Some m) l -> (m <= hi)%Q.
Proof.
  revert hi. induction l as [|[x|] l IH]; simpl; intros hi E; [discriminate| |].
  - destruct (series_max l) as [m'|] eqn:El.
    + destruct (IH m' eq_refl) as [Hin Hle]. inversion E. clear E.
      destruct (Qle_bool m' x) eqn:Ex.
      * apply Qle_bool_iff in Ex. split; [now left|].
        intros m [Em|Hm]; [inversion Em; apply Qle_refl|].
        eapply Qle_trans; [now apply Hle | exact Ex].
      * apply Qle_bool_false in Ex. split; [now right|].
        intros m [Em|Hm]; [inversion Em; subst; now apply Qlt_le_weak | now apply Hle].
    + inversion E. subst. split; [now left|].
      intros m [Em|Hm]; [inversion Em; apply Qle_refl|].
      exfalso. clear - El Hm. induction l as [|[y|] l IH]; simpl in *;
        [contradiction| |].
      * destruct (series_max l); discriminate.
      * destruct Hm as [Hm|Hm]; [discriminate | auto].
  - destruct (IH hi E) as [Hin Hle]. split; [now right|].
    intros m [Em|Hm]; [discriminate | now apply Hle].
Qed.

Lemma series_min_some (l : list fl) (q : Q) :
  In (Some q) l -> exists lo, series_min l = Some lo.
Proof.
  induction l as [|[x|] l IH]; simpl; intro Hin; [contradiction| |].
  - destruct (series_min l); eauto.
  - destruct Hin as [Hin|Hin]; [discriminate | auto].
Qed.

Lemma series_max_some (l : list fl) (q : Q) :
  In (Some q) l -> exists hi, series_max l = Some hi.
Proof.
  induction l as [|[x|] l IH]; simpl; intro Hin; [contradiction| |].
  - destruct (series_max l); eauto.
  - destruct Hin as [Hin|Hin]; [discriminate | auto].
Qed.

Lemma py_min_Qmin (a b : Q) :
  exists v, py_min (Some a) (Some b) = Some v /\ (v == Qmin a b)%Q.
Proof.
  unfold py_min, fl_ltb. destruct (Qle_bool a b) eqn:E; simpl.
  - exists a. split; trivial. apply Qle_bool_iff in E.
    symmetry. now apply Q.min_l.
  - exists b. split; trivial. apply Qle_bool_false in E.
    symmetry. apply Q.min_r. now apply Qlt_le_weak.
Qed.

Lemma py_max_Qmax (a b : Q) :
  exists v, py_max (Some a) (Some b) = Some v /\ (v == Qmax a b)%Q.
Proof.
  unfold py_max, fl_ltb. destruct (Qle_bool b a) eqn:E; simpl.
  - exists a. split; trivial. apply Qle_bool_iff in E.
    symmetry. now apply Q.max_l.
  - exists b. split; trivial. apply Qle_bool_false in E.
    symmetry. apply Q.max_r. now apply Qlt_le_weak.
Qed.

Lemma mean_some (s : list Q) : s <> [] -> exists m, mean s = Some m.
Proof. destruct s; [contradiction | simpl; eauto]. Qed.

Lemma kept_observers_mean (df : frame) (oc sc : string) (min_n : Z) (st : observer_stat) :
  (1 <= min_n)%Z -> In st (kept_observers df oc sc min_n) ->
  exists m, o_mean st = Some m.
Proof.
  intros Hn Hin. unfold kept_observers in Hin.
  apply sort_by_In, filter_In in Hin. destruct Hin as [Hin Hc].
  apply Z.leb_le in Hc. unfold observer_stats in Hin.
  apply in_map_iff in Hin. destruct Hin as [kv [<- _]]. simpl in *.
  apply mean_some. intro E. rewrite E in Hc. simpl in Hc. lia.
Qed.

Lemma plot_observer_bar_ok (df : frame) (oc sc tag : string) (min_n : Z) (w w' : world) :
  plot_observer_bar df oc sc tag min_n w = (w', Ok tt) ->
  exists chart,
    bars chart = kept_observers df oc sc min_n
    /\ ylim chart = observer_ylim (map o_mean (bars chart))
    /\ files w' = files w
                  ++ [(path_in OUT_FIGS "05_observer_mean_bar" tag ".png", BarChart chart);
                      (path_in OUT_DATA "evaluator_stats" tag ".csv",
                       ObserverTable (bars chart))].
Proof.
  unfold plot_observer_bar. intro Hrun.
  apply bind_ok in Hrun. destruct Hrun as (w1 & u1 & Hg & Hrun).
  apply guard_ok in Hg. destruct Hg as [-> _].
  apply bind_ok in Hrun. destruct Hrun as (w2 & u2 & Hs & Hrun).
  apply select_scores_ok in Hs. destruct Hs as (-> & _).
  apply bind_ok in Hrun. destruct Hrun as (w3 & u3 & Hw & Hrun).
  apply write_files in Hw. apply write_files in Hrun.
  exists {| bars := kept_observers df oc sc min_n;
            below := map (fun st => fl_ltb (o_mean st) (mean (scores df sc (rows df))))
                         (kept_observers df oc sc min_n);
            overall_mean := mean (scores df sc (rows df));
            ylim := observer_ylim (map o_mean (kept_observers df oc sc min_n)) |}.
  simpl. split; trivial. split; trivial.
  now rewrite Hrun, Hw, <- app_assoc.
Qed.

(** C2, as stated, fails above 3.95: the upper limit is capped at 4.05.
    One observer with five observations of 4 has the mean 4; the chart
    ends at 4.05 and not at 4.1. *)
Lemma C2_counterexample :
  ~ (forall w' chart lo hi bottom top,
       plot_observer_bar top_scores_frame "ObserverLastFirstName" "ObservationScore"
         "" 5 empty_world = (w', Ok tt) ->
       In (path_in OUT_FIGS "05_observer_mean_bar" "" ".png", BarChart chart) (files w') ->
       is_min_mean lo (bars chart) -> is_max_mean hi (bars chart) ->
       ylim chart = (Some bottom, Some top) ->
       (bottom == Qmin 3 (lo - (1 # 10)))%Q /\ (top == Qmax 4 (hi + (1 # 10)))%Q).
Proof.
  intro Hc.
  assert (Hm : forall m, In (Some m) (map o_mean (bars top_scores_chart)) ->
                         m = (20 # 5)%Q).
  { intros m [E|[]]. now inversion E. }
  assert (Hlo : is_min_mean (20 # 5) (bars top_scores_chart)).
  { split; [now left|]. intros m Hin. rewrite (Hm m Hin). apply Qle_refl. }
  assert (Hhi : is_max_mean (20 # 5) (bars top_scores_chart)).
  { split; [now left|]. intros m Hin. rewrite (Hm m Hin). apply Qle_refl. }
  destruct (Hc top_scores_world top_scores_chart _ _ 3%Q (405 # 100)%Q
              eq_refl (or_introl eq_refl) Hlo Hhi eq_refl) as [_ Htop].
  vm_compute in Htop. discriminate Htop.
Qed.

(** C2, amended.  When [plot_observer_bar] retains at least one observer
    (with a threshold of at least one observation), the lower limit of the
    vertical axis is the lesser of 3.0 and the least retained mean minus
    0.1, and the upper limit is the greater of 4.0 and the greatest
    retained mean plus 0.1, capped at 4.05. *)
Theorem C2_observer_axis_limits (df : frame) (oc sc tag : string) (min_n : Z)
    (w w' : world) :
  plot_observer_bar df oc sc tag min_n w = (w', Ok tt) ->
  (1 <= min_n)%Z ->
  exists chart,
    files w' = files w
               ++ [(path_in OUT_FIGS "05_observer_mean_bar" tag ".png", BarChart chart);
                   (path_in OUT_DATA "evaluator_stats" tag ".csv",
                    ObserverTable (bars chart))]
    /\ (bars chart <> [] ->
        exists lo hi bottom top,
          is_min_mean lo (bars chart) /\ is_max_mean hi (bars chart)
          /\ ylim chart = (Some bottom, Some top)
          /\ (bottom == Qmin 3 (lo - (1 # 10)))%Q
          /\ (top == Qmin (405 # 100) (Qmax 4 (hi + (1 # 10))))%Q).
Proof.
  intros Hrun Hn.
  destruct (plot_observer_bar_ok _ _ _ _ _ _ _ Hrun) as (chart & Hb & Hy & Hf).
  exists chart. split; trivial. intro Hne.
  destruct (bars chart) as [|st sts] eqn:Eb; [contradiction|].
  destruct (kept_observers_mean df oc sc min_n st Hn) as [m Em].
  { rewrite <- Hb. now left. }
  assert (Hin : In (Some m) (map o_mean (st :: sts)))
    by (simpl; left; congruence).
  destruct (series_min_some _ _ Hin) as [lo Elo].
  destruct (series_max_some _ _ Hin) as [hi Ehi].
  destruct (py_min_Qmin 3 (lo + - (1 # 10))) as (bottom & Eb1 & Eb2).
  destruct (py_max_Qmax 4 (hi + (1 # 10))) as (mid & Em1 & Em2).
  destruct (py_min_Qmin (405 # 100) mid) as (top & Et1 & Et2).
  exists lo, hi, bottom, top.
  split; [now apply series_min_spec|]. split; [now apply series_max_spec|].
  split; [|split].
  - rewrite Hy. unfold observer_ylim. rewrite Elo, Ehi. simpl fl_add.
    now rewrite Eb1, Em1, Et1.
  - exact Eb2.
  - rewrite Et2. now rewrite Em2.
Qed.

Lemma C2_observer_axis_limits_witness :
  plot_observer_bar sample_clean "ObserverLastFirstName" "ObservationScore" "" 5
    empty_world = (sample_bar_world, Ok tt)
  /\ (1 <= 5)%Z
  /\ exists chart,
       files sample_bar_world
       = files empty_world
         ++ [(path_in OUT_FIGS "05_observer_mean_bar" "" ".png", BarChart chart);
             (path_in OUT_DATA "evaluator_stats" "" ".csv", ObserverTable (bars chart))]
       /\ (bars chart <> [] ->
           exists lo hi bottom top,
             is_min_mean lo (bars chart) /\ is_max_mean hi (bars chart)
             /\ ylim chart = (Some bottom, Some top)
             /\ (bottom == Qmin 3 (lo - (1 # 10)))%Q
             /\ (top == Qmin (405 # 100) (Qmax 4 (hi + (1 # 10))))%Q).
Proof.
  split; [vm_compute; reflexivity|]. split; [lia|].
  apply (C2_observer_axis_limits sample_clean "ObserverLastFirstName" "ObservationScore"
           "" 5 empty_world sample_bar_world); [vm_compute; reflexivity | lia].
Defined.

(** ** The histogram *)

Lemma Qlen_cons (x : Q) (l : list Q) : (Qlen (x :: l) == 1 + Qlen l)%Q.
Proof.
  unfold Qlen. simpl List.length.
  rewrite Nat2Z.inj_succ, <- Z.add_1_l, inject_Z_plus. reflexivity.
Qed.

Lemma Qlen_pos (x : Q) (l : list Q) : (0 < Qlen (x :: l))%Q.
Proof.
  unfold Qlen, Qlt. simpl. lia.
Qed.

Lemma Qsum_const (v : Q) (l : list Q) :
  (forall x, In x l -> (x == v)%Q) -> (Qsum l == Qlen l * v)%Q.
Proof.
  induction l as [|x l IH]; intro Hv.
  - unfold Qlen. simpl. ring.
  - rewrite Qlen_cons. simpl Qsum. rewrite IH by (intros y Hy; apply Hv; now right).
    rewrite (Hv x) by now left. ring.
Qed.

Lemma Qsum_zero (l : list Q) :
  (forall x, In x l -> (x == 0)%Q) -> (Qsum l == 0)%Q.
Proof.
  induction l as [|x l IH]; intro Hz; simpl; [reflexivity|].
  rewrite IH by (intros y Hy; apply Hz; now right).
  rewrite (Hz x) by now left. ring.
Qed.

Lemma mean_const (v : Q) (l : list Q) :
  l <> [] -> (forall x, In x l -> (x == v)%Q) ->
  exists m, mean l = Some m /\ (m == v)%Q.
Proof.
  intros Hne Hv. destruct l as [|x l]; [contradiction|].
  eexists. split; [reflexivity|].
  rewrite (Qsum_const v) by trivial.
  rewrite Qmult_comm. apply Qdiv_mult_l.
  intro E. pose proof (Qlen_pos x l) as Hp. rewrite E in Hp.
  now apply Qlt_irrefl in Hp.
Qed.

(** Equal values have the sample variance zero, from two values on; one
    value has none. *)
Lemma var_const (v : Q) (l : list Q) :
  2 <= List.length l -> (forall x, In x l -> (x == v)%Q) ->
  exists q, var l = Some q /\ (q == 0)%Q.
Proof.
  intros Hn Hv. unfold var.
  destruct (mean_const v l) as (m & -> & Em); trivial.
  { intro E. subst l. simpl in Hn. lia. }
  destruct (List.length l <=? 1) eqn:El; [apply Nat.leb_le in El; lia|].
  eexists. split; [reflexivity|].
  rewrite Qsum_zero.
  - unfold Qdiv. ring.
  - intros y Hy. apply in_map_iff in Hy. destruct Hy as [x [<- Hx]].
    rewrite (Hv x Hx), Em. ring.
Qed.

Lemma var_single (x : Q) : var [x] = None.
Proof. reflexivity. Qed.




Lemma plot_hist_run (df : frame) (sc tag : string) (w : world) :
  has_col sc df = true -> numeric_col df sc = true ->
  let s := scores df sc (rows df) in
  plot_hist df sc tag w
  = ({| dirs := dirs w;
        files := files w
                 ++ [(path_in OUT_FIGS "01_hist_scores" tag ".png",
                      Histogram {| h_n := List.length s; h_mean := mean s;
                                   h_median := median s; h_std := std s;
                                   h_counts := hist 20 s;
                                   h_colors := bin_colors (hist 20 s) |})] |}, Ok tt).
Proof.
  intros Hc Hn s. unfold plot_hist, bind.
  now rewrite select_scores_run.
Qed.

(** The score column of a cleaned table exists and holds numbers. *)
Lemma load_clean_numeric `{Pandas} (csv : table) (d s sy : string) (flt : option string)
    (out : frame) :
  load_clean csv d s sy flt = Ok out ->
  s <> "Month" -> s <> "MonthStart" ->
  has_col s out = true /\ numeric_col out s = true.
Proof.
  intros Hl M1 M2.
  destruct (load_clean_ok _ _ _ _ _ _ Hl) as (Hd & Hs & Hne & ->).
  set (df := strip_columns (read_csv csv)) in *.
  assert (Hcols : columns (filter_year (dropna [d; s] (parse_columns df d s)) sy flt)
                  = columns (parse_columns df d s))
    by now rewrite columns_filter_year.
  split.
  - apply has_col_add_months. rewrite (has_col_same_columns _ _ _ Hcols).
    unfold has_col. now rewrite columns_parse_columns.
  - unfold numeric_col. apply forallb_forall. intros r Hin.
    rewrite rows_add_months in Hin. apply in_map_iff in Hin.
    destruct Hin as [r4 [<- Hin]]. rewrite dated_other by trivial.
    apply rows_filter_year_incl in Hin.
    destruct (dropna_parsed _ _ _ _ Hne Hin) as (r0 & t & q & _ & _ & _ & _ & _ & Ls).
    now rewrite (lookup_same_columns _ _ s r4 Hcols), Ls.
Qed.




(** Three scores of 3.5 have a mean that binary64 holds exactly, and the
    deviation is 0; a single score has none. *)
Example exact_mean_deviation :
  std64 (map float_of_Q [(7 # 2)%Q; (7 # 2)%Q; (7 # 2)%Q]) = Some PrimFloat.zero
  /\ std64 (map float_of_Q [(7 # 2)%Q]) = Some PrimFloat.nan.
Proof. split; vm_compute; reflexivity. Qed.

(** Two equal scores: all 20 bins have a colour, the two observations in
    one bin. *)
Example equal_scores_histogram :
  hist 20 (scores equal_clean "ObservationScore" (rows equal_clean))
  = [0; 0; 0; 0; 0; 0; 0; 0; 0; 0; 2; 0; 0; 0; 0; 0; 0; 0; 0; 0].
Proof. vm_compute. reflexivity. Qed.

(** * Further properties *)

(** ** The patterns and the groups *)

Lemma strip_prefix_spec (l s t : string) :
  strip_prefix l s = Some t <-> s = String.append l t.
Proof.
  revert s. induction l as [|a l IH]; intros s; simpl.
  - split; intro E; [now inversion E | now subst].
  - destruct s as [|b s]; [split; discriminate|].
    destruct (Ascii.eqb a b) eqn:Eab.
    + apply Ascii.eqb_eq in Eab. subst b. rewrite IH.
      split; intro E; [now subst | now inversion E].
    + apply Ascii.eqb_neq in Eab. split; [discriminate|].
      intro E. inversion E. congruence.
Qed.

Lemma star_of_rest (k : string -> option string) (s r : string) :
  k s = Some r -> exists r', star k s = Some r'.
Proof.
  intro E. destruct s as [|c s]; simpl; [eauto|].
  destruct (Ascii.eqb c newline); [eauto|].
  destruct (star k s); eauto.
Qed.

Lemma star_complete (k : string -> option string) (run s r : string) :
  no_newline run = true -> k s = Some r ->
  exists r', star k (String.append run s) = Some r'.
Proof.
  intros Hrun E. induction run as [|c run IH]; simpl.
  - now apply star_of_rest with r.
  - simpl in Hrun. apply andb_prop in Hrun. destruct Hrun as [Hc Hrun].
    apply negb_true_iff in Hc. rewrite Hc.
    destruct (IH Hrun) as [r' ->]. eauto.
Qed.

Lemma star_sound (k : string -> option string) (s r : string) :
  star k s = Some r ->
  exists run s', s = String.append run s' /\ no_newline run = true /\ k s' = Some r.
Proof.
  induction s as [|c s IH]; simpl.
  - intro E. now exists EmptyString, EmptyString.
  - destruct (Ascii.eqb c newline) eqn:Ec.
    + intro E. now exists EmptyString, (String c s).
    + destruct (star k s) as [r'|] eqn:Es.
      * intro E. inversion E. subst r'.
        destruct (IH eq_refl) as (run & s' & -> & Hrun & Hk).
        exists (String c run), s'. simpl. now rewrite Ec.
      * intro E. now exists EmptyString, (String c s).
Qed.

Lemma match_here_sound (p : pattern) :
  forall s r, match_here p s = Some r -> Matches p s.
Proof.
  induction p as [|a p IH]; intros s r; simpl.
  - destruct (at_end s) eqn:E; [|discriminate]. intros _. now constructor.
  - destruct a as [l|].
    + destruct (strip_prefix l s) as [t|] eqn:E; [|discriminate].
      apply strip_prefix_spec in E. subst s. intro H.
      constructor. now apply IH with r.
    + intro H. apply star_sound in H. destruct H as (run & s' & -> & Hrun & Hk).
      constructor; trivial. now apply IH with r.
Qed.

Lemma match_here_complete (p : pattern) (s : string) :
  Matches p s -> exists r, match_here p s = Some r.
Proof.
  induction 1 as [e He|l p s _ [r IH]|run p s Hrun _ [r IH]]; simpl.
  - rewrite He. eauto.
  - rewrite (proj2 (strip_prefix_spec l (String.append l s) s) eq_refl). eauto.
  - now apply star_complete with r.
Qed.

Lemma search_Matches (p : pattern) (s : string) :
  search p s = true <-> Matches p s.
Proof.
  unfold search. split.
  - destruct (match_here p s) as [r|] eqn:E; [|discriminate].
    intros _. now apply match_here_sound with r.
  - intro H. apply match_here_complete in H. destruct H as [r ->]. reflexivity.
Qed.

(** The labels each shape of rule matches: the keyword at the start, then
    (for a rule with a qualifier) the qualifier anywhere after it, all on
    one line, a final newline apart. *)
Theorem rule_patterns_meaning (role qual s : string) :
  (search (prefix_with role qual) s = true
   <-> exists a b e,
         s = String.append role (String.append a (String.append qual (String.append b e)))
         /\ no_newline a = true /\ no_newline b = true /\ at_end e = true)
  /\ (search (prefix_only role) s = true
      <-> exists b e,
            s = String.append role (String.append b e)
            /\ no_newline b = true /\ at_end e = true).
Proof.
  rewrite !search_Matches. unfold prefix_with, prefix_only. split; split.
  - intro H. inversion H as [|? ? s1 H1|]; subst.
    inversion H1 as [| |a ? s2 Ha H2]; subst.
    inversion H2 as [|? ? s3 H3|]; subst.
    inversion H3 as [| |b ? e Hb He]; subst.
    inversion He; subst. now exists a, b, e.
  - intros (a & b & e & -> & Ha & Hb & He).
    repeat constructor; trivial.
  - intro H. inversion H as [|? ? s1 H1|]; subst.
    inversion H1 as [| |b ? e Hb He]; subst.
    inversion He; subst. now exists b, e.
  - intros (b & e & -> & Hb & He).
    repeat constructor; trivial.
Qed.

Lemma first_match_wins_cases (rules : list (pattern * string)) (s : string) :
  first_match_wins rules s = s
  \/ exists p v, In (p, v) rules
       /\ (first_match_wins rules s = v \/ first_match_wins rules s = with_newline v).
Proof.
  induction rules as [|[p v] rules IH]; simpl; [now left|].
  destruct (search p s) eqn:E.
  - right. exists p, v. split; [now left|]. now apply sub_matched.
  - destruct IH as [IH|(q & w & Hin & IH)]; [now left|].
    right. exists q, w. split; [now right | exact IH].
Qed.

Lemma eval_group_cases (s : string) :
  eval_group s = s
  \/ exists v, In v group_names
       /\ (eval_group s = v \/ eval_group s = with_newline v).
Proof.
  unfold eval_group.
  rewrite (replace_list_first_match _ eval_group_rules_separated).
  destruct (first_match_wins_cases eval_group_rules s) as [E|(p & v & Hin & E)];
    [now left|].
  right. exists v. split; trivial.
  unfold group_names. apply in_map_iff. now exists (p, v).
Qed.

Lemma eval_group_names_fixed : names_fixed eval_group_rules = true.
Proof. vm_compute. reflexivity. Qed.

Lemma group_name_fixed (v : string) :
  In v group_names ->
  eval_group v = v /\ eval_group (with_newline v) = with_newline v.
Proof.
  unfold group_names. intro Hin. apply in_map_iff in Hin.
  destruct Hin as [[p w] [<- Hin]].
  pose proof eval_group_names_fixed as Hf. unfold names_fixed in Hf.
  rewrite forallb_forall in Hf. specialize (Hf _ Hin).
  apply andb_prop in Hf. destruct Hf as [H1 H2].
  apply String.eqb_eq in H1, H2. auto.
Qed.

Lemma eval_group_twice (s : string) : eval_group (eval_group s) = eval_group s.
Proof.
  destruct (eval_group_cases s) as [E|(v & Hin & [E|E])]; rewrite E; trivial;
    now apply group_name_fixed.
Qed.

(** Normalising a label twice gives what normalising it once gives: every
    group name, with or without a final newline, is its own group. *)
Theorem eval_group_idempotent (s : string) :
  eval_group (eval_group s) = eval_group s.
Proof. exact (eval_group_twice s). Qed.

Lemma match_here_suffix (p : pattern) :
  forall s r, match_here p s = Some r -> exists c, s = String.append c r.
Proof.
  induction p as [|a p IH]; intros s r; simpl.
  - destruct (at_end s); [|discriminate]. intro E. inversion E. now exists EmptyString.
  - destruct a as [l|].
    + destruct (strip_prefix l s) as [t|] eqn:E; [|discriminate].
      apply strip_prefix_spec in E. subst s. intro H.
      destruct (IH _ _ H) as [c ->]. exists (String.append l c).
      clear. induction l; simpl; congruence.
    + intro H. apply star_sound in H. destruct H as (run & s' & -> & _ & Hk).
      destruct (IH _ _ Hk) as [c ->]. exists (String.append run c).
      clear. induction run; simpl; congruence.
Qed.

Lemma no_newline_app (a b : string) :
  no_newline (String.append a b) = no_newline a && no_newline b.
Proof.
  induction a as [|c a IH]; simpl; trivial.
  now rewrite IH, andb_assoc.
Qed.

(** On a label without a line break a matching rule writes exactly its
    group name. *)
Lemma sub_exact (p : pattern) (v s : string) :
  no_newline s = true -> search p s = true -> sub p v s = v.
Proof.
  unfold search, sub. intros Hs.
  destruct (match_here p s) as [r|] eqn:E; [|discriminate]. intros _.
  destruct (match_here_suffix _ _ _ E) as [c ->].
  rewrite no_newline_app in Hs. apply andb_prop in Hs. destruct Hs as [_ Hr].
  apply match_here_rest in E. apply at_end_cases in E.
  destruct E as [->| ->]; [|discriminate Hr].
  clear. induction v; simpl; congruence.
Qed.

(** The group of a label on one line is the label itself or one of the
    fourteen group names: the vocabulary is closed. *)
Theorem eval_group_vocabulary (s : string) :
  no_newline s = true ->
  eval_group s = s \/ In (eval_group s) group_names.
Proof.
  intro Hs. unfold eval_group.
  rewrite (replace_list_first_match _ eval_group_rules_separated).
  unfold group_names.
  induction eval_group_rules as [|[p v] rules IH]; simpl; [now left|].
  destruct (search p s) eqn:E.
  - right. left. symmetry. now apply sub_exact.
  - destruct IH as [IH|IH]; [now left | right; now right].
Qed.

Lemma eval_group_vocabulary_witness :
  no_newline "Nurse Announced Observation" = true
  /\ (eval_group "Nurse Announced Observation" = "Nurse Announced Observation"
      \/ In (eval_group "Nurse Announced Observation") group_names).
Proof.
  split; [reflexivity|].
  apply (eval_group_vocabulary "Nurse Announced Observation"). reflexivity.
Defined.

Lemma search_clash (l : string) (p : pattern) (s : string) :
  strip_prefix l s = None -> search (Lit l :: p) s = false.
Proof. unfold search. simpl. now intros ->. Qed.

Lemma star_end (y : string) :
  no_newline y = true -> star (match_here []) y = Some EmptyString.
Proof.
  induction y as [|c y IH]; [reflexivity|].
  intro H. simpl in H. apply andb_prop in H. destruct H as [Hc Hy].
  apply negb_true_iff in Hc. cbn [star]. rewrite Hc. now rewrite IH.
Qed.

Lemma strip_prefix_no_newline (q s y : string) :
  no_newline s = true -> strip_prefix q s = Some y -> no_newline y = true.
Proof.
  intros Hs E. apply strip_prefix_spec in E. subst s.
  rewrite no_newline_app in Hs. now apply andb_prop in Hs.
Qed.

Lemma qualifier_here (q x : string) :
  no_newline x = true ->
  match_here [Lit q; DotStar] x
  = match strip_prefix q x with Some _ => Some EmptyString | None => None end.
Proof.
  intro Hx.
  change (match_here [Lit q; DotStar] x)
    with (match strip_prefix q x with
          | Some y => star (match_here []) y
          | None => None
          end).
  destruct (strip_prefix q x) as [y|] eqn:E; trivial.
  apply star_end. now apply strip_prefix_no_newline with q x.
Qed.

(** On one line, [.*q.*$] holds exactly when [q] occurs. *)
Lemma search_qualifier (q s : string) :
  no_newline s = true -> search [DotStar; Lit q; DotStar] s = contains q s.
Proof.
  unfold search.
  change (match_here [DotStar; Lit q; DotStar] s)
    with (star (match_here [Lit q; DotStar]) s).
  induction s as [|c s IH]; intro Hs.
  - cbn [star]. rewrite (qualifier_here q _ Hs). cbn [contains].
    now destruct (strip_prefix q EmptyString).
  - pose proof Hs as Hs'. simpl in Hs'. apply andb_prop in Hs'.
    destruct Hs' as [Hc Hs']. apply negb_true_iff in Hc.
    cbn [star]. rewrite Hc. specialize (IH Hs').
    rewrite (qualifier_here q _ Hs). cbn [contains].
    destruct (star (match_here [Lit q; DotStar]) s) as [r|] eqn:Es.
    + rewrite <- IH. now destruct (strip_prefix q (String c s)).
    + rewrite <- IH. now destruct (strip_prefix q (String c s)).
Qed.

Lemma search_role_qualifier (role q rest : string) :
  no_newline rest = true ->
  search (prefix_with role q) (String.append role rest) = contains q rest.
Proof.
  intro Hr. rewrite <- (search_qualifier q rest Hr).
  unfold prefix_with, search.
  change (match_here [Lit role; DotStar; Lit q; DotStar] (String.append role rest))
    with (match strip_prefix role (String.append role rest) with
          | Some y => match_here [DotStar; Lit q; DotStar] y
          | None => None
          end).
  now rewrite (proj2 (strip_prefix_spec role (String.append role rest) rest) eq_refl).
Qed.

Lemma search_role_only (role rest : string) :
  no_newline rest = true ->
  search (prefix_only role) (String.append role rest) = true.
Proof.
  intro Hr. unfold prefix_only, search.
  change (match_here [Lit role; DotStar] (String.append role rest))
    with (match strip_prefix role (String.append role rest) with
          | Some y => star (match_here []) y
          | None => None
          end).
  rewrite (proj2 (strip_prefix_spec role (String.append role rest) rest) eq_refl).
  now rewrite star_end.
Qed.

Ltac rule_step Hrest :=
  match goal with
  | |- (if search [Lit ?role; DotStar; Lit ?q; DotStar] (String.append ?role ?rest)
        then _ else _) = _ =>
      change [Lit role; DotStar; Lit q; DotStar] with (prefix_with role q);
      rewrite (search_role_qualifier role q rest Hrest);
      destruct (contains q rest) eqn:?;
      [apply sub_exact;
       [rewrite no_newline_app, Hrest; reflexivity
       | rewrite (search_role_qualifier role q rest Hrest); assumption] |]
  | |- (if search [Lit ?role; DotStar] (String.append ?role ?rest)
        then _ else _) = _ =>
      change [Lit role; DotStar] with (prefix_only role);
      rewrite (search_role_only role rest Hrest);
      apply sub_exact;
      [rewrite no_newline_app, Hrest; reflexivity
      | apply (search_role_only role rest Hrest)]
  | |- (if search (Lit ?l :: ?p) ?s then _ else _) = _ =>
      rewrite (search_clash l p s eq_refl)
  end.

(** A label that starts with [Teacher], [Counselor] or [Nurse] and stays
    on one line goes to the announced group when [Announced] occurs after
    the role, else to the unannounced group when [Unannounced] occurs,
    else to the domain-4 group when [Domain 4] occurs, and is kept as it
    is otherwise. *)
Theorem role_labels_group (role rest : string) :
  In role ["Teacher"; "Counselor"; "Nurse"] ->
  no_newline rest = true ->
  eval_group (String.append role rest) = role_group role rest.
Proof.
  intros Hrole Hrest. unfold eval_group.
  rewrite (replace_list_first_match _ eval_group_rules_separated).
  unfold role_group, eval_group_rules, first_match_wins, prefix_with, prefix_only.
  destruct Hrole as [<-|[<-|[<-|[]]]]; repeat rule_step Hrest; reflexivity.
Qed.

Lemma role_labels_group_witness :
  In "Nurse" ["Teacher"; "Counselor"; "Nurse"]
  /\ no_newline " Unannounced Domain 4 Visit" = true
  /\ eval_group (String.append "Nurse" " Unannounced Domain 4 Visit")
     = role_group "Nurse" " Unannounced Domain 4 Visit".
Proof.
  split; [simpl; tauto|]. split; [reflexivity|].
  apply (role_labels_group "Nurse" " Unannounced Domain 4 Visit");
    [simpl; tauto | reflexivity].
Defined.

(** A label on one line that starts with one of the five keywords
    without qualifier goes to the group of that keyword, whatever
    follows. *)
Theorem keyword_labels_group (rest : string) :
  no_newline rest = true ->
  eval_group (String.append "Child Study Team" rest) = "Child Study Team"
  /\ eval_group (String.append "Related Services" rest) = "Related Services"
  /\ eval_group (String.append "Instructional Assistant" rest) = "Instructional Assistant"
  /\ eval_group (String.append "Administrators" rest) = "Administrator"
  /\ eval_group (String.append "Media" rest) = "Media Specialist".
Proof.
  intro Hrest. unfold eval_group.
  rewrite !(replace_list_first_match _ eval_group_rules_separated).
  unfold eval_group_rules, first_match_wins, prefix_with, prefix_only.
  repeat split; repeat rule_step Hrest.
Qed.

Lemma keyword_labels_group_witness :
  no_newline " - Speech" = true
  /\ eval_group (String.append "Related Services" " - Speech") = "Related Services".
Proof.
  split; [reflexivity|].
  apply (keyword_labels_group " - Speech"). reflexivity.
Defined.

(** A label that starts with none of the eight keywords is its own
    group. *)
Theorem other_labels_unchanged (s : string) :
  (forall k, In k keywords -> strip_prefix k s = None) ->
  eval_group s = s.
Proof.
  intro Hk. unfold eval_group, series_replace.
  apply replace_list_unmatched. intros p v Hin.
  unfold eval_group_rules in Hin. simpl in Hin.
  repeat (destruct Hin as [Hin|Hin];
          [inversion Hin; subst; apply search_clash, Hk; simpl; tauto|]).
  contradiction.
Qed.

Lemma other_labels_unchanged_witness :
  (forall k, In k keywords -> strip_prefix k "Principal Walkthrough" = None)
  /\ eval_group "Principal Walkthrough" = "Principal Walkthrough".
Proof.
  assert (Hk : forall k, In k keywords -> strip_prefix k "Principal Walkthrough" = None).
  { intros k Hin. simpl in Hin.
    repeat (destruct Hin as [<-|Hin]; [reflexivity|]). contradiction. }
  split; [exact Hk|].
  exact (other_labels_unchanged "Principal Walkthrough" Hk).
Defined.

(** ** The cleaned table *)

Lemma sorted_labels_filter (keep : row -> bool) (l : list row) :
  StronglySorted lt (map label l) -> StronglySorted lt (map label (filter keep l)).
Proof.
  induction l as [|x l IH]; simpl; intro Hs; [constructor|].
  inversion Hs as [|? ? Hl Hx]. subst.
  destruct (keep x); simpl; auto.
  constructor; auto.
  rewrite Forall_forall in *. intros i Hi. apply Hx.
  apply in_map_iff in Hi. destruct Hi as [r [<- Hr]].
  apply filter_In in Hr. apply in_map. tauto.
Qed.

Lemma seq_strongly_sorted (n : nat) : forall i, StronglySorted lt (seq i n).
Proof.
  induction n as [|n IH]; intro i; simpl; constructor; auto.
  apply Forall_forall. intros j Hj. apply in_seq in Hj. lia.
Qed.

Lemma filter_twice {X : Type} (f g : X -> bool) (l : list X) :
  filter f (filter g l) = filter (fun x => g x && f x) l.
Proof.
  induction l as [|x l IH]; simpl; trivial.
  destruct (g x); simpl; [destruct (f x)|]; now rewrite IH.
Qed.

Lemma load_clean_selection `{Pandas} (csv : table) (d s sy : string)
    (flt : option string) (out : frame) :
  load_clean csv d s sy flt = Ok out ->
  exists keep,
    map label (rows out) = map label (filter keep (rows (read_csv csv))).
Proof.
  intro Hl. destruct (load_clean_ok _ _ _ _ _ _ Hl) as (_ & _ & _ & ->).
  set (df := strip_columns (read_csv csv)).
  rewrite rows_add_months, map_map.
  rewrite (map_ext _ label) by (intro r; apply label_dated).
  unfold filter_year.
  match goal with |- context [if ?c then _ else _] => destruct c end.
  - unfold dropna, filter_rows. simpl rows.
    rewrite rows_parse_columns, !filter_map_comm, filter_twice, map_map.
    rewrite (map_ext _ label) by (intro r; apply label_parsed).
    eexists. reflexivity.
  - unfold dropna, filter_rows. simpl rows.
    rewrite rows_parse_columns, filter_map_comm, map_map.
    rewrite (map_ext _ label) by (intro r; apply label_parsed).
    eexists. reflexivity.
Qed.

(** The cleaned table keeps the order of the file: the index labels of
    its rows are strictly increasing positions of the file, so there is at
    most one row for an observation. *)
Theorem load_clean_keeps_order `{Pandas} (csv : table) (d s sy : string)
    (flt : option string) (out : frame) :
  load_clean csv d s sy flt = Ok out ->
  StronglySorted lt (map label (rows out))
  /\ forall i, In i (map label (rows out)) -> i < List.length (body csv).
Proof.
  intro Hl. destruct (load_clean_selection _ _ _ _ _ _ Hl) as [keep E].
  rewrite E. split.
  - apply sorted_labels_filter. simpl. rewrite labels_number_from.
    apply seq_strongly_sorted.
  - intros i Hi. apply in_map_iff in Hi. destruct Hi as [r [<- Hr]].
    apply filter_In in Hr. destruct Hr as [Hr _].
    apply (in_map label) in Hr. simpl in Hr.
    rewrite labels_number_from in Hr. apply in_seq in Hr. lia.
Qed.

Lemma load_clean_keeps_order_witness :
  default_clean messy_csv None = Ok messy_clean
  /\ StronglySorted lt (map label (rows messy_clean))
  /\ forall i, In i (map label (rows messy_clean)) -> i < List.length (body messy_csv).
Proof.
  split; [reflexivity|].
  apply (load_clean_keeps_order messy_csv "ObservationDateTime" "ObservationScore"
           "SchoolYear" None messy_clean).
  reflexivity.
Defined.

Lemma columns_assign_exact (c : string) (f : row -> cell) (df : frame) :
  columns (assign c f df) = columns df ++ appended c (columns df).
Proof.
  unfold assign, appended. destruct (col_index c (columns df)); simpl; trivial.
  now rewrite app_nil_r.
Qed.

Lemma appended_other (c c' : string) (cols : list string) :
  c <> c' -> appended c (cols ++ appended c' cols) = appended c cols.
Proof.
  intro Hne. unfold appended at 2. destruct (col_index c' cols).
  - now rewrite app_nil_r.
  - unfold appended. now rewrite col_index_app_other.
Qed.

Lemma appended_NoDup (c : string) (cols : list string) :
  NoDup cols -> NoDup (cols ++ appended c cols).
Proof.
  intro Hnd. unfold appended. destruct (col_index c cols) eqn:E.
  - now rewrite app_nil_r.
  - apply col_index_none in E. apply NoDup_app; [trivial | repeat constructor; intros [] |].
    intros x Hx [<-|[]]. contradiction.
Qed.

Lemma appended_In (c x : string) (cols : list string) :
  In x (cols ++ appended c cols) <-> In x cols \/ x = c.
Proof.
  rewrite in_app_iff. unfold appended. destruct (col_index c cols) eqn:E; simpl.
  - split; [tauto|]. intros [Hx| ->]; auto.
    left. destruct (in_dec string_dec c cols) as [Hin|Hout]; trivial.
    apply col_index_none in Hout. congruence.
  - split; [intros [Hx|[<-|[]]]; auto | intros [Hx| ->]; auto].
Qed.

(** The cleaned table has the trimmed labels of the file, in their order,
    then [Month] unless the file has a column of that name, then
    [MonthStart] unless the file has a column of that name: a derived
    column is appended once, and one that the file already had is
    overwritten where it stands and not appended again.  So the labels are
    those of the file and the two derived ones and no other, distinct
    labels stay distinct, and the date and the score column are among
    them. *)
Theorem load_clean_columns `{Pandas} (csv : table) (d s sy : string)
    (flt : option string) (out : frame) :
  load_clean csv d s sy flt = Ok out ->
  let labels := map strip (header csv) in
  columns out = labels ++ appended "Month" labels ++ appended "MonthStart" labels
  /\ (forall c, In c (columns out) <-> In c labels \/ c = "Month" \/ c = "MonthStart")
  /\ (NoDup labels -> NoDup (columns out))
  /\ In d (columns out) /\ In s (columns out).
Proof.
  intros Hl labels. destruct (load_clean_ok _ _ _ _ _ _ Hl) as (Hd & Hs & Hne & ->).
  set (df := strip_columns (read_csv csv)) in *.
  set (df4 := filter_year (dropna [d; s] (parse_columns df d s)) sy flt).
  assert (Hc : columns df4 = labels).
  { unfold df4. rewrite columns_filter_year. simpl.
    now rewrite columns_parse_columns. }
  assert (E : columns (add_months df4 d)
              = (labels ++ appended "Month" labels) ++ appended "MonthStart" labels).
  { unfold add_months. rewrite !columns_assign_exact, Hc.
    rewrite appended_other by discriminate. reflexivity. }
  split; [now rewrite E, app_assoc|]. split; [|split; [|split]].
  - intro c. rewrite E.
    rewrite <- (appended_other "MonthStart" "Month" labels) by discriminate.
    rewrite !appended_In. tauto.
  - intro Hnd. rewrite E.
    rewrite <- (appended_other "MonthStart" "Month" labels) by discriminate.
    now apply appended_NoDup, appended_NoDup.
  - apply has_col_In, has_col_add_months.
    unfold has_col. now rewrite Hc.
  - apply has_col_In, has_col_add_months.
    unfold has_col. now rewrite Hc.
Qed.

Lemma load_clean_columns_witness :
  default_clean messy_csv None = Ok messy_clean
  /\ columns messy_clean
     = map strip (header messy_csv) ++ appended "Month" (map strip (header messy_csv))
       ++ appended "MonthStart" (map strip (header messy_csv))
  /\ (forall c, In c (columns messy_clean)
                <-> In c (map strip (header messy_csv)) \/ c = "Month" \/ c = "MonthStart")
  /\ (NoDup (map strip (header messy_csv)) -> NoDup (columns messy_clean))
  /\ In "ObservationDateTime" (columns messy_clean)
  /\ In "ObservationScore" (columns messy_clean).
Proof.
  split; [reflexivity|].
  apply (load_clean_columns messy_csv "ObservationDateTime" "ObservationScore"
           "SchoolYear" None messy_clean).
  reflexivity.
Defined.

(** A file that has a [Month] column already gets [MonthStart] alone. *)
Example month_named_columns :
  columns month_named_clean = map strip (header month_named_csv) ++ ["MonthStart"].
Proof. reflexivity. Qed.

(** A filter value is ignored, without any message, when it is the empty
    text and when the file has no school-year column: the result is that
    of the load without filter. *)
Theorem load_clean_filter_ignored `{Pandas} (csv : table) (d s sy : string)
    (flt : option string) :
  flt = Some "" \/ ~ In sy (map strip (header csv)) ->
  load_clean csv d s sy flt = load_clean csv d s sy None.
Proof.
  intro Hcase. unfold load_clean.
  set (df := strip_columns (read_csv csv)).
  destruct (has_col d df) eqn:Hd; [|reflexivity].
  destruct (has_col s df) eqn:Hs; [|reflexivity]. simpl.
  destruct (String.eqb d s); [reflexivity|].
  do 2 f_equal. unfold filter_year.
  destruct Hcase as [->|Hsy]; [reflexivity|].
  assert (E : has_col sy (dropna [d; s] (parse_columns df d s)) = false).
  { unfold has_col. simpl. rewrite columns_parse_columns by trivial.
    simpl. apply col_index_none in Hsy. now rewrite Hsy. }
  rewrite E. now rewrite andb_false_r.
Qed.

Lemma load_clean_filter_ignored_witness :
  (Some "2023-2024" = Some "" \/ ~ In "Year" (map strip (header messy_csv)))
  /\ load_clean messy_csv "ObservationDateTime" "ObservationScore" "Year"
       (Some "2023-2024")
     = load_clean messy_csv "ObservationDateTime" "ObservationScore" "Year" None.
Proof.
  assert (Hn : ~ In "Year" (map strip (header messy_csv))).
  { simpl. intros [E|[E|[E|[E|[E|[]]]]]]; discriminate E. }
  split; [now right|].
  apply (load_clean_filter_ignored messy_csv "ObservationDateTime" "ObservationScore"
           "Year" (Some "2023-2024")).
  now right.
Defined.

(** Each cleaned row whose date has a year of at most four digits
    carries the month label [YYYY-MM] of that date and, as month start,
    midnight on the first day of that month. *)
Theorem load_clean_month_start `{Pandas} (csv : table) (d s sy : string)
    (flt : option string) (out : frame) (r : row) :
  load_clean csv d s sy flt = Ok out ->
  d <> "Month" -> d <> "MonthStart" ->
  In r (rows out) ->
  exists t,
    lookup out d r = Ts t
    /\ ((0 <= year t <= 9999)%Z -> (0 <= month t <= 99)%Z ->
        lookup out "Month" r
        = Str (String.append (pad4 (year t)) (String.append "-" (pad2 (month t))))
        /\ lookup out "MonthStart" r
           = Ts {| year := year t; month := month t; day := 1%Z; tod := 0%Z |}).
Proof.
  intros Hl M1 M2 Hr.
  destruct (load_clean_months _ _ _ _ _ _ _ Hl M1 M2 Hr) as (t & Et & Em & Es).
  exists t. split; trivial. intros Hy Hm. split; trivial.
  rewrite Es. now apply month_start_month_str.
Qed.

Lemma load_clean_month_start_witness :
  default_clean messy_csv None = Ok messy_clean
  /\ exists t,
       lookup messy_clean "ObservationDateTime"
         (messy_row 0 2023 11 20 "2023-11" 3%Q "2023-2024" "Okoro, Ben" "Media Center")
       = Ts t
       /\ ((0 <= year t <= 9999)%Z -> (0 <= month t <= 99)%Z ->
           lookup messy_clean "Month"
             (messy_row 0 2023 11 20 "2023-11" 3%Q "2023-2024" "Okoro, Ben" "Media Center")
           = Str (String.append (pad4 (year t)) (String.append "-" (pad2 (month t))))
           /\ lookup messy_clean "MonthStart"
                (messy_row 0 2023 11 20 "2023-11" 3%Q "2023-2024" "Okoro, Ben" "Media Center")
              = Ts {| year := year t; month := month t; day := 1%Z; tod := 0%Z |}).
Proof.
  split; [reflexivity|].
  apply (load_clean_month_start messy_csv "ObservationDateTime" "ObservationScore"
           "SchoolYear" None messy_clean);
    [reflexivity | discriminate | discriminate | now left].
Defined.

(** ** The run as a whole *)

Lemma has_char_replaced (a b : ascii) (s : string) :
  a <> b -> has_char a (replace_char a b s) = false.
Proof.
  intro Hab. induction s as [|c s IH]; simpl; trivial.
  rewrite IH, orb_false_r.
  destruct (Ascii.eqb c a) eqn:E; apply Ascii.eqb_neq; [congruence|].
  now apply Ascii.eqb_neq in E.
Qed.

Lemma has_char_replace_other (a b e : ascii) (s : string) :
  e <> b -> has_char e s = false -> has_char e (replace_char a b s) = false.
Proof.
  intros Heb. induction s as [|c s IH]; simpl; trivial.
  intro H. apply orb_false_elim in H. destruct H as [Hc Hs].
  rewrite (IH Hs), orb_false_r.
  destruct (Ascii.eqb c a); trivial. apply Ascii.eqb_neq. congruence.
Qed.

Lemma length_replace_char (a b : ascii) (s : string) :
  String.length (replace_char a b s) = String.length s.
Proof. induction s as [|c s IH]; simpl; congruence. Qed.

(** The suffix of the file names has no slash and no blank, whatever the
    school year: a school year cannot move an output into another
    directory.  It is empty exactly without a school year, and one
    character longer than the school year otherwise. *)
Theorem tag_of_safe (y : option string) :
  has_char "/" (tag_of y) = false /\ has_char " " (tag_of y) = false
  /\ (tag_of y = "" <-> y = None \/ y = Some "")
  /\ (forall v, y = Some v -> v <> "" ->
        String.length (tag_of y) = S (String.length v)).
Proof.
  destruct y as [v|]; simpl.
  - destruct (String.eqb v "") eqn:E.
    + apply String.eqb_eq in E. subst v. repeat split; auto.
      intros v Hv Hne. inversion Hv. congruence.
    + apply String.eqb_neq in E. simpl. repeat split.
      * apply has_char_replace_other; [discriminate|].
        apply has_char_replaced. discriminate.
      * apply has_char_replaced. discriminate.
      * discriminate.
      * intros [H|H]; [discriminate | inversion H; contradiction].
      * intros v' Hv _. inversion Hv. subst v'.
        now rewrite !length_replace_char.
  - repeat split; auto. intros v Hv. discriminate.
Qed.

Create HintDb tidy.

Lemma has_char_append (c : ascii) (s t : string) :
  has_char c (String.append s t) = has_char c s || has_char c t.
Proof.
  induction s as [|x s IH]; simpl; trivial. now rewrite IH, orb_assoc.
Qed.

Lemma tag_of_no_slash (y : option string) : has_char "/" (tag_of y) = false.
Proof.
  destruct y as [v|]; simpl; trivial.
  destruct (String.eqb v ""); simpl; trivial.
  apply has_char_replace_other; [discriminate|].
  apply has_char_replaced. discriminate.
Qed.

Lemma tidy_ret {A : Type} (a : A) : tidy (ret a).
Proof. intros w w' r E. inversion E. subst. split; [tauto | auto]. Qed.

Lemma tidy_raise {A : Type} (e : exn) : tidy (@raise A e).
Proof. intros w w' r E. inversion E. subst. split; [tauto | auto]. Qed.

Lemma tidy_lift {A : Type} (x : result A) : tidy (lift x).
Proof. intros w w' r E. inversion E. subst. split; [tauto | auto]. Qed.

Lemma tidy_write (p : string) (a : artefact) : well_placed (p, a) -> tidy (write p a).
Proof.
  intros Hp w w' r E. inversion E. simpl. split; [tauto|].
  intros f Hf. apply in_app_or in Hf. destruct Hf as [Hf|[<-|[]]]; auto.
Qed.

Lemma tidy_bind {A B : Type} (c : M A) (k : A -> M B) :
  tidy c -> (forall a, tidy (k a)) -> tidy (bind c k).
Proof.
  intros Hc Hk w w' r. unfold bind.
  destruct (c w) as [w1 [a|e]] eqn:E.
  - intro Ek. destruct (Hc _ _ _ E) as [D1 F1].
    destruct (Hk a _ _ _ Ek) as [D2 F2]. split.
    + intro d. now rewrite D2.
    + intros f Hf. destruct (F2 f Hf) as [Hf1|Hf1]; auto.
  - intro Ek. inversion Ek. subst. now apply (Hc _ _ _ E).
Qed.

Lemma tidy_if {A : Type} (b : bool) (c1 c2 : M A) :
  tidy c1 -> tidy c2 -> tidy (if b then c1 else c2).
Proof. now destruct b. Qed.

Lemma placed (dir name tag ext : string) :
  has_char "/" name = false -> has_char "/" tag = false -> has_char "/" ext = false ->
  directly_in dir (path_in dir name tag ext).
Proof.
  intros Hn Ht He. exists (String.append name (String.append tag ext)).
  split; trivial. now rewrite !has_char_append, Hn, Ht, He.
Qed.

Lemma figure_placed (name tag ext : string) (a : artefact) :
  is_figure a = true ->
  has_char "/" name = false -> has_char "/" tag = false -> has_char "/" ext = false ->
  well_placed (path_in OUT_FIGS name tag ext, a).
Proof.
  intros Hf Hn Ht He. unfold well_placed. simpl. rewrite Hf. now apply placed.
Qed.

Lemma table_placed (name tag ext : string) (a : artefact) :
  is_figure a = false ->
  has_char "/" name = false -> has_char "/" tag = false -> has_char "/" ext = false ->
  well_placed (path_in OUT_DATA name tag ext, a).
Proof.
  intros Hf Hn Ht He. unfold well_placed. simpl. rewrite Hf. now apply placed.
Qed.

#[local] Hint Resolve tidy_ret tidy_raise tidy_lift tidy_if tag_of_no_slash : tidy.

Ltac tidy_steps :=
  repeat (apply tidy_bind; [|intro]);
  first [ apply tidy_write;
          first [ apply figure_placed; auto with tidy; reflexivity
                | apply table_placed; auto with tidy; reflexivity ]
        | auto with tidy ].

Lemma tidy_select_scores (df : frame) (c : string) : tidy (select_scores df c).
Proof. unfold select_scores. auto with tidy. Qed.

Lemma tidy_select_months (df : frame) : tidy (select_months df).
Proof. unfold select_months. auto with tidy. Qed.

Lemma tidy_boxplot (data : list (list Q)) (labels : list string) :
  tidy (boxplot data labels).
Proof. unfold boxplot. auto with tidy. Qed.

#[local] Hint Resolve tidy_select_scores tidy_select_months tidy_boxplot : tidy.

Lemma tidy_plot_hist (df : frame) (sc tag : string) :
  has_char "/" tag = false -> tidy (plot_hist df sc tag).
Proof. intro Ht. unfold plot_hist. tidy_steps. Qed.

Lemma tidy_plot_box_by_type `{Pandas} (df : frame) (sc ec tag : string) (min_n : Z) :
  has_char "/" tag = false -> tidy (plot_box_by_type df sc ec tag min_n).
Proof. intro Ht. unfold plot_box_by_type. tidy_steps. Qed.

Lemma tidy_plot_monthly_trend (df : frame) (dc sc tag : string) :
  has_char "/" tag = false -> tidy (plot_monthly_trend df dc sc tag).
Proof. intro Ht. unfold plot_monthly_trend. tidy_steps. Qed.

Lemma tidy_plot_observer_bar (df : frame) (oc sc tag : string) (min_n : Z) :
  has_char "/" tag = false -> tidy (plot_observer_bar df oc sc tag min_n).
Proof. intro Ht. unfold plot_observer_bar. tidy_steps. Qed.

#[local] Hint Resolve tidy_plot_hist tidy_plot_box_by_type tidy_plot_monthly_trend
  tidy_plot_observer_bar : tidy.

(** However a run of [main] ends and whatever the school year is, the
    directories there are afterwards are those there were and the two of
    the program, [figures_evals] and [outputs], and every file there is
    afterwards was there before the run or is a figure directly inside
    [figures_evals] or a table directly inside [outputs]: [main] writes
    nowhere else. *)
Theorem main_tidy `{Pandas} (a : args) (w w' : world) (r : result unit) :
  main a w = (w', r) ->
  (forall d, In d (dirs w') <-> In d (dirs w) \/ d = OUT_FIGS \/ d = OUT_DATA)
  /\ (forall f, In f (files w') -> In f (files w) \/ well_placed f).
Proof.
  unfold main. unfold bind at 1. unfold ensure_dirs, bind at 1, mkdir. simpl.
  match goal with |- ?c ?w1 = _ -> _ => assert (T : tidy c) end.
  { tidy_steps. }
  intro E. destruct (T _ _ _ E) as [D F]. simpl in D, F. split; trivial.
  intro d. rewrite D, <- app_assoc, in_app_iff. simpl. intuition.
Qed.

Lemma main_tidy_witness :
  main sample_args empty_world = (sample_world, Ok tt)
  /\ (forall d, In d (dirs sample_world)
                <-> In d (dirs empty_world) \/ d = OUT_FIGS \/ d = OUT_DATA)
  /\ (forall f, In f (files sample_world) -> In f (files empty_world) \/ well_placed f).
Proof.
  split; [vm_compute; reflexivity|].
  apply (main_tidy sample_args empty_world sample_world (Ok tt)).
  vm_compute. reflexivity.
Defined.

Lemma plot_hist_ok (df : frame) (sc tag : string) (w w' : world) :
  plot_hist df sc tag w = (w', Ok tt) ->
  exists h, files w' = files w
                       ++ [(path_in OUT_FIGS "01_hist_scores" tag ".png", Histogram h)].
Proof.
  unfold plot_hist. intro Hrun.
  apply bind_ok in Hrun. destruct Hrun as (w1 & u & Hs & Hrun).
  apply select_scores_ok in Hs. destruct Hs as (-> & _).
  apply write_files in Hrun. eauto.
Qed.

(** A run of [main] that completes has written eight files and no other,
    four figures and four tables, in this order and under these names. *)
Theorem main_output_files `{Pandas} (a : args) (w w' : world) :
  main a w = (w', Ok tt) ->
  map fst (files w') = map fst (files w) ++ output_paths (tag_of (school_year a)).
Proof.
  unfold main. intro Hrun.
  apply bind_ok in Hrun. destruct Hrun as (w1 & u1 & Hd & Hrun).
  assert (F1 : files w1 = files w).
  { unfold ensure_dirs, bind, mkdir in Hd. simpl in Hd. now inversion Hd. }
  apply bind_ok in Hrun. destruct Hrun as (w2 & d & Hl & Hrun).
  apply lift_ok in Hl. destruct Hl as [-> Hl]. cbv zeta in Hrun.
  apply bind_ok in Hrun. destruct Hrun as (w3 & [] & Hh & Hrun).
  apply plot_hist_ok in Hh. destruct Hh as [h Hh].
  apply bind_ok in Hrun. destruct Hrun as (w4 & [] & Hb & Hrun).
  apply plot_box_by_type_ok in Hb. destruct Hb as (gdf & fig & _ & Hb).
  apply bind_ok in Hrun. destruct Hrun as (w5 & [] & Ht & Hrun).
  apply plot_monthly_trend_ok in Ht.
  apply bind_ok in Hrun. destruct Hrun as (w6 & [] & Ho & Hrun).
  apply plot_observer_bar_ok in Ho. destruct Ho as (chart & _ & _ & Ho).
  apply bind_ok in Hrun. destruct Hrun as (w7 & u7 & Hg & Hrun).
  apply guard_ok in Hg. destruct Hg as [-> _].
  apply bind_ok in Hrun. destruct Hrun as (w8 & u8 & Hs & Hrun).
  apply select_scores_ok in Hs. destruct Hs as (-> & _).
  apply bind_ok in Hrun. destruct Hrun as (w9 & u9 & Hw & Hrun).
  apply write_files in Hw.
  apply bind_ok in Hrun. destruct Hrun as (w10 & u10 & Hm & Hrun).
  unfold select_months in Hm. apply guard_ok in Hm. destruct Hm as [-> _].
  apply bind_ok in Hrun. destruct Hrun as (w11 & u11 & Hs & Hrun).
  apply select_scores_ok in Hs. destruct Hs as (-> & _).
  apply write_files in Hrun.
  rewrite Hrun, Hw, Ho, Ht, Hb, Hh, F1.
  rewrite !map_app, <- !app_assoc. reflexivity.
Qed.

Lemma main_output_files_witness :
  main sample_args empty_world = (sample_world, Ok tt)
  /\ map fst (files sample_world)
     = map fst (files empty_world) ++ output_paths (tag_of (school_year sample_args)).
Proof.
  split; [vm_compute; reflexivity|].
  apply (main_output_files sample_args empty_world sample_world).
  vm_compute. reflexivity.
Defined.

(** Without the evaluation-type column the run stops with a [KeyError]
    in the category chart, after the histogram has been written: that
    figure is the only output. *)
Theorem main_without_etype `{Pandas} (a : args) (d : frame) (w : world) :
  load_clean (csv a) (date_col a) (score_col a) (schoolyear_col a) (school_year a)
  = Ok d ->
  score_col a <> "Month" -> score_col a <> "MonthStart" ->
  ~ In (etype_col a) (columns d) ->
  exists h,
    main a w
    = ({| dirs := dirs w ++ [OUT_FIGS; OUT_DATA];
          files := files w
                   ++ [(path_in OUT_FIGS "01_hist_scores" (tag_of (school_year a)) ".png",
                        Histogram h)] |},
       Raise KeyError).
Proof.
  intros Hl M1 M2 He.
  destruct (load_clean_numeric _ _ _ _ _ _ Hl M1 M2) as [Hc Hn].
  assert (Hg : make_eval_group d (etype_col a) = Raise KeyError).
  { unfold make_eval_group.
    destruct (has_col (etype_col a) d) eqn:E; trivial.
    apply has_col_In in E. contradiction. }
  eexists. unfold main.
  unfold bind at 1. unfold ensure_dirs, bind at 1, mkdir. simpl.
  unfold bind at 1. unfold lift at 1. rewrite Hl.
  unfold bind at 1. rewrite (plot_hist_run d _ _ _ Hc Hn).
  unfold bind at 1. unfold plot_box_by_type, bind at 1, lift at 1. rewrite Hg.
  simpl. rewrite <- app_assoc. reflexivity.
Qed.

Lemma main_without_etype_witness :
  load_clean (csv untyped_args) (date_col untyped_args) (score_col untyped_args)
    (schoolyear_col untyped_args) (school_year untyped_args) = Ok untyped_clean
  /\ ~ In (etype_col untyped_args) (columns untyped_clean)
  /\ exists h,
       main untyped_args empty_world
       = ({| dirs := dirs empty_world ++ [OUT_FIGS; OUT_DATA];
             files := files empty_world
                      ++ [(path_in OUT_FIGS "01_hist_scores"
                             (tag_of (school_year untyped_args)) ".png", Histogram h)] |},
          Raise KeyError).
Proof.
  assert (He : ~ In (etype_col untyped_args) (columns untyped_clean)).
  { simpl. intros [E|[E|[E|[E|[]]]]]; discriminate E. }
  split; [reflexivity|]. split; [exact He|].
  apply (main_without_etype untyped_args untyped_clean empty_world);
    [reflexivity | discriminate | discriminate | exact He].
Defined.

Example untyped_tag : tag_of (school_year untyped_args) = "_2023-2024_Fall".
Proof. reflexivity. Qed.

(** ** The charts *)

Lemma py_min_le (a : Q) (y : fl) :
  exists v, py_min (Some a) y = Some v /\ (v <= a)%Q
            /\ forall c, (c <= a)%Q -> (forall b, y = Some b -> (c <= b)%Q) -> (c <= v)%Q.
Proof.
  destruct y as [b|]; unfold py_min, fl_ltb.
  - destruct (Qle_bool a b) eqn:E; simpl.
    + exists a. split; trivial. split; [apply Qle_refl | auto].
    + exists b. split; trivial. apply Qle_bool_false in E.
      split; [now apply Qlt_le_weak | auto].
  - exists a. split; trivial. split; [apply Qle_refl | auto].
Qed.

Lemma py_max_ge (a : Q) (y : fl) :
  exists v, py_max (Some a) y = Some v /\ (a <= v)%Q.
Proof.
  destruct y as [b|]; unfold py_max, fl_ltb.
  - destruct (Qle_bool b a) eqn:E; simpl.
    + exists a. split; trivial. apply Qle_refl.
    + exists b. split; trivial. apply Qle_bool_false in E. now apply Qlt_le_weak.
  - exists a. split; trivial. apply Qle_refl.
Qed.

(** Whatever the means are, missing ones included, the vertical axis of
    the observer chart starts at 3 or below and ends between 4 and 4.05:
    a bar higher than 4.05 is cut off.  Without any mean the axis is
    exactly from 3 to 4. *)
Theorem observer_ylim_bounds (means : list fl) :
  (exists bottom top,
     observer_ylim means = (Some bottom, Some top)
     /\ (bottom <= 3)%Q /\ (4 <= top)%Q /\ (top <= 405 # 100)%Q)
  /\ observer_ylim [] = (Some 3%Q, Some 4%Q).
Proof.
  split; [|reflexivity]. unfold observer_ylim.
  destruct (py_min_le 3 (fl_add (series_min means) (- (1 # 10)))) as (b & -> & Hb & _).
  destruct (py_max_ge 4 (fl_add (series_max means) (1 # 10))) as (m & -> & Hm).
  destruct (py_min_le (405 # 100) (Some m)) as (t & -> & Ht & Hlow).
  exists b, t. repeat split; trivial.
  apply Hlow; [discriminate|]. intros b' E. inversion E. now subst.
Qed.

Lemma total_add (f g : nat -> nat) (l : list nat) :
  total (map (fun b => f b + g b) l) = total (map f l) + total (map g l).
Proof.
  unfold total. induction l as [|b l IH]; simpl; trivial. rewrite IH. lia.
Qed.

Lemma total_indicator (k n : nat) :
  forall i, i <= k < i + n ->
  total (map (fun b => if k =? b then 1 else 0) (seq i n)) = 1.
Proof.
  unfold total. induction n as [|n IH]; intros i Hk; simpl; [lia|].
  destruct (k =? i) eqn:E.
  - apply Nat.eqb_eq in E. subst i. simpl. f_equal.
    clear. generalize (S k) (Nat.lt_succ_diag_r k).
    induction n as [|n IH]; intros j Hj; simpl; trivial.
    destruct (k =? j) eqn:E; [apply Nat.eqb_eq in E; lia|].
    apply IH. lia.
  - apply Nat.eqb_neq in E. simpl. apply IH. lia.
Qed.

Lemma total_counts {X : Type} (f : X -> nat) (n : nat) (l : list X) :
  (forall x, In x l -> f x < n) ->
  total (map (fun b => List.length (filter (fun x => f x =? b) l)) (seq 0 n))
  = List.length l.
Proof.
  induction l as [|x l IH]; intro Hf.
  - simpl. unfold total. induction (seq 0 n); simpl; trivial.
  - rewrite (map_ext _ (fun b => (if f x =? b then 1 else 0)
                                 + List.length (filter (fun y => f y =? b) l))).
    + rewrite total_add, IH by (intros y Hy; apply Hf; now right).
      rewrite total_indicator; trivial.
      specialize (Hf x (or_introl eq_refl)). lia.
    + intro b. simpl. now destruct (f x =? b).
Qed.

(** The bins of the histogram hold every observation once: the counts
    add up to the number of scores. *)
Theorem hist_counts_total (bins : nat) (s : list Q) :
  0 < bins -> total (hist bins s) = List.length s.
Proof.
  intro Hb. unfold hist. apply total_counts.
  intros x _. unfold bin_of. destruct (hist_range s). lia.
Qed.

Lemma hist_counts_total_witness :
  0 < 20 /\ total (hist 20 [3; 4; (7 # 2); 4]%Q) = 4.
Proof.
  split; [lia|]. apply (hist_counts_total 20 [3; 4; (7 # 2); 4]%Q). lia.
Defined.

Lemma annotations_of_stats (stats : list type_stat) :
  NoDup (map group stats) ->
  omap (fun l => option_map t_count (find (fun st => String.eqb (group st) l) stats))
       (map group stats)
  = map t_count stats.
Proof.
  intro Hnd.
  assert (G : forall part, (forall st, In st part -> In st stats) ->
            omap (fun l => option_map t_count
                             (find (fun st => String.eqb (group st) l) stats))
                 (map group part)
            = map t_count part).
  { induction part as [|st part IH]; intro Hin; simpl; trivial.
    rewrite (find_by_group stats st Hnd (Hin st (or_introl eq_refl))). simpl.
    now rewrite IH by (intros x Hx; apply Hin; now right). }
  now apply G.
Qed.

Lemma kept_stats_NoDup (gdf : frame) (sc : string) (min_n : Z) :
  NoDup (map group (kept_stats gdf sc min_n)).
Proof.
  unfold kept_stats.
  eapply Permutation_NoDup; [symmetry; apply sort_by_map_perm|].
  apply NoDup_map_filter, group_stats_NoDup.
Qed.

(** In the category chart every box agrees with the table beside it: the
    boxes are the lines of the table in the same order, the data of a box
    are the scores of its group, and the count written next to the box is
    the size of those data. *)
Theorem boxplot_matches_table `{Pandas} (df : frame) (sc ec tag : string) (min_n : Z)
    (w w' : world) :
  plot_box_by_type df sc ec tag min_n w = (w', Ok tt) ->
  exists gdf order data ns summary,
    make_eval_group df ec = Ok gdf
    /\ files w' = files w
                  ++ [(path_in OUT_FIGS "02_box_by_type" tag ".png", Boxplot order data ns);
                      (path_in OUT_DATA "type_means_grouped" tag ".csv",
                       TypeTable summary)]
    /\ order = map group summary
    /\ data = map (fun l => scores gdf sc (group_rows gdf l)) order
    /\ ns = map t_count summary
    /\ map (@List.length Q) data = ns.
Proof.
  unfold plot_box_by_type. intro Hrun.
  apply bind_ok in Hrun. destruct Hrun as (w1 & gdf & Hg & Hrun).
  apply lift_ok in Hg. destruct Hg as [-> Hg].
  apply bind_ok in Hrun. destruct Hrun as (w2 & u & Hs & Hrun).
  apply select_scores_ok in Hs. destruct Hs as (-> & _ & _).
  apply bind_ok in Hrun. destruct Hrun as (w2 & u2 & Hb & Hrun).
  apply boxplot_run in Hb. destruct Hb as [-> _].
  apply bind_ok in Hrun. destruct Hrun as (w3 & u3 & Hw & Hrun).
  apply write_files in Hw.
  apply bind_ok in Hrun. destruct Hrun as (w4 & table & Hl & Hrun).
  apply lift_ok in Hl. destruct Hl as [-> Hl].
  apply write_files in Hrun.
  rewrite loc_selection in Hl;
    [| apply group_stats_NoDup | intros st Hst; now apply kept_stats_In in Hst].
  inversion Hl. subst table.
  rewrite annotations_of_stats in Hw by apply kept_stats_NoDup.
  exists gdf. do 4 eexists. split; [exact Hg|].
  split; [rewrite Hrun, Hw, <- app_assoc; reflexivity|].
  repeat split.
  rewrite !map_map. apply map_ext_in. intros st Hst.
  apply kept_stats_In in Hst. destruct Hst as [Hst _].
  now rewrite (group_stats_In _ _ _ Hst) at 2.
Qed.

Lemma boxplot_matches_table_witness :
  plot_box_by_type sample_clean "ObservationScore" "EvaluationType" "" 10 empty_world
  = (sample_box_world, Ok tt)
  /\ exists gdf order data ns summary,
       make_eval_group sample_clean "EvaluationType" = Ok gdf
       /\ files sample_box_world
          = files empty_world
            ++ [(path_in OUT_FIGS "02_box_by_type" "" ".png", Boxplot order data ns);
                (path_in OUT_DATA "type_means_grouped" "" ".csv", TypeTable summary)]
       /\ order = map group summary
       /\ data = map (fun l => scores gdf "ObservationScore" (group_rows gdf l)) order
       /\ ns = map t_count summary
       /\ map (@List.length Q) data = ns.
Proof.
  split; [vm_compute; reflexivity|].
  apply (boxplot_matches_table sample_clean "ObservationScore" "EvaluationType" "" 10
           empty_world sample_box_world).
  vm_compute. reflexivity.
Defined.

Lemma cell_eqb_refl (a : cell) : a <> NA -> cell_eqb a a = true.
Proof.
  destruct a as [|s|q|t]; simpl; intro Hna; [contradiction| | |].
  - apply String.eqb_refl.
  - apply Qeq_bool_iff. reflexivity.
  - now apply ts_eqb_eq.
Qed.

Lemma cell_eqb_sym (a b : cell) : cell_eqb a b = true -> cell_eqb b a = true.
Proof.
  destruct a, b; simpl; trivial; try discriminate.
  - rewrite !String.eqb_eq. congruence.
  - rewrite !Qeq_bool_iff. intro E. now symmetry.
  - rewrite !ts_eqb_eq. congruence.
Qed.

Lemma cell_eqb_trans (a b c : cell) :
  cell_eqb a b = true -> cell_eqb b c = true -> cell_eqb a c = true.
Proof.
  destruct a, b, c; simpl; trivial; try discriminate.
  - rewrite !String.eqb_eq. congruence.
  - rewrite !Qeq_bool_iff. intros E1 E2. now rewrite E1.
  - rewrite !ts_eqb_eq. congruence.
Qed.

Lemma dedup_incl {K : Type} (eqb : K -> K -> bool) (l : list K) (y : K) :
  In y (dedup eqb l) -> In y l.
Proof.
  induction l as [|x l IH]; simpl; trivial.
  destruct (existsb (eqb x) l); simpl; intuition.
Qed.

Lemma dedup_cells_cover (l : list cell) :
  forall x, x <> NA -> In x l ->
  exists y, In y (dedup cell_eqb l) /\ cell_eqb x y = true.
Proof.
  induction l as [|z l IH]; simpl; intros x Hx Hin; [contradiction|].
  destruct (existsb (cell_eqb z) l) eqn:E.
  - destruct Hin as [->|Hin]; [|now apply IH].
    apply existsb_exists in E. destruct E as (u & Hu & Exu).
    assert (Hune : u <> NA) by (intro; subst u; destruct x; simpl in Exu; congruence).
    destruct (IH u Hune Hu) as (y & Hy & Euy).
    exists y. split; trivial. now apply cell_eqb_trans with u.
  - destruct Hin as [->|Hin].
    + exists x. split; [now left | now apply cell_eqb_refl].
    + destruct (IH x Hx Hin) as (y & Hy & Exy). exists y. split; [now right | trivial].
Qed.

Lemma cell_key_lookup (df : frame) (c : string) (r : row) (k : cell) :
  cell_key df c r = Some k <-> lookup df c r = k /\ k <> NA.
Proof.
  unfold cell_key. destruct (lookup df c r); split.
  all: try (intro E; inversion E; split; [reflexivity | discriminate]).
  all: try discriminate.
  all: intros [<- Hk]; try reflexivity; contradiction.
Qed.

Lemma observer_rows_equiv (df : frame) (oc : string) (k y : cell) :
  cell_eqb k y = true -> observer_rows df oc y = observer_rows df oc k.
Proof.
  intro E. unfold observer_rows. apply filter_ext. intro r.
  unfold key_is. destruct (cell_key df oc r) as [k'|]; trivial.
  destruct (cell_eqb k' y) eqn:E1, (cell_eqb k' k) eqn:E2; trivial.
  - rewrite (cell_eqb_trans _ _ _ E1 (cell_eqb_sym _ _ E)) in E2. discriminate.
  - rewrite (cell_eqb_trans _ _ _ E2 E) in E1. discriminate.
Qed.

Lemma observer_stats_In (df : frame) (oc sc : string) (st : observer_stat) :
  In st (observer_stats df oc sc) ->
  st = observer_summary df oc sc (observer st)
  /\ exists r, In r (rows df) /\ lookup df oc r = observer st.
Proof.
  unfold observer_stats. intro Hin. apply in_map_iff in Hin.
  destruct Hin as [[k g] [<- Hin]]. simpl. split.
  - apply groupby_In in Hin. now subst g.
  - apply (in_map fst) in Hin. simpl in Hin.
    rewrite groupby_keys, sort_by_In in Hin. apply dedup_incl in Hin.
    apply omap_In in Hin. destruct Hin as (r & E & Hr).
    apply cell_key_lookup in E. exists r. tauto.
Qed.

Lemma observer_stats_cover (df : frame) (oc sc : string) (r : row) :
  In r (rows df) -> lookup df oc r <> NA ->
  exists st, In st (observer_stats df oc sc)
             /\ cell_eqb (observer st) (lookup df oc r) = true.
Proof.
  intros Hr Hna.
  assert (Hk : In (lookup df oc r) (omap (cell_key df oc) (rows df))).
  { apply omap_In. exists r. split; trivial. now apply cell_key_lookup. }
  destruct (dedup_cells_cover _ _ Hna Hk) as (y & Hy & E).
  assert (Hg : In y (map fst (groupby cell_eqb cell_leb (cell_key df oc) (rows df))))
    by now rewrite groupby_keys, sort_by_In.
  apply in_map_iff in Hg. destruct Hg as [[k g] [Ek Hg]]. simpl in Ek. subst k.
  eexists. split.
  - unfold observer_stats. apply in_map_iff. exists (y, g). split; [reflexivity|exact Hg].
  - simpl. now apply cell_eqb_sym.
Qed.

(** The observer chart and its table hold the observers with at least
    [min_n] observations and no other, each with the statistics of its
    own rows, in ascending order of the mean. *)
Theorem observer_bars_exact (df : frame) (oc sc tag : string) (min_n : Z)
    (w w' : world) :
  plot_observer_bar df oc sc tag min_n w = (w', Ok tt) ->
  exists chart,
    files w' = files w
               ++ [(path_in OUT_FIGS "05_observer_mean_bar" tag ".png", BarChart chart);
                   (path_in OUT_DATA "evaluator_stats" tag ".csv",
                    ObserverTable (bars chart))]
    /\ Sorted (fun a b => fl_leb (o_mean a) (o_mean b) = true) (bars chart)
    /\ (forall st, In st (bars chart) ->
          (min_n <= Z.of_nat (o_count st))%Z
          /\ st = observer_summary df oc sc (observer st)
          /\ exists r, In r (rows df) /\ lookup df oc r = observer st)
    /\ (forall r, In r (rows df) -> lookup df oc r <> NA ->
          (min_n <= Z.of_nat (List.length
                       (scores df sc (observer_rows df oc (lookup df oc r)))))%Z ->
          exists st, In st (bars chart)
                     /\ cell_eqb (observer st) (lookup df oc r) = true).
Proof.
  intro Hrun.
  destruct (plot_observer_bar_ok _ _ _ _ _ _ _ Hrun) as (chart & Hb & _ & Hf).
  exists chart. split; trivial. rewrite Hb. unfold kept_observers.
  split; [|split].
  - apply sort_by_sorted. intros a b. apply fl_leb_total.
  - intros st Hst. apply sort_by_In, filter_In in Hst. destruct Hst as [Hst Hn].
    apply Z.leb_le in Hn. split; trivial. now apply observer_stats_In.
  - intros r Hr Hna Hn.
    destruct (observer_stats_cover df oc sc r Hr Hna) as (st & Hst & E).
    exists st. split; trivial. apply sort_by_In, filter_In. split; trivial.
    apply Z.leb_le.
    destruct (observer_stats_In _ _ _ _ Hst) as [Es _]. rewrite Es. simpl.
    now rewrite (observer_rows_equiv df oc _ _ (cell_eqb_sym _ _ E)).
Qed.

(** Two observers with six observations each: both are kept with the
    threshold 6, none with 7. *)
Lemma observer_bars_exact_witness :
  plot_observer_bar two_observers_frame "ObserverLastFirstName" "ObservationScore" "" 6
    empty_world = (two_observers_world 6, Ok tt)
  /\ exists chart,
       files (two_observers_world 6)
       = files empty_world
         ++ [(path_in OUT_FIGS "05_observer_mean_bar" "" ".png", BarChart chart);
             (path_in OUT_DATA "evaluator_stats" "" ".csv", ObserverTable (bars chart))]
       /\ Sorted (fun a b => fl_leb (o_mean a) (o_mean b) = true) (bars chart)
       /\ (forall st, In st (bars chart) ->
             (6 <= Z.of_nat (o_count st))%Z
             /\ st = observer_summary two_observers_frame "ObserverLastFirstName"
                       "ObservationScore" (observer st)
             /\ exists r, In r (rows two_observers_frame)
                          /\ lookup two_observers_frame "ObserverLastFirstName" r
                             = observer st)
       /\ (forall r, In r (rows two_observers_frame) ->
             lookup two_observers_frame "ObserverLastFirstName" r <> NA ->
             (6 <= Z.of_nat (List.length
                       (scores two_observers_frame "ObservationScore"
                          (observer_rows two_observers_frame "ObserverLastFirstName"
                             (lookup two_observers_frame "ObserverLastFirstName" r)))))%Z ->
             exists st, In st (bars chart)
                        /\ cell_eqb (observer st)
                             (lookup two_observers_frame "ObserverLastFirstName" r) = true).
Proof.
  split; [vm_compute; reflexivity|].
  apply (observer_bars_exact two_observers_frame "ObserverLastFirstName"
           "ObservationScore" "" 6 empty_world (two_observers_world 6)).
  vm_compute. reflexivity.
Defined.

Example two_observers_thresholds :
  match files (two_observers_world 6), files (two_observers_world 7) with
  | [_; (_, ObserverTable t6)], [_; (_, ObserverTable t7)] =>
      map (fun st => (observer st, o_count st)) t6
      = [(Str "Okoro, Ben", 6); (Str "Diaz, Ana", 6)]
      /\ t7 = []
  | _, _ => False
  end.
Proof. vm_compute. split; reflexivity. Qed.

(** ** Grouping a grouped table *)

Lemma list_put_twice (i : nat) (v u : cell) (l : list cell) :
  list_put i v (list_put i u l) = list_put i v l.
Proof.
  revert l. induction i as [|i IH]; intros [|x l]; simpl; trivial;
    now rewrite IH.
Qed.

Lemma put_twice (i : nat) (v u : cell) (r : row) : put i v (put i u r) = put i v r.
Proof. unfold put. simpl. now rewrite list_put_twice. Qed.

(** The position [assign] writes to. *)
Lemma col_index_assign_same (c : string) (f : row -> cell) (df : frame) :
  col_index c (columns (assign c f df))
  = Some (match col_index c (columns df) with
          | Some i => i
          | None => List.length (columns df)
          end).
Proof.
  unfold assign. destruct (col_index c (columns df)) as [i|] eqn:E; simpl.
  - exact E.
  - now apply col_index_app_new.
Qed.

Lemma assigned_put (c : string) (f : row -> cell) (df : frame) (r : row) :
  assigned c f df r
  = put (match col_index c (columns df) with
         | Some i => i
         | None => List.length (columns df)
         end) (f r) r.
Proof. unfold assigned. now destruct (col_index c (columns df)). Qed.

Lemma grouped_put `{Pandas} (df : frame) (e : string) (r : row) :
  grouped df e r
  = put (match col_index "EvalGroup" (columns df) with
         | Some i => i
         | None => List.length (columns df)
         end) (Str (eval_group (astype_str (lookup df e r)))) r.
Proof.
  unfold grouped. rewrite (assigned_put "EvalGroup" _ (assign _ _ _)).
  rewrite col_index_assign_same, lookup_assign_same. simpl fillna.
  rewrite assigned_put. apply put_twice.
Qed.

Lemma frame_eq (a b : frame) : columns a = columns b -> rows a = rows b -> a = b.
Proof. destruct a, b. simpl. now intros -> ->. Qed.

(** Normalising the categories of a table that has been normalised
    changes nothing: the result is that same table. *)
Theorem make_eval_group_idempotent `{Pandas} (df g : frame) (etype_col : string) :
  make_eval_group df etype_col = Ok g -> make_eval_group g etype_col = Ok g.
Proof.
  intro Hg.
  assert (He : has_col etype_col g = true).
  { pose proof (make_eval_group_has_etype _ _ _ Hg) as Hd.
    unfold make_eval_group in Hg. rewrite Hd in Hg. inversion Hg.
    now apply has_col_assign_keeps, has_col_assign_keeps. }
  assert (Hi : col_index "EvalGroup" (columns g)
               = Some (match col_index "EvalGroup" (columns df) with
                       | Some i => i
                       | None => List.length (columns df)
                       end)).
  { pose proof (make_eval_group_has_etype _ _ _ Hg) as Hd.
    unfold make_eval_group in Hg. rewrite Hd in Hg. inversion Hg.
    now rewrite !col_index_assign_same. }
  destruct (make_eval_group g etype_col) as [g'|e] eqn:Hg';
    [|unfold make_eval_group in Hg'; rewrite He in Hg'; discriminate].
  f_equal. apply frame_eq.
  - rewrite (make_eval_group_columns _ _ _ Hg'). unfold has_col. now rewrite Hi.
  - rewrite (make_eval_group_rows _ _ _ Hg'), (make_eval_group_rows _ _ _ Hg), map_map.
    apply map_ext. intro r. rewrite (grouped_put g), Hi.
    destruct (string_dec etype_col "EvalGroup") as [->|Hne].
    + rewrite (grouped_group _ _ _ Hg). simpl astype_str.
      rewrite eval_group_twice, grouped_put. apply put_twice.
    + rewrite (grouped_other _ _ _ Hg) by trivial.
      rewrite grouped_put. apply put_twice.
Qed.

Lemma make_eval_group_idempotent_witness :
  make_eval_group labels_frame "EvaluationType" = Ok labels_grouped
  /\ make_eval_group labels_grouped "EvaluationType" = Ok labels_grouped.
Proof.
  split; [reflexivity|].
  apply (make_eval_group_idempotent labels_frame labels_grouped "EvaluationType").
  reflexivity.
Defined.
